(** * GOSS-Repository: update_dependencies.py

    A shallow embedding of the version reconciliation and multi-source
    fetch pipeline of [update_dependencies.py], and the properties its
    specification states about it.

    Conventions of the embedding.
    - Python [str] and [bytes] values are [string]s (lists of 8-bit
      characters).  Text is taken to be ASCII: case folding, digits and
      white space are the ASCII ones, and the order on strings is the
      order on code points, which is what Python's [<] on [str] is.
    - A Python exception is a value of [exn]; a computation that may
      raise returns a [result].  [try]/[except] is [try_except] with the
      predicate of the caught classes.
    - The network and the file system are explicit: a run threads a
      [State] (the files written so far and the trace of requests and
      writes), and every request is answered by the environment's
      [urlopen], a function of the URL that stays fixed during a run.
      Creating a directory and writing a file always succeed.  [print]
      and [time.sleep] have no counterpart.
    - What the script takes from libraries and does not compute itself
      is a field of the environment [Env]: the JSON reader, the two
      regular expressions applied to a page of mvnrepository, URL
      quoting, [pathlib]'s join, and the configuration [load_config]
      returns.  The regular expressions of the version comparator and
      [int] are written out.
    - [main] is the full update (no flag) up to the two dictionaries of
      results; the report written from them and the call of the
      indexing tool are not part of the embedding. *)

From Stdlib Require Import ZArith List String Ascii Bool Lia DecimalString OrderedTypeEx.
From Stdlib Require Import Permutation Sorted.
From stdpp Require Import gmap strings.

Local Open Scope string_scope.
Local Open Scope list_scope.
Local Open Scope Z_scope.

(** ** Exceptions *)

(** The exception classes the script names in an [except] clause or can
    meet while it runs. *)
Inductive exn : Type :=
| URLError | HTTPError | TimeoutError | OSError
| ValueError | JSONDecodeError | UnicodeDecodeError
| KeyError | IndexError | TypeError | AttributeError.

Inductive result (A : Type) : Type :=
| Ok (a : A)
| Raise (e : exn).
Arguments Ok {A} a.
Arguments Raise {A} e.

(** [except (urllib.error.URLError, urllib.error.HTTPError)]:
    [HTTPError] is a subclass of [URLError]. *)
Definition is_URLError (e : exn) : bool :=
  match e with URLError | HTTPError => true | _ => false end.

(** [except ValueError]: [JSONDecodeError] and [UnicodeDecodeError] are
    subclasses of [ValueError]. *)
Definition is_ValueError (e : exn) : bool :=
  match e with ValueError | JSONDecodeError | UnicodeDecodeError => true | _ => false end.

Definition try_except {A} (body : result A) (caught : exn -> bool) (handler : exn -> result A)
  : result A :=
  match body with
  | Ok a => Ok a
  | Raise e => if caught e then handler e else Raise e
  end.

(** ** Characters and strings *)

Definition code (c : ascii) : nat := nat_of_ascii c.

Definition is_digit (c : ascii) : bool := (48 <=? code c)%nat && (code c <=? 57)%nat.

(** White space as [str.strip] sees it on ASCII text. *)
Definition is_space (c : ascii) : bool :=
  ((9 <=? code c)%nat && (code c <=? 13)%nat) || ((28 <=? code c)%nat && (code c <=? 32)%nat).

(** White space as [int] skips it around a literal: the tab, the line
    feed, the vertical tab, the form feed, the carriage return and the
    space, and not the four separators 28 to 31 that [str.strip] drops. *)
Definition is_int_space (c : ascii) : bool :=
  ((9 <=? code c)%nat && (code c <=? 13)%nat) || (code c =? 32)%nat.

Definition lower_char (c : ascii) : ascii :=
  if (65 <=? code c)%nat && (code c <=? 90)%nat then ascii_of_nat (code c + 32) else c.

(** [s.lower()] *)
Fixpoint lower (s : string) : string :=
  match s with
  | EmptyString => EmptyString
  | String c r => String (lower_char c) (lower r)
  end.

(** [s.startswith(p)] *)
Fixpoint startswith (p s : string) : bool :=
  match p, s with
  | EmptyString, _ => true
  | String a p', String b s' => Ascii.eqb a b && startswith p' s'
  | String _ _, EmptyString => false
  end.

(** [p in s] *)
Fixpoint contains (p s : string) : bool :=
  startswith p s || match s with
                    | EmptyString => false
                    | String _ r => contains p r
                    end.

(** [s.endswith(p)] *)
Fixpoint endswith (p s : string) : bool :=
  String.eqb p s || match s with
                    | EmptyString => false
                    | String _ r => endswith p r
                    end.

Fixpoint lstrip (s : string) : string :=
  match s with
  | EmptyString => EmptyString
  | String c r => if is_space c then lstrip r else s
  end.

Fixpoint rstrip (s : string) : string :=
  match s with
  | EmptyString => EmptyString
  | String c r =>
      match rstrip r with
      | EmptyString => if is_space c then EmptyString else String c EmptyString
      | r' => String c r'
      end
  end.

(** [s.strip()] *)
Definition strip (s : string) : string := rstrip (lstrip s).

(** What [int] reads of a string: the white space it skips at both ends
    is dropped. *)
Fixpoint int_lstrip (s : string) : string :=
  match s with
  | EmptyString => EmptyString
  | String c r => if is_int_space c then int_lstrip r else s
  end.

Fixpoint int_rstrip (s : string) : string :=
  match s with
  | EmptyString => EmptyString
  | String c r =>
      match int_rstrip r with
      | EmptyString => if is_int_space c then EmptyString else String c EmptyString
      | r' => String c r'
      end
  end.

Definition int_strip (s : string) : string := int_rstrip (int_lstrip s).

(** [str(n)] for an [int]. *)
Definition str_of_int (z : Z) : string := NilZero.string_of_int (Z.to_int z).

(** Python's [<] on [str]. *)
Definition str_lt (a b : string) : bool := String.ltb a b.

(** ** [int(p)] on a string *)

Definition digit_val (c : ascii) : Z := Z.of_nat (code c - 48).

(** The default of [sys.set_int_max_str_digits]: a longer literal makes
    [int] raise [ValueError]. *)
Definition int_max_str_digits : nat := 4300.

(** Digits after the first one; single underscores may separate digits.
    [n] counts the digits read, [us] says the previous character was an
    underscore. *)
Fixpoint int_digits (s : string) (acc : Z) (n : nat) (us : bool) : option (Z * nat) :=
  match s with
  | EmptyString => if us then None else Some (acc, n)
  | String c r =>
      if is_digit c then int_digits r (10 * acc + digit_val c) (S n) false
      else if Ascii.eqb c "_" && negb us then int_digits r acc n true
      else None
  end.

Definition int_literal (s : string) : option (Z * nat) :=
  match s with
  | String c r => if is_digit c then int_digits r (digit_val c) 1 false else None
  | EmptyString => None
  end.

(** [int(p)]: surrounding white space is dropped, one sign is allowed,
    anything else than a decimal literal raises [ValueError]. *)
Definition py_int (p : string) : result Z :=
  let t := int_strip p in
  let '(neg, body) :=
    match t with
    | String "+" r => (false, r)
    | String "-" r => (true, r)
    | _ => (false, t)
    end in
  match int_literal body with
  | Some (v, n) =>
      if (int_max_str_digits <? n)%nat then Raise ValueError
      else Ok (if neg then - v else v)
  | None => Raise ValueError
  end.

(** [x.isdigit()] on ASCII text: not empty and digits only. *)
Fixpoint all_digits (s : string) : bool :=
  match s with
  | EmptyString => true
  | String c r => is_digit c && all_digits r
  end.

Definition isdigit (s : string) : bool :=
  match s with
  | EmptyString => false
  | _ => all_digits s
  end.

(** ** The two regular expressions of the comparator *)

Definition is_delim (c : ascii) : bool :=
  Ascii.eqb c "." || Ascii.eqb c "_" || Ascii.eqb c "-".

(** [re.split(r'[._-]', v)]: every delimiter ends a token, so two
    delimiters in a row enclose an empty token. *)
Fixpoint re_split (v : string) : list string :=
  match v with
  | EmptyString => [EmptyString]
  | String c r =>
      if is_delim c then EmptyString :: re_split r
      else match re_split r with
           | tok :: toks => String c tok :: toks
           | [] => [String c EmptyString]
           end
  end.

Definition newline : string := String (ascii_of_nat 10) EmptyString.

(** Does [[-_](RELEASE|FINAL|GA)$] match [s] from its first character on?
    With [re.IGNORECASE] the word matches in any case; [$] matches at the
    end of the string and before a newline that ends it.  The answer is
    what is left of [s] after the match. *)
Definition qualifier_at (s : string) : option string :=
  match s with
  | String c w =>
      if Ascii.eqb c "-" || Ascii.eqb c "_" then
        let lw := lower w in
        if String.eqb lw "release" || String.eqb lw "final" || String.eqb lw "ga"
        then Some EmptyString
        else if String.eqb lw ("release" ++ newline) || String.eqb lw ("final" ++ newline)
                || String.eqb lw ("ga" ++ newline)
        then Some newline
        else None
      else None
  | EmptyString => None
  end.

(** [re.sub(r'[-_](RELEASE|FINAL|GA)$', '', v, flags=re.IGNORECASE)]: the
    leftmost match is removed; a match reaches the end of the string (or
    its last newline), so there is no second one. *)
Fixpoint re_sub_qualifier (v : string) : string :=
  match qualifier_at v with
  | Some rest => rest
  | None =>
      match v with
      | EmptyString => EmptyString
      | String c r => String c (re_sub_qualifier r)
      end
  end.

(** ** compare_versions *)

(** An element of a normalized version: an [int] or a [str]. *)
Inductive token : Type :=
| TInt (z : Z)
| TStr (s : string).

(** [str(a)] *)
Definition token_str (t : token) : string :=
  match t with
  | TInt z => str_of_int z
  | TStr s => s
  end.

(** The body of the loop of [normalize]:
    [try: result.append(int(p)) except ValueError: result.append(p)]. *)
Definition coerce (p : string) : result token :=
  try_except
    (match py_int p with Ok z => Ok (TInt z) | Raise e => Raise e end)
    is_ValueError
    (fun _ => Ok (TStr p)).

Fixpoint coerce_all (parts : list string) : result (list token) :=
  match parts with
  | [] => Ok []
  | p :: ps =>
      match coerce p with
      | Raise e => Raise e
      | Ok t =>
          match coerce_all ps with
          | Raise e => Raise e
          | Ok ts => Ok (t :: ts)
          end
      end
  end.

Definition normalize (v : string) : result (list token) :=
  coerce_all (re_split (re_sub_qualifier v)).

(** [for a, b in zip(n1, n2): ...]: [Some r] is an early [return r],
    [None] is the loop running to its end. *)
Fixpoint compare_zip (n1 n2 : list token) : option Z :=
  match n1, n2 with
  | a :: r1, b :: r2 =>
      match a, b with
      | TInt x, TInt y =>
          if x <? y then Some (-1)
          else if x >? y then Some 1
          else compare_zip r1 r2
      | _, _ =>
          if str_lt (token_str a) (token_str b) then Some (-1)
          else if str_lt (token_str b) (token_str a) then Some 1
          else compare_zip r1 r2
      end
  | _, _ => None
  end.

Definition compare_normalized (n1 n2 : list token) : Z :=
  match compare_zip n1 n2 with
  | Some r => r
  | None =>
      if (length n1 <? length n2)%nat then -1
      else if (length n2 <? length n1)%nat then 1
      else 0
  end.

Definition compare_versions (v1 v2 : string) : result Z :=
  match normalize v1 with
  | Raise e => Raise e
  | Ok n1 =>
      match normalize v2 with
      | Raise e => Raise e
      | Ok n2 => Ok (compare_normalized n1 n2)
      end
  end.

(** ** Python values *)

#[local] Set Warnings "-register-all".

(** What [json.loads] returns.  Numbers are the integers; a dictionary
    keeps its keys in order. *)
Inductive pyval : Type :=
| PNone
| PBool (b : bool)
| PInt (z : Z)
| PStr (s : string)
| PList (l : list pyval)
| PDict (d : list (string * pyval)).

Fixpoint assoc {A} (k : string) (d : list (string * A)) : option A :=
  match d with
  | [] => None
  | (k', v) :: r => if String.eqb k k' then Some v else assoc k r
  end.

(** [v[k]] for a string [k]. *)
Definition getitem (v : pyval) (k : string) : result pyval :=
  match v with
  | PDict d => match assoc k d with Some x => Ok x | None => Raise KeyError end
  | _ => Raise TypeError
  end.

(** [v[0]]: the keys of a dictionary read from JSON are strings, so [0]
    is never one of them. *)
Definition getitem0 (v : pyval) : result pyval :=
  match v with
  | PList (x :: _) => Ok x
  | PList [] => Raise IndexError
  | PStr (String c _) => Ok (PStr (String c EmptyString))
  | PStr EmptyString => Raise IndexError
  | PDict _ => Raise KeyError
  | _ => Raise TypeError
  end.

(** [v > 0] *)
Definition gt0 (v : pyval) : result bool :=
  match v with
  | PInt z => Ok (0 <? z)
  | PBool b => Ok b
  | _ => Raise TypeError
  end.

(** [d.get(k, default)] *)
Definition dict_get (v : pyval) (k : string) (default : pyval) : result pyval :=
  match v with
  | PDict d => Ok (match assoc k d with Some x => x | None => default end)
  | _ => Raise AttributeError
  end.

(** [for item in v]: the items the loop visits. *)
Definition iter (v : pyval) : result (list pyval) :=
  match v with
  | PList l => Ok l
  | PDict d => Ok (map (fun kv => PStr (fst kv)) d)
  | PStr s => Ok (map (fun c => PStr (String c EmptyString)) (list_ascii_of_string s))
  | _ => Raise TypeError
  end.

(** ** The environment and the state of a run *)

(** One entry of [additionalDownloads]; [None] is an absent key. *)
Record Item : Type := {
  item_comment : option string;
  item_groupId : option string;
  item_artifactId : option string;
  item_folder : option string;
  item_version : option string;
  item_source : option string;
  item_repoUrl : option string
}.

(** The elements [parse_index_xml] reads: an attribute element with its
    [name] and [value], a capability with its [namespace] and its
    attribute children, a resource with its capability children. *)
Record Attribute : Type := { attr_name : option string; attr_value : option string }.
Record Capability : Type := { cap_namespace : option string; cap_attributes : list Attribute }.
Definition Resource : Type := list Capability.

(** What [urlopen] hands back: the outcome of [response.read()]. *)
Definition response : Type := result string.

Record Env : Type := {
  (** [urllib.request.urlopen(req, timeout=...)] for a request of the
      given URL *)
  urlopen : string -> result response;
  (** [json.loads(body.decode())] *)
  json_loads : string -> result pyval;
  (** [body.decode('utf-8')] *)
  decode_utf8 : string -> result string;
  (** [urllib.parse.quote] *)
  url_quote : string -> string;
  (** [group(1)] of the first match of the release anchor in a page *)
  re_search_release : string -> option string;
  (** [group(1)] of the first match of the jar link in a page *)
  re_search_jar : string -> option string;
  (** [str(v)] for a list or a dictionary *)
  py_repr : pyval -> string;
  (** [a / b] on [pathlib.Path] *)
  path_join : string -> string -> string;
  (** [Path(__file__).parent] *)
  REPO_ROOT : string;
  (** the two values [load_config] returns *)
  BUNDLE_TO_MAVEN : gmap string (option (string * string));
  ADDITIONAL_DOWNLOADS : list Item;
  (** [index.xml]: [None] when [INDEX_FILE.exists()] is false, otherwise
      the resource elements of the parsed document *)
  index_file : option (list Resource)
}.

Inductive event : Type :=
| Request (url : string)
| Mkdir (dir : string)
| Write (path : string).

Record State : Type := {
  fs : gmap string string;
  trace : list event
}.

Definition M (A : Type) : Type := State -> result A * State.

Definition ret {A} (a : A) : M A := fun st => (Ok a, st).

Definition raise {A} (e : exn) : M A := fun st => (Raise e, st).

Definition bind {A B} (m : M A) (k : A -> M B) : M B :=
  fun st =>
    match m st with
    | (Ok a, st') => k a st'
    | (Raise e, st') => (Raise e, st')
    end.

Definition lift {A} (r : result A) : M A := fun st => (r, st).

(** [try: body except (caught classes): handler] *)
Definition try_catch {A} (body : M A) (caught : exn -> bool) (handler : exn -> M A) : M A :=
  fun st =>
    match body st with
    | (Ok a, st') => (Ok a, st')
    | (Raise e, st') => if caught e then handler e st' else (Raise e, st')
    end.

Declare Scope py_scope.
Delimit Scope py_scope with py.
Notation "x <- m ;; k" := (bind m (fun x => k))
  (at level 100, m at next level, right associativity) : py_scope.
Notation "m ;;; k" := (bind m (fun _ => k))
  (at level 100, right associativity) : py_scope.
Local Open Scope py_scope.

Definition log (e : event) : M unit :=
  fun st => (Ok tt, {| fs := fs st; trace := trace st ++ [e] |}).

Definition dquote : string := String (ascii_of_nat 34) EmptyString.

Definition MAVEN_SEARCH_URL : string := "https://search.maven.org/solrsearch/select".
Definition MAVEN_DOWNLOAD_URL : string := "https://repo1.maven.org/maven2".
Definition BND_HUB_URL : string := "https://raw.githubusercontent.com/bndtools/bundle-hub/master".

Definition MAVEN_REPOSITORIES : list (string * string) :=
  [ ("Maven Central", "https://repo1.maven.org/maven2");
    ("Spring Plugins", "https://repo.spring.io/plugins-release");
    ("Spring Libs", "https://repo.spring.io/libs-release");
    ("JBoss", "https://repository.jboss.org/nexus/content/repositories/releases");
    ("Sonatype", "https://oss.sonatype.org/content/repositories/releases") ].

(** [if x:] for an optional string: [None] and the empty string are false. *)
Definition truthy (o : option string) : bool :=
  match o with
  | Some s => negb (String.eqb s EmptyString)
  | None => false
  end.

(** [str(v)], as an f-string interpolates a value. *)
Definition format_value (E : Env) (v : pyval) : string :=
  match v with
  | PStr s => s
  | PNone => "None"
  | PBool true => "True"
  | PBool false => "False"
  | PInt z => str_of_int z
  | _ => py_repr E v
  end.

(** ** Sorting *)

(** [l.sort(key=..., reverse=True)] on the list of the items paired with
    their keys.  The sort is stable and compares keys with [<] only:
    an item moves in front of the items whose key is smaller than its
    own and stays behind those of an equal key that came before it.
    A comparison that raises ends the sort.  (CPython picks the pairs it
    compares in another order; on two items every order makes the same
    single comparison.) *)
Fixpoint insert_desc {K A} (lt : K -> K -> result bool) (x : K * A) (l : list (K * A))
  : result (list (K * A)) :=
  match l with
  | [] => Ok [x]
  | y :: r =>
      match lt (fst x) (fst y) with
      | Raise e => Raise e
      | Ok true =>
          match insert_desc lt x r with
          | Raise e => Raise e
          | Ok r' => Ok (y :: r')
          end
      | Ok false => Ok (x :: y :: r)
      end
  end.

Fixpoint sort_keyed_desc {K A} (lt : K -> K -> result bool) (l : list (K * A))
  : result (list (K * A)) :=
  match l with
  | [] => Ok []
  | x :: r =>
      match sort_keyed_desc lt r with
      | Raise e => Raise e
      | Ok r' => insert_desc lt x r'
      end
  end.

(** The keys are computed for the whole list before any comparison. *)
Fixpoint keyed {K A} (key : A -> result K) (l : list A) : result (list (K * A)) :=
  match l with
  | [] => Ok []
  | x :: r =>
      match key x with
      | Raise e => Raise e
      | Ok k =>
          match keyed key r with
          | Raise e => Raise e
          | Ok r' => Ok ((k, x) :: r')
          end
      end
  end.

Definition sort_reverse {K A} (key : A -> result K) (lt : K -> K -> result bool) (l : list A)
  : result (list A) :=
  match keyed key l with
  | Raise e => Raise e
  | Ok kl =>
      match sort_keyed_desc lt kl with
      | Raise e => Raise e
      | Ok sorted => Ok (map snd sorted)
      end
  end.

(** [a < b] on two [str] keys; it never raises. *)
Definition by_string (a b : string) : result bool := Ok (str_lt a b).

(** [sorted(d.items())] for a dictionary with string keys: ascending in
    the key; the keys of a dictionary differ, so the values are never
    compared. *)
Fixpoint insert_asc {A} (x : string * A) (l : list (string * A)) : list (string * A) :=
  match l with
  | [] => [x]
  | y :: r => if str_lt (fst y) (fst x) then y :: insert_asc x r else x :: y :: r
  end.

Fixpoint sorted_items {A} (l : list (string * A)) : list (string * A) :=
  match l with
  | [] => []
  | x :: r => insert_asc x (sorted_items r)
  end.

(** ** The bundle-hub key *)

(** [int(x) if x.isdigit() else x] *)
Definition hub_token (x : string) : result token :=
  if isdigit x then
    match py_int x with
    | Ok z => Ok (TInt z)
    | Raise e => Raise e
    end
  else Ok (TStr x).

Fixpoint hub_tokens (parts : list string) : result (list token) :=
  match parts with
  | [] => Ok []
  | p :: ps =>
      match hub_token p with
      | Raise e => Raise e
      | Ok t =>
          match hub_tokens ps with
          | Raise e => Raise e
          | Ok ts => Ok (t :: ts)
          end
      end
  end.

(** [lambda v: [int(x) if x.isdigit() else x for x in re.split(r'[._-]', v)]] *)
Definition hub_key (v : string) : result (list token) := hub_tokens (re_split v).

(** [a == b] on list elements: an [int] never equals a [str]. *)
Definition token_eqb (a b : token) : bool :=
  match a, b with
  | TInt x, TInt y => x =? y
  | TStr s, TStr t => String.eqb s t
  | _, _ => false
  end.

(** [a < b] on list elements: Python refuses to order an [int] and a
    [str]. *)
Definition token_lt (a b : token) : result bool :=
  match a, b with
  | TInt x, TInt y => Ok (x <? y)
  | TStr s, TStr t => Ok (str_lt s t)
  | _, _ => Raise TypeError
  end.

(** [k1 < k2] on lists: the first pair of unequal elements decides; when
    one list is a prefix of the other the shorter is smaller. *)
Fixpoint list_lt (k1 k2 : list token) : result bool :=
  match k1, k2 with
  | a :: r1, b :: r2 => if token_eqb a b then list_lt r1 r2 else token_lt a b
  | [], _ :: _ => Ok true
  | _, [] => Ok false
  end.

(** ** Records the functions return *)

(** The dictionary [get_latest_version_from_maven] returns. *)
Record MavenInfo : Type := {
  mi_version : pyval;
  mi_group_id : pyval;
  mi_artifact_id : pyval
}.

(** The dictionary [search_mvnrepository] returns. *)
Record MvnRepositoryInfo : Type := {
  mr_group_id : string;
  mr_artifact_id : string;
  mr_version : string;
  mr_direct_url : option string;
  mr_repositories : list (string * string)
}.

(** An entry [parse_index_xml] keeps: its identity and its version are
    non-empty strings. *)
Record Bundle : Type := {
  identity : string;
  version : string;
  url : option string;
  type : option string
}.

Section Script.

Context (E : Env).

Definition REPO_DIR : string := path_join E (REPO_ROOT E) "dependencies".

(** ** Requests and files *)

(** A request: it is recorded, and the environment answers it. *)
Definition http_open (u : string) : M response :=
  log (Request u) ;;; lift (urlopen E u).

(** [response.read()] *)
Definition read (r : response) : M string := lift r.

(** [dest_dir.mkdir(parents=True, exist_ok=True)] *)
Definition mkdir (d : string) : M unit := log (Mkdir d).

(** [open(path, 'wb')]: the file is created, or emptied. *)
Definition open_wb (path : string) : M unit :=
  fun st => (Ok tt, {| fs := <[path := EmptyString]> (fs st); trace := trace st ++ [Write path] |}).

(** [f.write(data)] on a file just opened. *)
Definition file_write (path data : string) : M unit :=
  fun st => (Ok tt, {| fs := <[path := data]> (fs st); trace := trace st |}).

(** [path.exists()] *)
Definition path_exists (path : string) : M bool :=
  fun st => (Ok (bool_decide (is_Some (fs st !! path))), st).

(** ** parse_index_xml *)

(** The four keys of [bundle_info]. *)
Record BundleInfo : Type := {
  bi_identity : option string;
  bi_version : option string;
  bi_url : option string;
  bi_type : option string
}.

Definition name_is (a : Attribute) (n : string) : bool :=
  match attr_name a with
  | Some s => String.eqb s n
  | None => false
  end.

Definition read_identity_attribute (b : BundleInfo) (a : Attribute) : BundleInfo :=
  if name_is a "osgi.identity"
  then {| bi_identity := attr_value a; bi_version := bi_version b;
          bi_url := bi_url b; bi_type := bi_type b |}
  else if name_is a "version"
  then {| bi_identity := bi_identity b; bi_version := attr_value a;
          bi_url := bi_url b; bi_type := bi_type b |}
  else if name_is a "type"
  then {| bi_identity := bi_identity b; bi_version := bi_version b;
          bi_url := bi_url b; bi_type := attr_value a |}
  else b.

Definition read_content_attribute (b : BundleInfo) (a : Attribute) : BundleInfo :=
  if name_is a "url"
  then {| bi_identity := bi_identity b; bi_version := bi_version b;
          bi_url := attr_value a; bi_type := bi_type b |}
  else b.

Definition read_capability (b : BundleInfo) (c : Capability) : BundleInfo :=
  match cap_namespace c with
  | Some ns =>
      if String.eqb ns "osgi.identity" then fold_left read_identity_attribute (cap_attributes c) b
      else if String.eqb ns "osgi.content" then fold_left read_content_attribute (cap_attributes c) b
      else b
  | None => b
  end.

Definition read_resource (r : Resource) : list Bundle :=
  let b := fold_left read_capability r
             {| bi_identity := None; bi_version := None; bi_url := None; bi_type := None |} in
  match bi_identity b, bi_version b with
  | Some i, Some v =>
      if truthy (Some i) && truthy (Some v)
      then [ {| identity := i; version := v; url := bi_url b; type := bi_type b |} ]
      else []
  | _, _ => []
  end.

Definition parse_index_xml (resources : list Resource) : list Bundle :=
  flat_map read_resource resources.

(** ** get_latest_version_from_maven *)

Definition maven_search_url (group_id artifact_id : string) : string :=
  let query := ("g:" ++ dquote ++ group_id ++ dquote ++ " AND a:" ++ dquote ++ artifact_id ++ dquote)%string in
  (MAVEN_SEARCH_URL ++ "?q=" ++ url_quote E query ++ "&rows=1&wt=json")%string.

Definition bindr {A B} (r : result A) (k : A -> result B) : result B :=
  match r with
  | Ok a => k a
  | Raise e => Raise e
  end.

(** What the body of the [try] does with the decoded document: [Some]
    is the dictionary returned inside the [if], [None] is falling out of
    the [with] block. *)
Definition read_search_response (data : pyval) : result (option MavenInfo) :=
  bindr (getitem data "response") (fun response =>
  bindr (getitem response "numFound") (fun num_found =>
  bindr (gt0 num_found) (fun found =>
  if found then
    bindr (getitem data "response") (fun response' =>
    bindr (getitem response' "docs") (fun docs =>
    bindr (getitem0 docs) (fun doc =>
    bindr (dict_get doc "v" PNone) (fun v =>
    bindr (dict_get doc "latestVersion" v) (fun ver =>
    bindr (getitem doc "g") (fun g =>
    bindr (getitem doc "a") (fun a =>
    Ok (Some {| mi_version := ver; mi_group_id := g; mi_artifact_id := a |}))))))))
  else Ok None))).

(** [except (urllib.error.URLError, urllib.error.HTTPError,
    json.JSONDecodeError, KeyError)] *)
Definition caught_by_search (e : exn) : bool :=
  match e with
  | URLError | HTTPError | JSONDecodeError | KeyError => true
  | _ => false
  end.

Definition get_latest_version_from_maven (group_id artifact_id : string) : M (option MavenInfo) :=
  try_catch
    (resp <- http_open (maven_search_url group_id artifact_id) ;;
     body <- read resp ;;
     data <- lift (json_loads E body) ;;
     lift (read_search_response data))
    caught_by_search
    (fun _ => ret None).

(** ** download_jar *)

(** [group_id.replace('.', '/')] *)
Fixpoint dots_to_slashes (s : string) : string :=
  match s with
  | EmptyString => EmptyString
  | String c r => String (if Ascii.eqb c "." then "/"%char else c) (dots_to_slashes r)
  end.

Definition jar_name (artifact_id version : string) : string :=
  (artifact_id ++ "-" ++ version ++ ".jar")%string.

Definition jar_url (repo_url group_id artifact_id version : string) : string :=
  (repo_url ++ "/" ++ dots_to_slashes group_id ++ "/" ++ artifact_id ++ "/" ++ version
     ++ "/" ++ jar_name artifact_id version)%string.

(** [len(data) < 1000 and b'<html' in data.lower()] *)
Definition is_error_page (data : string) : bool :=
  (String.length data <? 1000)%nat && contains "<html" (lower data).

(** [if repo_url is None: repo_url = MAVEN_DOWNLOAD_URL] *)
Definition repository_of (repo_url : option string) : string :=
  match repo_url with
  | Some u => u
  | None => MAVEN_DOWNLOAD_URL
  end.

Definition download_jar (group_id artifact_id version dest_dir : string)
    (repo_url : option string) : M bool :=
  let u := jar_url (repository_of repo_url) group_id artifact_id version in
  mkdir dest_dir ;;;
  let dest_path := path_join E dest_dir (jar_name artifact_id version) in
  try_catch
    (resp <- http_open u ;;
     data <- read resp ;;
     if is_error_page data then ret false
     else (open_wb dest_path ;;; file_write dest_path data ;;; ret true))
    is_URLError
    (fun _ => ret false).

(** ** download_jar_from_multiple_repos *)

(** [for repo_name, repo_url in repos.items(): ...], ending in
    [return False, None]. *)
Fixpoint download_jar_from_repos (repos : list (string * string))
    (group_id artifact_id version dest_dir : string) : M (bool * option string) :=
  match repos with
  | [] => ret (false, None)
  | (repo_name, repo_url) :: rest =>
      ok <- download_jar group_id artifact_id version dest_dir (Some repo_url) ;;
      if ok then ret (true, Some repo_name)
      else download_jar_from_repos rest group_id artifact_id version dest_dir
  end.

Definition download_jar_from_multiple_repos (group_id artifact_id version dest_dir : string)
  : M (bool * option string) :=
  download_jar_from_repos MAVEN_REPOSITORIES group_id artifact_id version dest_dir.

(** ** search_mvnrepository *)

Definition mvnrepository_url (group_id artifact_id : string) (version : option string) : string :=
  match version with
  | Some v =>
      if truthy version
      then ("https://mvnrepository.com/artifact/" ++ group_id ++ "/" ++ artifact_id ++ "/" ++ v)%string
      else ("https://mvnrepository.com/artifact/" ++ group_id ++ "/" ++ artifact_id)%string
  | None => ("https://mvnrepository.com/artifact/" ++ group_id ++ "/" ++ artifact_id)%string
  end.

(** The repositories the page names, in the order of the three tests. *)
Definition page_repositories (html : string) : list (string * string) :=
  (if contains "repo1.maven.org" html || contains "Maven Central" html
   then [("Maven Central", "https://repo1.maven.org/maven2")] else [])
  ++ (if contains "repository.spring.io" html || contains "Spring" html
      then [("Spring", "https://repo.spring.io/plugins-release")] else [])
  ++ (if contains "repository.jboss.org" html
      then [("JBoss", "https://repository.jboss.org/nexus/content/repositories/releases")] else []).

Definition read_mvnrepository_page (group_id artifact_id : string) (version : option string)
    (html : string) : option MvnRepositoryInfo :=
  let found :=
    match version with
    | Some v => if truthy version then Some v else option_map strip (re_search_release E html)
    | None => option_map strip (re_search_release E html)
    end in
  match found with
  | None => None
  | Some v =>
      let repo_urls := page_repositories html in
      Some {| mr_group_id := group_id;
              mr_artifact_id := artifact_id;
              mr_version := v;
              mr_direct_url := re_search_jar E html;
              mr_repositories :=
                match repo_urls with
                | [] => [("Maven Central", "https://repo1.maven.org/maven2")]
                | _ => repo_urls
                end |}
  end.

(** [except Exception] catches every exception of [exn]. *)
Definition search_mvnrepository (group_id artifact_id : string) (version : option string)
  : M (option MvnRepositoryInfo) :=
  try_catch
    (resp <- http_open (mvnrepository_url group_id artifact_id version) ;;
     body <- read resp ;;
     html <- lift (decode_utf8 E body) ;;
     ret (read_mvnrepository_page group_id artifact_id version html))
    (fun _ => true)
    (fun _ => ret None).

(** ** get_latest_version_from_bnd_hub *)

(** [name[start:-4]] *)
Definition slice_to_minus4 (name : string) (start : nat) : string :=
  let n := String.length name in
  String.substring (Nat.min start n) ((n - 4) - Nat.min start n) name.

(** The body of the loop over the listing: [Some v] is
    [versions.append(v)]. *)
Definition hub_item_version (bundle_name : string) (item : pyval) : result (option string) :=
  bindr (getitem item "type") (fun ty =>
  match ty with
  | PStr "file" =>
      bindr (getitem item "name") (fun name =>
      match name with
      | PStr n =>
          if endswith ".jar" n then
            if startswith (bundle_name ++ "-")%string n && endswith ".jar" n
            then Ok (Some (slice_to_minus4 n (String.length bundle_name + 1)))
            else Ok None
          else Ok None
      | _ => Raise AttributeError
      end)
  | _ => Ok None
  end).

Fixpoint hub_versions (bundle_name : string) (items : list pyval) : result (list string) :=
  match items with
  | [] => Ok []
  | item :: rest =>
      bindr (hub_item_version bundle_name item) (fun v =>
      bindr (hub_versions bundle_name rest) (fun vs =>
      Ok (match v with Some x => x :: vs | None => vs end)))
  end.

Definition read_hub_listing (bundle_name : string) (data : pyval) : result (option string) :=
  bindr (iter data) (fun items =>
  bindr (hub_versions bundle_name items) (fun versions =>
  match versions with
  | [] => Ok None
  | _ =>
      bindr (sort_reverse hub_key list_lt versions) (fun sorted =>
      Ok (hd_error sorted))
  end)).

(** [except (urllib.error.URLError, urllib.error.HTTPError,
    json.JSONDecodeError)] *)
Definition caught_by_hub (e : exn) : bool :=
  match e with
  | URLError | HTTPError | JSONDecodeError => true
  | _ => false
  end.

Definition bnd_hub_api_url (bundle_name : string) : string :=
  ("https://api.github.com/repos/bndtools/bundle-hub/contents/" ++ bundle_name)%string.

Definition get_latest_version_from_bnd_hub (bundle_name : string) : M (option string) :=
  try_catch
    (resp <- http_open (bnd_hub_api_url bundle_name) ;;
     body <- read resp ;;
     data <- lift (json_loads E body) ;;
     lift (read_hub_listing bundle_name data))
    caught_by_hub
    (fun _ => ret None).

(** ** download_from_bnd_hub *)

Definition bnd_hub_jar_url (bundle_name version : string) : string :=
  (BND_HUB_URL ++ "/" ++ bundle_name ++ "/" ++ jar_name bundle_name version)%string.

(** The file is opened before the body is read:
    [with open(dest_path, 'wb') as f: f.write(response.read())]. *)
Definition download_from_bnd_hub (bundle_name version dest_dir : string) : M bool :=
  let u := bnd_hub_jar_url bundle_name version in
  mkdir dest_dir ;;;
  let dest_path := path_join E dest_dir (jar_name bundle_name version) in
  try_catch
    (resp <- http_open u ;;
     open_wb dest_path ;;;
     data <- read resp ;;
     file_write dest_path data ;;;
     ret true)
    is_URLError
    (fun _ => ret false).

(** ** get_dest_dir_from_url *)

(** [url.split('/')[0]] *)
Fixpoint first_segment (u : string) : string :=
  match u with
  | EmptyString => EmptyString
  | String c r => if Ascii.eqb c "/" then EmptyString else String c (first_segment r)
  end.

(** [url.split] on [None] raises [AttributeError]; a split has at least
    one part, so the first branch of the [if] is always taken. *)
Definition get_dest_dir_from_url (u : option string) : result string :=
  match u with
  | Some s => Ok (path_join E REPO_DIR (first_segment s))
  | None => Raise AttributeError
  end.

(** ** download_additional_bundles *)

Record Downloaded : Type := {
  dl_group_id : string;
  dl_artifact_id : string;
  dl_version : pyval;
  dl_folder : string;
  dl_source : string
}.

Record DownloadError : Type := {
  de_group_id : string;
  de_artifact_id : string;
  de_reason : string
}.

Record Existing : Type := {
  ex_group_id : string;
  ex_artifact_id : string;
  ex_version : pyval;
  ex_folder : string
}.

(** The dictionary of three lists the function fills. *)
Record AdditionalResults : Type := {
  downloaded : list Downloaded;
  download_errors : list DownloadError;
  already_exists : list Existing
}.

Definition no_additional_results : AdditionalResults :=
  {| downloaded := []; download_errors := []; already_exists := [] |}.

Definition add_downloaded (r : AdditionalResults) (x : Downloaded) : AdditionalResults :=
  {| downloaded := downloaded r ++ [x]; download_errors := download_errors r;
     already_exists := already_exists r |}.

Definition add_download_error (r : AdditionalResults) (x : DownloadError) : AdditionalResults :=
  {| downloaded := downloaded r; download_errors := download_errors r ++ [x];
     already_exists := already_exists r |}.

Definition add_already_exists (r : AdditionalResults) (x : Existing) : AdditionalResults :=
  {| downloaded := downloaded r; download_errors := download_errors r;
     already_exists := already_exists r ++ [x] |}.

(** [k in item] *)
Definition has_key (o : option string) : bool :=
  match o with Some _ => true | None => false end.

(** [item.get(k, default)] *)
Definition get_or (o : option string) (default : string) : string :=
  match o with Some s => s | None => default end.

(** The branch [if source == 'BND Hub']. *)
Definition process_bnd_hub_item (check_existing : bool) (group_id artifact_id folder : string)
    (pinned_version : option string) (results : AdditionalResults) : M AdditionalResults :=
  let bundle_name := artifact_id in
  let version := if truthy pinned_version then get_or pinned_version "4.3.0" else "4.3.0" in
  let dest_dir := path_join E REPO_DIR folder in
  let dest_path := path_join E dest_dir (jar_name bundle_name version) in
  present <- (if check_existing then path_exists dest_path else ret false) ;;
  if present then
    ret (add_already_exists results
           {| ex_group_id := group_id; ex_artifact_id := artifact_id;
              ex_version := PStr version; ex_folder := folder |})
  else
    ok <- download_from_bnd_hub bundle_name version dest_dir ;;
    if ok then
      ret (add_downloaded results
             {| dl_group_id := group_id; dl_artifact_id := artifact_id;
                dl_version := PStr version; dl_folder := folder; dl_source := "BND Hub" |})
    else
      ret (add_download_error results
             {| de_group_id := group_id; de_artifact_id := artifact_id;
                de_reason := "Failed to download from BND Hub" |}).

(** The version of an item that is not a bundle-hub one: the pinned
    version, or the latest one Maven Central knows, or the one
    mvnrepository shows; [None] when both lookups found nothing. *)
Definition resolve_item_version (group_id artifact_id : string) (pinned_version : option string)
  : M (option pyval) :=
  if truthy pinned_version then ret (option_map PStr pinned_version)
  else
    maven_info <- get_latest_version_from_maven group_id artifact_id ;;
    match maven_info with
    | Some info => ret (Some (mi_version info))
    | None =>
        fallback <- search_mvnrepository group_id artifact_id None ;;
        match fallback with
        | Some info => ret (Some (PStr (mr_version info)))
        | None => ret None
        end
    end.

(** The download of an item whose version is known: the custom
    repository alone when there is one, otherwise Maven Central and then
    the list of repositories.  The answer is [success] and
    [actual_source]. *)
Definition fetch_item (group_id artifact_id version dest_dir : string) (repo_url : option string)
  : M (bool * string) :=
  if truthy repo_url then
    success <- download_jar group_id artifact_id version dest_dir repo_url ;;
    ret (success, get_or repo_url EmptyString)
  else
    success <- download_jar group_id artifact_id version dest_dir None ;;
    if success then ret (true, "Maven Central")
    else
      r <- download_jar_from_multiple_repos group_id artifact_id version dest_dir ;;
      match r with
      | (true, repo_name) => ret (true, get_or repo_name EmptyString)
      | (false, _) => ret (false, "Maven Central")
      end.

(** One turn of the loop over [additional_downloads]. *)
Definition process_item (check_existing : bool) (item : Item) (results : AdditionalResults)
  : M AdditionalResults :=
  if has_key (item_comment item) && negb (has_key (item_groupId item)) then ret results
  else
    let folder := get_or (item_folder item) "misc" in
    let pinned_version := item_version item in
    let source := get_or (item_source item) "Maven Central" in
    if negb (truthy (item_groupId item)) || negb (truthy (item_artifactId item)) then ret results
    else
      let group_id := get_or (item_groupId item) EmptyString in
      let artifact_id := get_or (item_artifactId item) EmptyString in
      if String.eqb source "BND Hub"
      then process_bnd_hub_item check_existing group_id artifact_id folder pinned_version results
      else
        resolved <- resolve_item_version group_id artifact_id pinned_version ;;
        match resolved with
        | None =>
            ret (add_download_error results
                   {| de_group_id := group_id; de_artifact_id := artifact_id;
                      de_reason := "Not found on Maven Central or mvnrepository" |})
        | Some latest_version =>
            let v := format_value E latest_version in
            let dest_dir := path_join E REPO_DIR folder in
            let dest_path := path_join E dest_dir (jar_name artifact_id v) in
            present <- (if check_existing then path_exists dest_path else ret false) ;;
            if present then
              ret (add_already_exists results
                     {| ex_group_id := group_id; ex_artifact_id := artifact_id;
                        ex_version := latest_version; ex_folder := folder |})
            else
              r <- fetch_item group_id artifact_id v dest_dir (item_repoUrl item) ;;
              let '(success, actual_source) := r in
              if success then
                ret (add_downloaded results
                       {| dl_group_id := group_id; dl_artifact_id := artifact_id;
                          dl_version := latest_version; dl_folder := folder;
                          dl_source := actual_source |})
              else
                ret (add_download_error results
                       {| de_group_id := group_id; de_artifact_id := artifact_id;
                          de_reason := ("Failed to download " ++ v ++ " from any repository")%string |})
        end.

Fixpoint process_items (check_existing : bool) (items : list Item) (results : AdditionalResults)
  : M AdditionalResults :=
  match items with
  | [] => ret results
  | item :: rest =>
      results' <- process_item check_existing item results ;;
      process_items check_existing rest results'
  end.

Definition download_additional_bundles (additional_downloads : list Item) (check_existing : bool)
  : M AdditionalResults :=
  match additional_downloads with
  | [] => ret no_additional_results
  | _ => process_items check_existing additional_downloads no_additional_results
  end.

(** ** main: the full update *)

(** The dictionaries appended to the six lists of [results]. *)
Inductive OutcomeRecord : Type :=
| Updated (identity group_id artifact_id old_version new_version : string)
| UpToDate (identity group_id artifact_id version : string)
| Unavailable (identity group_id artifact_id local_version : string) (url : option string)
| LocalOnly (identity local_version : string) (url : option string)
| NotMapped (identity local_version : string) (url : option string)
| Error (identity reason group_id artifact_id : string).

Record Results : Type := {
  updated : list OutcomeRecord;
  up_to_date : list OutcomeRecord;
  unavailable : list OutcomeRecord;
  local_only : list OutcomeRecord;
  not_mapped : list OutcomeRecord;
  errors : list OutcomeRecord
}.

Definition no_results : Results :=
  {| updated := []; up_to_date := []; unavailable := []; local_only := [];
     not_mapped := []; errors := [] |}.

(** [results[key].append(record)], the key being the one of the record's
    kind. *)
Definition append_outcome (r : Results) (x : OutcomeRecord) : Results :=
  match x with
  | Updated _ _ _ _ _ =>
      {| updated := updated r ++ [x]; up_to_date := up_to_date r; unavailable := unavailable r;
         local_only := local_only r; not_mapped := not_mapped r; errors := errors r |}
  | UpToDate _ _ _ _ =>
      {| updated := updated r; up_to_date := up_to_date r ++ [x]; unavailable := unavailable r;
         local_only := local_only r; not_mapped := not_mapped r; errors := errors r |}
  | Unavailable _ _ _ _ _ =>
      {| updated := updated r; up_to_date := up_to_date r; unavailable := unavailable r ++ [x];
         local_only := local_only r; not_mapped := not_mapped r; errors := errors r |}
  | LocalOnly _ _ _ =>
      {| updated := updated r; up_to_date := up_to_date r; unavailable := unavailable r;
         local_only := local_only r ++ [x]; not_mapped := not_mapped r; errors := errors r |}
  | NotMapped _ _ _ =>
      {| updated := updated r; up_to_date := up_to_date r; unavailable := unavailable r;
         local_only := local_only r; not_mapped := not_mapped r ++ [x]; errors := errors r |}
  | Error _ _ _ _ =>
      {| updated := updated r; up_to_date := up_to_date r; unavailable := unavailable r;
         local_only := local_only r; not_mapped := not_mapped r; errors := errors r ++ [x] |}
  end.

(** [bundle_versions[identity].append(bundle)], after the key was given
    an empty list if it was new; a new key goes last. *)
Fixpoint group_append (b : Bundle) (d : list (string * list Bundle)) : list (string * list Bundle) :=
  match d with
  | [] => [(identity b, [b])]
  | (k, versions) :: rest =>
      if String.eqb k (identity b) then (k, (versions ++ [b])%list) :: rest
      else (k, versions) :: group_append b rest
  end.

Definition group_by_identity (bundles : list Bundle) : list (string * list Bundle) :=
  fold_left (fun d b => group_append b d) bundles [].

(** [versions.sort(key=lambda x: x['version'], reverse=True)] and then
    [versions[0]]. *)
Definition highest_version (versions : list Bundle) : result Bundle :=
  bindr (sort_reverse (fun x => Ok (version x)) by_string versions)
    (fun sorted =>
       match sorted with
       | b :: _ => Ok b
       | [] => Raise IndexError
       end).

Fixpoint latest_of (groups : list (string * list Bundle)) : result (list (string * Bundle)) :=
  match groups with
  | [] => Ok []
  | (k, versions) :: rest =>
      bindr (highest_version versions) (fun b =>
      bindr (latest_of rest) (fun r => Ok ((k, b) :: r)))
  end.

(** The dictionary [latest_bundles] of [main]. *)
Definition latest_bundles (bundles : list Bundle) : result (list (string * Bundle)) :=
  latest_of (group_by_identity bundles).

(** One turn of the loop over [sorted(latest_bundles.items())]. *)
Definition process_bundle (ident : string) (bundle : Bundle) (results : Results) : M Results :=
  let local_version := version bundle in
  let u := url bundle in
  match BUNDLE_TO_MAVEN E !! ident with
  | None => ret (append_outcome results (NotMapped ident local_version u))
  | Some None => ret (append_outcome results (LocalOnly ident local_version u))
  | Some (Some (group_id, artifact_id)) =>
      maven_info <- get_latest_version_from_maven group_id artifact_id ;;
      match maven_info with
      | None =>
          ret (append_outcome results (Unavailable ident group_id artifact_id local_version u))
      | Some info =>
          match mi_version info with
          | PStr latest_version =>
              cmp <- lift (compare_versions local_version latest_version) ;;
              if 0 <=? cmp then
                ret (append_outcome results (UpToDate ident group_id artifact_id local_version))
              else
                dest_dir <- lift (get_dest_dir_from_url u) ;;
                ok <- download_jar group_id artifact_id latest_version dest_dir None ;;
                if ok then
                  ret (append_outcome results
                         (Updated ident group_id artifact_id local_version latest_version))
                else
                  ret (append_outcome results
                         (Error ident ("Failed to download " ++ latest_version)%string
                            group_id artifact_id))
          | _ => raise TypeError
          end
      end
  end.

Fixpoint process_bundles (items : list (string * Bundle)) (results : Results) : M Results :=
  match items with
  | [] => ret results
  | (ident, bundle) :: rest =>
      results' <- process_bundle ident bundle results ;;
      process_bundles rest results'
  end.

(** The bundles the run starts from: none when [index.xml] is absent. *)
Definition index_bundles : list Bundle :=
  match index_file E with
  | None => []
  | Some resources => parse_index_xml resources
  end.

(** [main] without a flag, up to the report: the two result
    dictionaries the report is written from. *)
Definition main : M (Results * AdditionalResults) :=
  latest <- lift (latest_bundles index_bundles) ;;
  results <- process_bundles (sorted_items latest) no_results ;;
  additional_results <- download_additional_bundles (ADDITIONAL_DOWNLOADS E) false ;;
  ret (results, additional_results).

End Script.

(** ** Reading a run *)

(** The paths of the files a trace opened for writing, in order. *)
Fixpoint written (t : list event) : list string :=
  match t with
  | [] => []
  | Write p :: r => p :: written r
  | _ :: r => written r
  end.

(** The requests of a trace, in order. *)
Fixpoint requested (t : list event) : list string :=
  match t with
  | [] => []
  | Request u :: r => u :: requested r
  | _ :: r => requested r
  end.

Ltac appended :=
  unfold ret;
  match goal with
  | |- (Ok (append_outcome _ ?x), _) = _ -> _ =>
      let H := fresh in let H1 := fresh in
      intros H; exists x; injection H as H1 _; symmetry; exact H1
  end.

Ltac run :=
  unfold bind, ret, raise, lift, log, try_catch, mkdir, http_open, read, open_wb,
    file_write, path_exists; cbn.

(** ** Environments for worked examples *)

(** An environment given by its network, its JSON reader, the release
    anchor of a page and the configuration; text is decoded as it is,
    paths are joined with a slash. *)
Definition sample_env (net : string -> result response) (loads : string -> result pyval)
    (release : string -> option string)
    (mapping : gmap string (option (string * string))) (items : list Item)
    (index : option (list Resource)) : Env :=
  {| urlopen := net;
     json_loads := loads;
     decode_utf8 := fun b => Ok b;
     url_quote := fun q => q;
     re_search_release := release;
     re_search_jar := fun _ => None;
     py_repr := fun _ => EmptyString;
     path_join := fun d f => (d ++ "/" ++ f)%string;
     REPO_ROOT := "/srv";
     BUNDLE_TO_MAVEN := mapping;
     ADDITIONAL_DOWNLOADS := items;
     index_file := index |}.

Definition empty_state : State := {| fs := ∅; trace := [] |}.

(** An error page answered with status 200, and a body that is not one. *)
Definition error_page : string := "<html>Error</html>".
Definition jar_bytes : string := "PK-jar-bytes".

(** A network where Maven Central answers an error page for [g:a:1.3.0]
    and a jar for [g:b:1.3.0], and nothing else answers. *)
Definition central_net (u : string) : result response :=
  if String.eqb u (jar_url MAVEN_DOWNLOAD_URL "g" "a" "1.3.0") then Ok (Ok error_page)
  else if String.eqb u (jar_url MAVEN_DOWNLOAD_URL "g" "b" "1.3.0") then Ok (Ok jar_bytes)
  else Raise URLError.

Definition central_env : Env :=
  sample_env central_net (fun _ => Raise JSONDecodeError) (fun _ => None) ∅ [] None.

(** What a failed download at each repository of a list leaves in the
    trace: the directory is made sure of and the jar is requested. *)
Definition attempts (repos : list (string * string)) (g a v dest : string) : list event :=
  flat_map (fun r => [Mkdir dest; Request (jar_url (snd r) g a v)]) repos.

(** A network where, for [g:a:1.3.0], Maven Central answers an error
    page, Spring Plugins refuses the connection, and Spring Libs and
    JBoss hold the jar. *)
Definition third_net (u : string) : result response :=
  if String.eqb u (jar_url "https://repo1.maven.org/maven2" "g" "a" "1.3.0")
  then Ok (Ok error_page)
  else if String.eqb u (jar_url "https://repo.spring.io/libs-release" "g" "a" "1.3.0")
  then Ok (Ok jar_bytes)
  else if String.eqb u
            (jar_url "https://repository.jboss.org/nexus/content/repositories/releases"
               "g" "a" "1.3.0")
  then Ok (Ok jar_bytes)
  else Raise URLError.

Definition third_env : Env :=
  sample_env third_net (fun _ => Raise JSONDecodeError) (fun _ => None) ∅ [] None.

(** A network where nothing answers. *)
Definition offline_env : Env :=
  sample_env (fun _ => Raise URLError) (fun _ => Raise JSONDecodeError) (fun _ => None) ∅ [] None.

(** A network where the bundle hub and Maven Central answer the same
    error page. *)
Definition hub_page_net (u : string) : result response :=
  if String.eqb u (bnd_hub_jar_url "osgi.residential" "4.3.0") then Ok (Ok error_page)
  else if String.eqb u (jar_url MAVEN_DOWNLOAD_URL "g" "a" "1.3.0") then Ok (Ok error_page)
  else Raise URLError.

Definition hub_page_env : Env :=
  sample_env hub_page_net (fun _ => Raise JSONDecodeError) (fun _ => None) ∅ [] None.

(** ** The six kinds of outcome *)

Inductive Kind : Type :=
| KUpdated | KUpToDate | KUnavailable | KLocalOnly | KNotMapped | KError.

Definition kind_of (x : OutcomeRecord) : Kind :=
  match x with
  | Updated _ _ _ _ _ => KUpdated
  | UpToDate _ _ _ _ => KUpToDate
  | Unavailable _ _ _ _ _ => KUnavailable
  | LocalOnly _ _ _ => KLocalOnly
  | NotMapped _ _ _ => KNotMapped
  | Error _ _ _ _ => KError
  end.

(** The list of [results] that holds the records of a kind. *)
Definition listed (k : Kind) (r : Results) : list OutcomeRecord :=
  match k with
  | KUpdated => updated r
  | KUpToDate => up_to_date r
  | KUnavailable => unavailable r
  | KLocalOnly => local_only r
  | KNotMapped => not_mapped r
  | KError => errors r
  end.

Definition Kind_eqb (k1 k2 : Kind) : bool :=
  match k1, k2 with
  | KUpdated, KUpdated | KUpToDate, KUpToDate | KUnavailable, KUnavailable
  | KLocalOnly, KLocalOnly | KNotMapped, KNotMapped | KError, KError => true
  | _, _ => false
  end.

(** The number of records in the six lists. *)
Definition outcome_count (r : Results) : nat :=
  (length (updated r) + length (up_to_date r) + length (unavailable r)
   + length (local_only r) + length (not_mapped r) + length (errors r))%nat.

(** ** A worked scenario *)

(** The search URL when [urllib.parse.quote] is taken to change nothing. *)
Definition plain_search_url (g a : string) : string :=
  (MAVEN_SEARCH_URL ++ "?q=" ++ "g:" ++ dquote ++ g ++ dquote ++ " AND a:" ++ dquote ++ a ++ dquote
     ++ "&rows=1&wt=json")%string.

(** The answer of the search endpoint with one document. *)
Definition search_hit (g a v : string) : pyval :=
  PDict [("response",
          PDict [("numFound", PInt 1);
                 ("docs", PList [PDict [("g", PStr g); ("a", PStr a);
                                        ("latestVersion", PStr v)]])])].

(** The answer of the search endpoint with no document. *)
Definition search_miss : pyval :=
  PDict [("response", PDict [("numFound", PInt 0); ("docs", PList [])])].

(** Maven Central knows [g:a] and [g:e] at 1.3.0 and holds the jar of
    [g:a] only; it does not know [g:c], which mvnrepository shows at
    2.0. *)
Definition scenario_net (u : string) : result response :=
  if String.eqb u (plain_search_url "g" "a") then Ok (Ok "hit-a")
  else if String.eqb u (plain_search_url "g" "e") then Ok (Ok "hit-e")
  else if String.eqb u (plain_search_url "g" "c") then Ok (Ok "miss")
  else if String.eqb u (jar_url MAVEN_DOWNLOAD_URL "g" "a" "1.3.0") then Ok (Ok jar_bytes)
  else if String.eqb u "https://mvnrepository.com/artifact/g/c" then Ok (Ok "page-c")
  else Raise URLError.

Definition scenario_loads (body : string) : result pyval :=
  if String.eqb body "hit-a" then Ok (search_hit "g" "a" "1.3.0")
  else if String.eqb body "hit-e" then Ok (search_hit "g" "e" "1.3.0")
  else if String.eqb body "miss" then Ok search_miss
  else Raise JSONDecodeError.

Definition scenario_release (html : string) : option string :=
  if String.eqb html "page-c" then Some " 2.0 " else None.

Definition scenario_mapping : gmap string (option (string * string)) :=
  <["X" := Some ("g", "a")]> (<["C" := Some ("g", "c")]> (<["F" := Some ("g", "e")]>
    (<["L" := None]> ∅))).

Definition pinned_item : Item :=
  {| item_comment := None; item_groupId := Some "g"; item_artifactId := Some "a";
     item_folder := Some "x"; item_version := Some "1.3.0"; item_source := None;
     item_repoUrl := None |}.

Definition scenario_env : Env :=
  sample_env scenario_net scenario_loads scenario_release scenario_mapping [pinned_item] None.

Definition sample_bundle (i v : string) : Bundle :=
  {| identity := i; version := v; url := Some ("x/" ++ i ++ "-" ++ v ++ ".jar")%string;
     type := Some "osgi.bundle" |}.

(** ** The searches that find nothing *)





(** A directory listing of the bundle hub, and a hub that answers it. *)
Definition hub_file (name : string) : pyval :=
  PDict [("name", PStr name); ("type", PStr "file")].

Definition hub_listing_env (names : list string) : Env :=
  sample_env (fun u => if String.eqb u (bnd_hub_api_url "x") then Ok (Ok "listing")
                       else Raise URLError)
    (fun body => if String.eqb body "listing" then Ok (PList (map hub_file names))
                 else Raise JSONDecodeError)
    (fun _ => None) ∅ [] None.

(** An index with two resources of the bundle [X], at 1.9.0 and at
    1.10.0. *)
Definition index_resource (i v u : string) : Resource :=
  [ {| cap_namespace := Some "osgi.identity";
       cap_attributes := [ {| attr_name := Some "osgi.identity"; attr_value := Some i |};
                           {| attr_name := Some "type"; attr_value := Some "osgi.bundle" |};
                           {| attr_name := Some "version"; attr_value := Some v |} ] |};
    {| cap_namespace := Some "osgi.content";
       cap_attributes := [ {| attr_name := Some "osgi.content"; attr_value := Some "0a1b" |};
                           {| attr_name := Some "url"; attr_value := Some u |} ] |} ].

Definition two_versions_index : list Resource :=
  [ index_resource "X" "1.9.0" "x/X-1.9.0.jar"; index_resource "X" "1.10.0" "x/X-1.10.0.jar" ].

(** ** Sorting by a string key *)

(** The first item of the list has a key that is below no key of the
    list. *)
Definition top_first {A} (l : list (string * A)) : Prop :=
  match l with
  | [] => True
  | y :: _ => forall z, In z l -> str_lt (fst y) (fst z) = false
  end.

(** ** download_from_mvnrepository, check_for_updates, sync_dependencies *)

(** [download_from_mvnrepository]: the page of the version is looked up,
    then the repositories it names are tried in order.  A result of
    [search_mvnrepository] is a dictionary with keys, so [if not info]
    is the test for [None]. *)
Definition download_from_mvnrepository (E : Env) (group_id artifact_id version dest_dir : string)
  : M (bool * option string) :=
  bind (search_mvnrepository E group_id artifact_id (Some version)) (fun info =>
  match info with
  | None => ret (false, None)
  | Some i => download_jar_from_repos E (mr_repositories i) group_id artifact_id version dest_dir
  end).

(** The dictionaries [check_for_updates] collects. *)
Record UpdateRecord : Type := {
  up_group_id : string;
  up_artifact_id : string;
  up_current_version : string;
  up_latest_version : pyval;
  up_folder : string;
  up_comment : string
}.

Record CurrentRecord : Type := {
  cur_group_id : string;
  cur_artifact_id : string;
  cur_version : string
}.

Record CheckError : Type := {
  ce_group_id : string;
  ce_artifact_id : string;
  ce_current : option string;
  ce_reason : string
}.

(** The lists [updates], [up_to_date] and [errors]. *)
Record CheckResults : Type := {
  chk_updates : list UpdateRecord;
  chk_up_to_date : list CurrentRecord;
  chk_errors : list CheckError
}.

Definition no_check_results : CheckResults :=
  {| chk_updates := []; chk_up_to_date := []; chk_errors := [] |}.

Definition add_update (r : CheckResults) (x : UpdateRecord) : CheckResults :=
  {| chk_updates := chk_updates r ++ [x]; chk_up_to_date := chk_up_to_date r;
     chk_errors := chk_errors r |}.

Definition add_current (r : CheckResults) (x : CurrentRecord) : CheckResults :=
  {| chk_updates := chk_updates r; chk_up_to_date := chk_up_to_date r ++ [x];
     chk_errors := chk_errors r |}.

Definition add_check_error (r : CheckResults) (x : CheckError) : CheckResults :=
  {| chk_updates := chk_updates r; chk_up_to_date := chk_up_to_date r;
     chk_errors := chk_errors r ++ [x] |}.

(** The first half of a turn of [check_for_updates]: [inl reason] is the
    [continue] of the bundle-hub branch, [inr latest] is the value of
    [latest] after the [if]/[else], [PNone] being [None]. *)
Definition check_latest (E : Env) (group_id artifact_id source : string)
  : M (string + pyval) :=
  if String.eqb source "BND Hub" then
    bind (get_latest_version_from_bnd_hub E artifact_id) (fun hub =>
    match hub with
    | None => ret (inl "Not found on BND Hub")
    | Some v => ret (inr (PStr v))
    end)
  else
    bind (get_latest_version_from_maven E group_id artifact_id) (fun maven_info =>
    let latest := match maven_info with Some info => mi_version info | None => PNone end in
    match latest with
    | PNone =>
        bind (search_mvnrepository E group_id artifact_id None) (fun mvn_info =>
        match mvn_info with
        | Some info => ret (inr (PStr (mr_version info)))
        | None => ret (inr PNone)
        end)
    | _ => ret (inr latest)
    end).

(** One turn of the loop of [check_for_updates]. *)
Definition check_item (E : Env) (item : Item) (r : CheckResults) : M CheckResults :=
  if has_key (item_comment item) && negb (has_key (item_groupId item)) then ret r
  else
    let current_version := item_version item in
    let source := get_or (item_source item) "Maven Central" in
    if negb (truthy (item_groupId item)) || negb (truthy (item_artifactId item)) then ret r
    else
      let group_id := get_or (item_groupId item) EmptyString in
      let artifact_id := get_or (item_artifactId item) EmptyString in
      bind (check_latest E group_id artifact_id source) (fun resolved =>
      match resolved with
      | inl reason =>
          ret (add_check_error r
                 {| ce_group_id := group_id; ce_artifact_id := artifact_id;
                    ce_current := current_version; ce_reason := reason |})
      | inr PNone =>
          ret (add_check_error r
                 {| ce_group_id := group_id; ce_artifact_id := artifact_id;
                    ce_current := current_version; ce_reason := "Not found" |})
      | inr latest =>
          if truthy current_version then
            match latest with
            | PStr latest_version =>
                bind (lift (compare_versions (get_or current_version EmptyString) latest_version))
                  (fun cmp =>
                if cmp <? 0 then
                  ret (add_update r
                         {| up_group_id := group_id; up_artifact_id := artifact_id;
                            up_current_version := get_or current_version EmptyString;
                            up_latest_version := latest;
                            up_folder := get_or (item_folder item) "misc";
                            up_comment := get_or (item_comment item) EmptyString |})
                else
                  ret (add_current r
                         {| cur_group_id := group_id; cur_artifact_id := artifact_id;
                            cur_version := get_or current_version EmptyString |}))
            | _ => raise TypeError
            end
          else
            ret (add_update r
                   {| up_group_id := group_id; up_artifact_id := artifact_id;
                      up_current_version := "unpinned";
                      up_latest_version := latest;
                      up_folder := get_or (item_folder item) "misc";
                      up_comment := get_or (item_comment item) EmptyString |})
      end).

Fixpoint check_items (E : Env) (items : list Item) (r : CheckResults) : M CheckResults :=
  match items with
  | [] => ret r
  | item :: rest => bind (check_item E item r) (fun r' => check_items E rest r')
  end.

(** [check_for_updates], up to the three lists its report is printed
    from. *)
Definition check_for_updates (E : Env) : M CheckResults :=
  check_items E (ADDITIONAL_DOWNLOADS E) no_check_results.


(** ** Reading a run, continued *)

(** From [st] to [st'] nothing was written: the files are the same and
    the trace grew by requests only. *)
Definition only_requests (st st' : State) : Prop :=
  fs st' = fs st /\ exists urls, trace st' = trace st ++ map Request urls.

(** The entries of [additionalDownloads] a loop does not skip: not a
    comment without coordinates, and both coordinates non-empty. *)
Definition counted (item : Item) : bool :=
  negb (has_key (item_comment item) && negb (has_key (item_groupId item)))
  && truthy (item_groupId item) && truthy (item_artifactId item).

Definition additional_count (r : AdditionalResults) : nat :=
  (length (downloaded r) + length (download_errors r) + length (already_exists r))%nat.

Definition check_count (r : CheckResults) : nat :=
  (length (chk_updates r) + length (chk_up_to_date r) + length (chk_errors r))%nat.

(** ** More entries for worked examples *)

(** A comment entry, and an entry without an artifact. *)
Definition comment_item : Item :=
  {| item_comment := Some "OSGi compendium"; item_groupId := None; item_artifactId := None;
     item_folder := None; item_version := None; item_source := None; item_repoUrl := None |}.

Definition half_item : Item :=
  {| item_comment := None; item_groupId := Some "g"; item_artifactId := None;
     item_folder := None; item_version := None; item_source := None; item_repoUrl := None |}.

(** A bundle hub that opens the connection and then breaks off while
    the body is read. *)
Definition broken_hub_env : Env :=
  sample_env (fun u => if String.eqb u (bnd_hub_jar_url "osgi.residential" "4.3.0")
                       then Ok (Raise TimeoutError) else Raise URLError)
    (fun _ => Raise JSONDecodeError) (fun _ => None) ∅ [] None.

(** A state in which the jar of the bundle is already there. *)
Definition installed_state : State :=
  {| fs := <["/srv/dependencies/osgi/osgi.residential-4.3.0.jar" := jar_bytes]> ∅; trace := [] |}.

(** An index entry without a content capability. *)
Definition bare_resource (i v : string) : Resource :=
  [ {| cap_namespace := Some "osgi.identity";
       cap_attributes := [ {| attr_name := Some "osgi.identity"; attr_value := Some i |};
                           {| attr_name := Some "version"; attr_value := Some v |} ] |} ].

(** mvnrepository shows [g:a:1.3.0] as hosted by JBoss, and JBoss holds
    the jar. *)
Definition jboss_net (u : string) : result response :=
  if String.eqb u "https://mvnrepository.com/artifact/g/a/1.3.0"
  then Ok (Ok "hosted at repository.jboss.org")
  else if String.eqb u
            (jar_url "https://repository.jboss.org/nexus/content/repositories/releases"
               "g" "a" "1.3.0")
  then Ok (Ok jar_bytes)
  else Raise URLError.

Definition jboss_env : Env :=
  sample_env jboss_net (fun _ => Raise JSONDecodeError) (fun _ => None) ∅ [] None.

(** ** Steps that do the same in every state *)

(** The files after a sequence of writes, the first write first. *)
Fixpoint apply_writes (w : list (string * string)) (files : gmap string string)
  : gmap string string :=
  match w with
  | [] => files
  | (p, d) :: r => apply_writes r (<[p := d]> files)
  end.

(** A step is settled by [res], [w] and [t] when in every state it
    answers [res], makes the writes [w] and adds [t] to the trace. *)
Definition settled {A} (m : M A) (res : result A) (w : list (string * string))
    (t : list event) : Prop :=
  forall st, m st = (res, {| fs := apply_writes w (fs st); trace := trace st ++ t |}).

(** Every file of [st] is a file of [st']. *)
Definition keeps_files (st st' : State) : Prop :=
  forall p, is_Some (fs st !! p) -> is_Some (fs st' !! p).

(** The order [sorted] puts the items of a dictionary in: the key of an
    earlier item is not above the key of a later one. *)
Definition key_le {A} (x y : string * A) : Prop := str_lt (fst y) (fst x) = false.

(** ** Versions made of numbers *)

(** The number a string of decimal digits writes. *)
Definition number (p : string) : Z :=
  fold_left (fun acc c => 10 * acc + digit_val c) (list_ascii_of_string p) 0.

(** A part [int] reads as a plain number: decimal digits only, at least
    one and no more than [int] accepts. *)
Definition is_number (p : string) : bool :=
  isdigit p && (String.length p <=? int_max_str_digits)%nat.

(** [".".join(parts)] *)
Fixpoint dotted (parts : list string) : string :=
  match parts with
  | [] => EmptyString
  | [p] => p
  | p :: rest => (p ++ "." ++ dotted rest)%string
  end.

(** The order of number lists: the first place where they differ
    decides, and a list is below every longer list that starts with it. *)
Fixpoint compare_numbers (xs ys : list Z) : Z :=
  match xs, ys with
  | [], [] => 0
  | [], _ :: _ => -1
  | _ :: _, [] => 1
  | x :: xs', y :: ys' =>
      match x ?= y with
      | Lt => -1
      | Gt => 1
      | Eq => compare_numbers xs' ys'
      end
  end.

(** The words the comparator drops from the end of a version, in any
    letter case. *)
Definition is_qualifier (w : string) : bool :=
  let lw := lower w in
  String.eqb lw "release" || String.eqb lw "final" || String.eqb lw "ga".

Definition is_dash (c : ascii) : bool := Ascii.eqb c "-" || Ascii.eqb c "_".

Fixpoint has_dash (s : string) : bool :=
  match s with
  | EmptyString => false
  | String c r => is_dash c || has_dash r
  end.

Fixpoint has_delim (s : string) : bool :=
  match s with
  | EmptyString => false
  | String c r => is_delim c || has_delim r
  end.

Fixpoint has_space (s : string) : bool :=
  match s with
  | EmptyString => false
  | String c r => is_space c || has_space r
  end.

(** ** Listings of numbered jars *)

(** An entry of a hub listing for the file [<bundle>-<numbers>.jar],
    where the version is numbers joined by dots. *)
Definition numbered_jar (bundle_name : string) (item : pyval) (parts : list string) : Prop :=
  parts <> [] /\ forallb is_number parts = true
  /\ getitem item "type" = Ok (PStr "file")
  /\ getitem item "name" = Ok (PStr (jar_name bundle_name (dotted parts))).

(** A version with the key of the hub's sort, when the key holds numbers
    only. *)
Definition number_key {A} (x : list Z * A) : list token * A := (map TInt (fst x), snd x).

(** No entry is above the first one in the order of number lists. *)
Definition numbers_top_first {A} (l : list (list Z * A)) : Prop :=
  match l with
  | [] => True
  | x :: _ => forall z, In z l -> compare_numbers (fst x) (fst z) <> -1
  end.

(** The scenario with an index that lists the bundle [X] twice. *)
Definition indexed_env : Env :=
  sample_env scenario_net scenario_loads scenario_release scenario_mapping [pinned_item]
    (Some two_versions_index).

(** The identities of an index, each one once. *)
Definition identities (bundles : list Bundle) : list string :=
  nodup String.string_dec (map identity bundles).

(** The repositories [search_mvnrepository] knows by name. *)
Definition page_repository_table : list (string * string) :=
  [("Maven Central", "https://repo1.maven.org/maven2");
   ("Spring", "https://repo.spring.io/plugins-release");
   ("JBoss", "https://repository.jboss.org/nexus/content/repositories/releases")].

(** ** What a pinned entry asks for *)

(** The events of fetching the jar [a-v.jar] of [g] into [dest]: the
    directory made is [dest], a request is for that jar, on the bundle
    hub or in some repository, and the file written is that jar. *)
Definition pinned_event (E : Env) (g a v dest : string) (e : event) : Prop :=
  match e with
  | Request u => u = bnd_hub_jar_url a v \/ exists repo, u = jar_url repo g a v
  | Mkdir d => d = dest
  | Write p => p = path_join E dest (jar_name a v)
  end.

(** [st'] is [st] after events that all satisfy [P]. *)
Definition extends_by (P : event -> Prop) (st st' : State) : Prop :=
  exists t, trace st' = trace st ++ t /\ List.Forall P t.

(** ** What the index says of a resource *)

Definition namespace_is (c : Capability) (ns : string) : bool :=
  match cap_namespace c with
  | Some s => String.eqb s ns
  | None => false
  end.

(** The attributes named [n] in the capabilities of namespace [ns] of a
    resource, in the order of the document. *)
Definition attributes_named (ns n : string) (r : Resource) : list Attribute :=
  List.filter (fun a => name_is a n)
    (flat_map cap_attributes (List.filter (fun c => namespace_is c ns) r)).

(** The value of the last of a list of attributes, [init] when there is
    none. *)
Definition field_value (init : option string) (l : list Attribute) : option string :=
  match rev l with
  | a :: _ => attr_value a
  | [] => init
  end.

(** The value the last attribute named [n] in namespace [ns] carries:
    [None] when the resource has no such attribute, or when the last one
    has no value. *)
Definition last_attribute (ns n : string) (r : Resource) : option string :=
  field_value None (attributes_named ns n r).

(** The entry a resource stands for: it has one when its last identity
    and its last version are there and not empty. *)
Definition entry_of (r : Resource) : option Bundle :=
  match last_attribute "osgi.identity" "osgi.identity" r,
        last_attribute "osgi.identity" "version" r with
  | Some i, Some v =>
      if String.eqb i EmptyString || String.eqb v EmptyString then None
      else Some {| identity := i; version := v;
                   url := last_attribute "osgi.content" "url" r;
                   type := last_attribute "osgi.identity" "type" r |}
  | _, _ => None
  end.

(** The scenario with an index whose one resource names the bundle [X]
    at 1.2.0 and has no [osgi.content] capability. *)
Definition stale_bare_env : Env :=
  sample_env scenario_net scenario_loads scenario_release scenario_mapping [pinned_item]
    (Some [bare_resource "X" "1.2.0"]).

(** * Properties *)

(** ** The embedding on small inputs *)

Example re_split_consecutive_delimiters :
  re_split "1..2_3-" = ["1"; ""; "2"; "3"; ""].
Proof. reflexivity. Qed.

Example re_sub_qualifier_cases :
  re_sub_qualifier "2.0.0-RELEASE" = "2.0.0"
  /\ re_sub_qualifier "2.0.0_final" = "2.0.0"
  /\ re_sub_qualifier "2.0.0.GA" = "2.0.0.GA"
  /\ re_sub_qualifier "1-GA-2" = "1-GA-2"
  /\ re_sub_qualifier ("1.0-ga" ++ newline)%string = ("1.0" ++ newline)%string.
Proof. repeat split. Qed.

Example py_int_cases :
  py_int "007" = Ok 7
  /\ py_int " 12 " = Ok 12
  /\ py_int "+3" = Ok 3
  /\ py_int "" = Raise ValueError
  /\ py_int "1a" = Raise ValueError
  /\ py_int "alpha" = Raise ValueError
  /\ py_int (String (ascii_of_nat 11) "2") = Ok 2
  /\ py_int (String (ascii_of_nat 31) "2") = Raise ValueError
  /\ strip (String (ascii_of_nat 31) "2") = "2".
Proof. repeat split. Qed.

Example normalize_mixed :
  normalize "1.0..rc1-FINAL" = Ok [TInt 1; TInt 0; TStr ""; TStr "rc1"].
Proof. reflexivity. Qed.

Example compare_versions_malformed :
  compare_versions "" "1" = Ok (-1)
  /\ compare_versions "1..2" "1.0.2" = Ok (-1)
  /\ compare_versions "1.a" "1.2" = Ok 1
  /\ compare_versions "-" "_" = Ok 0.
Proof. repeat split. Qed.

Example hub_key_cases :
  hub_key "1.10.0" = Ok [TInt 1; TInt 10; TInt 0]
  /\ hub_key "1.0.alpha" = Ok [TInt 1; TInt 0; TStr "alpha"]
  /\ list_lt [TInt 1; TInt 2; TInt 0] [TInt 1; TInt 10; TInt 0] = Ok true
  /\ list_lt [TInt 1; TInt 0; TInt 0] [TInt 1; TInt 0; TStr "alpha"] = Raise TypeError.
Proof. repeat split. Qed.

Example read_search_response_cases :
  read_search_response (search_hit "g" "a" "1.3.0")
  = Ok (Some {| mi_version := PStr "1.3.0"; mi_group_id := PStr "g"; mi_artifact_id := PStr "a" |})
  /\ read_search_response search_miss = Ok None
  /\ read_search_response (PDict []) = Raise KeyError
  /\ read_search_response (PList []) = Raise TypeError
  /\ read_search_response (PDict [("response", PDict [("numFound", PInt 1); ("docs", PList [])])])
     = Raise IndexError.
Proof. repeat split. Qed.

(** ** The version comparator *)

Lemma py_int_raises (p : string) (e : exn) : py_int p = Raise e -> e = ValueError.
Proof.
  unfold py_int. cbv zeta.
  match goal with
  | |- context [let '(_, _) := ?x in _] => destruct x as [neg body]
  end.
  destruct (int_literal body) as [[v n]|].
  - destruct (int_max_str_digits <? n)%nat; intros H; now inversion H.
  - intros H. now inversion H.
Qed.

Lemma coerce_ok (p : string) : exists t, coerce p = Ok t.
Proof.
  unfold coerce.
  destruct (py_int p) as [z|e] eqn:H; cbn.
  - now exists (TInt z).
  - apply py_int_raises in H. subst e. cbn. now exists (TStr p).
Qed.

Lemma coerce_all_ok (parts : list string) :
  exists toks, coerce_all parts = Ok toks /\ length toks = length parts.
Proof.
  induction parts as [|p ps [toks [IH Hlen]]]; cbn.
  - now exists [].
  - destruct (coerce_ok p) as [t Ht]. rewrite Ht, IH.
    exists (t :: toks). cbn. now rewrite Hlen.
Qed.

Lemma normalize_ok (v : string) : exists toks, normalize v = Ok toks.
Proof.
  unfold normalize.
  destruct (coerce_all_ok (re_split (re_sub_qualifier v))) as [toks [H _]].
  now exists toks.
Qed.

Lemma str_lt_irrefl (s : string) : str_lt s s = false.
Proof.
  unfold str_lt, String.ltb.
  pose proof (String.compare_antisym s s) as H.
  destruct (String.compare s s); cbn in H; congruence.
Qed.

Lemma str_lt_asym (a b : string) : str_lt a b = true -> str_lt b a = false.
Proof.
  unfold str_lt, String.ltb.
  rewrite (String.compare_antisym b a).
  destruct (String.compare a b); cbn; congruence.
Qed.

Lemma compare_zip_refl (n : list token) : compare_zip n n = None.
Proof.
  induction n as [|t n IH]; cbn; [reflexivity|].
  destruct t as [z|s]; cbn.
  - rewrite Z.ltb_irrefl, Z.gtb_ltb, Z.ltb_irrefl. exact IH.
  - rewrite str_lt_irrefl. exact IH.
Qed.

Lemma compare_zip_swap (n1 n2 : list token) :
  compare_zip n2 n1 = option_map Z.opp (compare_zip n1 n2).
Proof.
  revert n2.
  induction n1 as [|a r1 IH]; intros [|b r2]; cbn; try reflexivity.
  assert (Hstr : forall s t : string,
             (if str_lt t s then Some (-1)
              else if str_lt s t then Some 1 else compare_zip r2 r1)
             = option_map Z.opp
                 (if str_lt s t then Some (-1)
                  else if str_lt t s then Some 1 else compare_zip r1 r2)).
  { intros s t.
    destruct (str_lt s t) eqn:Hst.
    - now rewrite (str_lt_asym _ _ Hst).
    - destruct (str_lt t s); [reflexivity | apply IH]. }
  destruct a as [x|s], b as [y|t]; cbn; try apply Hstr.
  rewrite !Z.gtb_ltb.
  destruct (x <? y) eqn:Hxy, (y <? x) eqn:Hyx; cbn; try reflexivity.
  - apply Z.ltb_lt in Hxy, Hyx. lia.
  - apply IH.
Qed.

Lemma compare_normalized_refl (n : list token) : compare_normalized n n = 0.
Proof.
  unfold compare_normalized.
  now rewrite compare_zip_refl, Nat.ltb_irrefl.
Qed.

Lemma compare_normalized_swap (n1 n2 : list token) :
  compare_normalized n1 n2 = - compare_normalized n2 n1.
Proof.
  unfold compare_normalized.
  rewrite (compare_zip_swap n1 n2).
  destruct (compare_zip n1 n2) as [r|]; cbn [option_map]; [lia|].
  destruct (length n1 <? length n2)%nat eqn:H12, (length n2 <? length n1)%nat eqn:H21;
    try reflexivity.
  apply Nat.ltb_lt in H12, H21. lia.
Qed.

Lemma compare_zip_sign (n1 n2 : list token) (r : Z) :
  compare_zip n1 n2 = Some r -> r = -1 \/ r = 1.
Proof.
  revert n2.
  induction n1 as [|a r1 IH]; intros [|b r2]; cbn; try discriminate.
  destruct a as [x|s], b as [y|t]; cbn;
    repeat match goal with
           | |- (if ?c then _ else _) = _ -> _ => destruct c
           end;
    first [apply IH | intros H; inversion H; auto].
Qed.

Lemma compare_normalized_sign (n1 n2 : list token) :
  compare_normalized n1 n2 = -1 \/ compare_normalized n1 n2 = 0 \/ compare_normalized n1 n2 = 1.
Proof.
  unfold compare_normalized.
  destruct (compare_zip n1 n2) as [r|] eqn:H.
  - apply compare_zip_sign in H. tauto.
  - destruct (length n1 <? length n2)%nat; [tauto|].
    destruct (length n2 <? length n1)%nat; tauto.
Qed.

Lemma compare_versions_returns (v1 v2 : string) :
  exists r, compare_versions v1 v2 = Ok r /\ (r = -1 \/ r = 0 \/ r = 1).
Proof.
  unfold compare_versions.
  destruct (normalize_ok v1) as [n1 H1], (normalize_ok v2) as [n2 H2].
  rewrite H1, H2.
  exists (compare_normalized n1 n2). split; [reflexivity|].
  apply compare_normalized_sign.
Qed.

(** C3.  The comparator answers 0 on a version and itself, answers the
    opposite number when its arguments are exchanged, and gives -1, 0
    and -1 on the three pairs of versions the specification lists. *)
Theorem compare_versions_laws :
  (forall v, compare_versions v v = Ok 0)
  /\ (forall a b, exists x y,
         compare_versions a b = Ok x /\ compare_versions b a = Ok y /\ x = - y)
  /\ compare_versions "1.2.0" "1.10.0" = Ok (-1)
  /\ compare_versions "2.0.0-RELEASE" "2.0.0" = Ok 0
  /\ compare_versions "1.0" "1.0.0" = Ok (-1).
Proof.
  split; [|split; [|repeat split; vm_compute; reflexivity]].
  - intros v. unfold compare_versions.
    destruct (normalize_ok v) as [n Hn]. rewrite Hn.
    now rewrite compare_normalized_refl.
  - intros a b. unfold compare_versions.
    destruct (normalize_ok a) as [na Ha], (normalize_ok b) as [nb Hb].
    rewrite Ha, Hb.
    exists (compare_normalized na nb), (compare_normalized nb na).
    repeat split. apply compare_normalized_swap.
Qed.

(** C8.  The comparator is total: whatever the two strings are, every
    token of a version becomes an integer or a string, and the answer
    is one of -1, 0 and 1; no exception leaves [compare_versions]. *)
Theorem compare_versions_total :
  (forall v, exists toks, normalize v = Ok toks)
  /\ (forall v1 v2, exists r,
         compare_versions v1 v2 = Ok r /\ (r = -1 \/ r = 0 \/ r = 1)).
Proof.
  split; [exact normalize_ok | exact compare_versions_returns].
Qed.

(** ** The fetcher *)

Lemma startswith_spec (p s : string) :
  startswith p s = true <-> exists suf, s = (p ++ suf)%string.
Proof.
  revert s. induction p as [|a p IH]; intros s; cbn.
  - split; [intros _; now exists s | reflexivity].
  - destruct s as [|b s].
    + split; [discriminate | intros [suf H]; discriminate].
    + rewrite andb_true_iff, Ascii.eqb_eq, IH. split.
      * intros [-> [suf ->]]. now exists suf.
      * intros [suf H]. injection H as -> ->. split; [reflexivity | now exists suf].
Qed.

Lemma contains_spec (p s : string) :
  contains p s = true <-> exists pre suf, s = (pre ++ p ++ suf)%string.
Proof.
  induction s as [|c s IH].
  - cbn. rewrite orb_false_r, startswith_spec. split.
    + intros [suf H]. now exists EmptyString, suf.
    + intros [pre [suf H]]. destruct pre as [|a pre]; [now exists suf | discriminate].
  - cbn [contains]. rewrite orb_true_iff, startswith_spec, IH. split.
    + intros [[suf H] | [pre [suf H]]].
      * now exists EmptyString, suf.
      * exists (String c pre), suf. cbn. now rewrite H.
    + intros [pre [suf H]]. destruct pre as [|a pre].
      * left. now exists suf.
      * right. cbn in H. injection H as _ H. now exists pre, suf.
Qed.

(** What one download does, by the answer of the network. *)
Lemma download_jar_run (E : Env) (g a v dest : string) (repo : option string) (st : State) :
  let u := jar_url (repository_of repo) g a v in
  let dest_path := path_join E dest (jar_name a v) in
  let asked := {| fs := fs st; trace := trace st ++ [Mkdir dest; Request u] |} in
  download_jar E g a v dest repo st =
    match urlopen E u with
    | Ok (Ok data) =>
        if is_error_page data then (Ok false, asked)
        else (Ok true, {| fs := <[dest_path := data]> (fs st);
                          trace := trace st ++ [Mkdir dest; Request u; Write dest_path] |})
    | Ok (Raise e) | Raise e => if is_URLError e then (Ok false, asked) else (Raise e, asked)
    end.
Proof.
  intros u dest_path asked. unfold download_jar. fold u. fold dest_path.
  run. subst asked. rewrite <- !app_assoc. cbn.
  destruct (urlopen E u) as [[data|e]|e]; cbn.
  - destruct (is_error_page data); cbn; [reflexivity|].
    now rewrite insert_insert_eq, <- app_assoc.
  - now destruct (is_URLError e).
  - now destruct (is_URLError e).
Qed.

Lemma is_error_page_spec (data : string) :
  is_error_page data = true
  <-> (String.length data < 1000)%nat
      /\ exists pre suf, lower data = (pre ++ "<html" ++ suf)%string.
Proof.
  unfold is_error_page.
  now rewrite andb_true_iff, Nat.ltb_lt, contains_spec.
Qed.

(** C5.  When the repository answers a body of fewer than 1000 bytes
    that contains the marker [<html] (in any case), [download_jar]
    returns [False] and leaves the files as they were, although the
    request itself succeeded; for every other body it received, the
    bytes are stored under [dest_dir/<artifactId>-<version>.jar] and the
    answer is [True]. *)
Theorem download_jar_rejects_error_page (E : Env) (g a v dest : string) (repo : option string)
    (data : string) (st : State) :
  urlopen E (jar_url (repository_of repo) g a v) = Ok (Ok data) ->
  ((String.length data < 1000)%nat
   /\ (exists pre suf, lower data = (pre ++ "<html" ++ suf)%string) ->
   download_jar E g a v dest repo st
   = (Ok false,
      {| fs := fs st;
         trace := trace st ++ [Mkdir dest; Request (jar_url (repository_of repo) g a v)] |}))
  /\ (~ ((String.length data < 1000)%nat
         /\ (exists pre suf, lower data = (pre ++ "<html" ++ suf)%string)) ->
      download_jar E g a v dest repo st
      = (Ok true,
         {| fs := <[path_join E dest (jar_name a v) := data]> (fs st);
            trace := trace st ++ [Mkdir dest; Request (jar_url (repository_of repo) g a v);
                                  Write (path_join E dest (jar_name a v))] |})).
Proof.
  intros Hnet. rewrite download_jar_run, Hnet. split; intros H.
  - apply is_error_page_spec in H. now rewrite H.
  - destruct (is_error_page data) eqn:Hp; [|reflexivity].
    apply is_error_page_spec in Hp. contradiction.
Qed.

Lemma download_jar_rejects_error_page_witness :
  download_jar central_env "g" "a" "1.3.0" "/srv/dependencies/x" None empty_state
  = (Ok false,
     {| fs := ∅;
        trace := [Mkdir "/srv/dependencies/x";
                  Request "https://repo1.maven.org/maven2/g/a/1.3.0/a-1.3.0.jar"] |})
  /\ download_jar central_env "g" "b" "1.3.0" "/srv/dependencies/x" None empty_state
     = (Ok true,
        {| fs := <["/srv/dependencies/x/b-1.3.0.jar" := jar_bytes]> ∅;
           trace := [Mkdir "/srv/dependencies/x";
                     Request "https://repo1.maven.org/maven2/g/b/1.3.0/b-1.3.0.jar";
                     Write "/srv/dependencies/x/b-1.3.0.jar"] |}).
Proof.
  split.
  - apply (proj1 (download_jar_rejects_error_page central_env "g" "a" "1.3.0"
                    "/srv/dependencies/x" None error_page empty_state eq_refl)).
    split.
    + cbn. lia.
    + exists EmptyString, ">error</html>". reflexivity.
  - apply (proj2 (download_jar_rejects_error_page central_env "g" "b" "1.3.0"
                    "/srv/dependencies/x" None jar_bytes empty_state eq_refl)).
    intros H. apply is_error_page_spec in H. discriminate H.
Defined.

Lemma download_jar_result_any_state (E : Env) (g a v dest : string) (repo : option string)
    (st st' : State) :
  fst (download_jar E g a v dest repo st) = fst (download_jar E g a v dest repo st').
Proof.
  rewrite !download_jar_run.
  destruct (urlopen E _) as [[data|e]|e]; cbn.
  - now destruct (is_error_page data).
  - now destruct (is_URLError e).
  - now destruct (is_URLError e).
Qed.

(** A download that answers [False] wrote nothing. *)
Lemma download_jar_false (E : Env) (g a v dest : string) (repo : option string) (st : State) :
  fst (download_jar E g a v dest repo st) = Ok false ->
  download_jar E g a v dest repo st
  = (Ok false,
     {| fs := fs st;
        trace := trace st ++ [Mkdir dest; Request (jar_url (repository_of repo) g a v)] |}).
Proof.
  rewrite download_jar_run.
  destruct (urlopen E _) as [[data|e]|e]; cbn.
  - destruct (is_error_page data); cbn; [reflexivity | discriminate].
  - destruct (is_URLError e); cbn; [reflexivity | discriminate].
  - destruct (is_URLError e); cbn; [reflexivity | discriminate].
Qed.

(** A download that answers [True] received a body and wrote it. *)
Lemma download_jar_true (E : Env) (g a v dest : string) (repo : option string) (st : State) :
  fst (download_jar E g a v dest repo st) = Ok true ->
  exists data,
    urlopen E (jar_url (repository_of repo) g a v) = Ok (Ok data)
    /\ download_jar E g a v dest repo st
       = (Ok true,
          {| fs := <[path_join E dest (jar_name a v) := data]> (fs st);
             trace := trace st ++ [Mkdir dest; Request (jar_url (repository_of repo) g a v);
                                   Write (path_join E dest (jar_name a v))] |}).
Proof.
  rewrite download_jar_run.
  destruct (urlopen E _) as [[data|e]|e]; cbn.
  - destruct (is_error_page data); cbn; [discriminate|]. intros _. now exists data.
  - destruct (is_URLError e); cbn; discriminate.
  - destruct (is_URLError e); cbn; discriminate.
Qed.

Lemma written_app (t1 t2 : list event) : written (t1 ++ t2) = written t1 ++ written t2.
Proof.
  induction t1 as [|e t1 IH]; cbn; [reflexivity|].
  destruct e; cbn; now rewrite IH.
Qed.

Lemma written_attempts (repos : list (string * string)) (g a v dest : string) :
  written (attempts repos g a v dest) = [].
Proof. induction repos as [|r repos IH]; cbn; [reflexivity | exact IH]. Qed.

Lemma download_jar_from_repos_all_fail (E : Env) (g a v dest : string)
    (repos : list (string * string)) (st : State) :
  (forall r st', In r repos -> fst (download_jar E g a v dest (Some (snd r)) st') = Ok false) ->
  download_jar_from_repos E repos g a v dest st
  = (Ok (false, None), {| fs := fs st; trace := trace st ++ attempts repos g a v dest |}).
Proof.
  revert st. induction repos as [|[name u] repos IH]; intros st Hfail; cbn.
  - unfold ret. rewrite app_nil_r. now destruct st.
  - unfold bind. rewrite (download_jar_false E g a v dest (Some u) st).
    + rewrite IH.
      * cbn. now rewrite <- app_assoc.
      * intros r st' Hr. apply Hfail. now right.
    + apply (Hfail (name, u)). now left.
Qed.

Lemma download_jar_from_repos_first_success (E : Env) (g a v dest : string)
    (pre post : list (string * string)) (name u : string) (st : State) :
  (forall r st', In r pre -> fst (download_jar E g a v dest (Some (snd r)) st') = Ok false) ->
  (forall st', fst (download_jar E g a v dest (Some u) st') = Ok true) ->
  exists data,
    urlopen E (jar_url u g a v) = Ok (Ok data)
    /\ download_jar_from_repos E (pre ++ (name, u) :: post) g a v dest st
       = (Ok (true, Some name),
          {| fs := <[path_join E dest (jar_name a v) := data]> (fs st);
             trace := trace st ++ attempts pre g a v dest
                        ++ [Mkdir dest; Request (jar_url u g a v);
                            Write (path_join E dest (jar_name a v))] |}).
Proof.
  revert st. induction pre as [|[name' u'] pre IH]; intros st Hfail Hok; cbn.
  - destruct (download_jar_true E g a v dest (Some u) st (Hok st)) as [data [Hnet Hrun]].
    exists data. split; [exact Hnet|].
    unfold bind. now rewrite Hrun.
  - destruct (IH {| fs := fs st;
                    trace := trace st ++ [Mkdir dest; Request (jar_url u' g a v)] |})
      as [data [Hnet Hrun]].
    + intros r st' Hr. apply Hfail. now right.
    + exact Hok.
    + exists data. split; [exact Hnet|].
      unfold bind. rewrite (download_jar_false E g a v dest (Some u') st).
      * cbv beta iota. cbn [repository_of]. rewrite Hrun. cbn. now rewrite <- !app_assoc.
      * apply (Hfail (name', u')). now left.
Qed.

(** C6.  [download_jar_from_multiple_repos] asks the repositories in the
    order of [MAVEN_REPOSITORIES].  When the downloads from the
    repositories before one of them fail and the download from that one
    succeeds, the answer is [True] with the name of that repository, the
    later repositories are not asked, and exactly one file is written:
    the jar, with the body that repository sent.  When the download
    fails at every repository, the answer is [False] with no name and
    the files are as they were. *)
Theorem download_jar_from_multiple_repos_stops_at_first (E : Env) (g a v dest : string)
    (st : State) :
  (forall pre name u post,
      MAVEN_REPOSITORIES = pre ++ (name, u) :: post ->
      (forall r st', In r pre -> fst (download_jar E g a v dest (Some (snd r)) st') = Ok false) ->
      (forall st', fst (download_jar E g a v dest (Some u) st') = Ok true) ->
      exists data,
        urlopen E (jar_url u g a v) = Ok (Ok data)
        /\ download_jar_from_multiple_repos E g a v dest st
           = (Ok (true, Some name),
              {| fs := <[path_join E dest (jar_name a v) := data]> (fs st);
                 trace := trace st ++ attempts pre g a v dest
                            ++ [Mkdir dest; Request (jar_url u g a v);
                                Write (path_join E dest (jar_name a v))] |})
        /\ written (trace (snd (download_jar_from_multiple_repos E g a v dest st)))
           = written (trace st) ++ [path_join E dest (jar_name a v)])
  /\ ((forall r st', In r MAVEN_REPOSITORIES ->
                     fst (download_jar E g a v dest (Some (snd r)) st') = Ok false) ->
      download_jar_from_multiple_repos E g a v dest st
      = (Ok (false, None),
         {| fs := fs st; trace := trace st ++ attempts MAVEN_REPOSITORIES g a v dest |})).
Proof.
  unfold download_jar_from_multiple_repos. split.
  - intros pre name u post Hsplit Hfail Hok. rewrite Hsplit.
    destruct (download_jar_from_repos_first_success E g a v dest pre post name u st Hfail Hok)
      as [data [Hnet Hrun]].
    exists data. repeat split; [exact Hnet | exact Hrun |].
    rewrite Hrun. cbn. rewrite !written_app, written_attempts. reflexivity.
  - apply download_jar_from_repos_all_fail.
Qed.

Lemma download_jar_from_multiple_repos_stops_at_first_witness :
  download_jar_from_multiple_repos third_env "g" "a" "1.3.0" "/srv/dependencies/x" empty_state
  = (Ok (true, Some "Spring Libs"),
     {| fs := <["/srv/dependencies/x/a-1.3.0.jar" := jar_bytes]> ∅;
        trace := [Mkdir "/srv/dependencies/x";
                  Request "https://repo1.maven.org/maven2/g/a/1.3.0/a-1.3.0.jar";
                  Mkdir "/srv/dependencies/x";
                  Request "https://repo.spring.io/plugins-release/g/a/1.3.0/a-1.3.0.jar";
                  Mkdir "/srv/dependencies/x";
                  Request "https://repo.spring.io/libs-release/g/a/1.3.0/a-1.3.0.jar";
                  Write "/srv/dependencies/x/a-1.3.0.jar"] |})
  /\ download_jar_from_multiple_repos offline_env "g" "a" "1.3.0" "/srv/dependencies/x" empty_state
     = (Ok (false, None),
        {| fs := ∅;
           trace := attempts MAVEN_REPOSITORIES "g" "a" "1.3.0" "/srv/dependencies/x" |}).
Proof.
  split.
  - destruct (proj1 (download_jar_from_multiple_repos_stops_at_first third_env "g" "a" "1.3.0"
                       "/srv/dependencies/x" empty_state)
                [("Maven Central", "https://repo1.maven.org/maven2");
                 ("Spring Plugins", "https://repo.spring.io/plugins-release")]
                "Spring Libs" "https://repo.spring.io/libs-release"
                [("JBoss", "https://repository.jboss.org/nexus/content/repositories/releases");
                 ("Sonatype", "https://oss.sonatype.org/content/repositories/releases")]
                eq_refl)
      as [data [Hnet [Hrun _]]].
    + intros r st' [<- | [<- | []]]; rewrite download_jar_run; reflexivity.
    + intros st'. rewrite download_jar_run. reflexivity.
    + vm_compute in Hnet. injection Hnet as <-. exact Hrun.
  - apply (proj2 (download_jar_from_multiple_repos_stops_at_first offline_env "g" "a" "1.3.0"
                    "/srv/dependencies/x" empty_state)).
    intros r st' _. rewrite download_jar_run. reflexivity.
Defined.

(** ** The bundle-hub download *)

(** What a bundle-hub download does, by the answer of the network: the
    file is opened as soon as the connection is. *)
Lemma download_from_bnd_hub_run (E : Env) (name v dest : string) (st : State) :
  let u := bnd_hub_jar_url name v in
  let dest_path := path_join E dest (jar_name name v) in
  download_from_bnd_hub E name v dest st =
    match urlopen E u with
    | Ok (Ok data) =>
        (Ok true, {| fs := <[dest_path := data]> (fs st);
                     trace := trace st ++ [Mkdir dest; Request u; Write dest_path] |})
    | Ok (Raise e) =>
        (if is_URLError e then Ok false else Raise e,
         {| fs := <[dest_path := EmptyString]> (fs st);
            trace := trace st ++ [Mkdir dest; Request u; Write dest_path] |})
    | Raise e =>
        (if is_URLError e then Ok false else Raise e,
         {| fs := fs st; trace := trace st ++ [Mkdir dest; Request u] |})
    end.
Proof.
  intros u dest_path. unfold download_from_bnd_hub. fold u. fold dest_path.
  run. rewrite <- !app_assoc. cbn.
  destruct (urlopen E u) as [[data|e]|e]; cbn.
  - now rewrite insert_insert_eq.
  - now destruct (is_URLError e).
  - now destruct (is_URLError e).
Qed.

(** C10.  [download_from_bnd_hub] does not look at what it received:
    every body the hub sends is written to
    [dest_dir/<name>-<version>.jar] and the answer is [True], also for a
    body that is an error page, which [download_jar] refuses without
    writing. *)
Theorem download_from_bnd_hub_keeps_any_body (E : Env) (name v dest : string)
    (data : string) (st : State) :
  urlopen E (bnd_hub_jar_url name v) = Ok (Ok data) ->
  download_from_bnd_hub E name v dest st
  = (Ok true,
     {| fs := <[path_join E dest (jar_name name v) := data]> (fs st);
        trace := trace st ++ [Mkdir dest; Request (bnd_hub_jar_url name v);
                              Write (path_join E dest (jar_name name v))] |})
  /\ (is_error_page data = true ->
      forall g a v' dest' repo st',
        urlopen E (jar_url (repository_of repo) g a v') = Ok (Ok data) ->
        download_jar E g a v' dest' repo st'
        = (Ok false,
           {| fs := fs st';
              trace := trace st' ++ [Mkdir dest'; Request (jar_url (repository_of repo) g a v')] |})).
Proof.
  intros Hnet. split.
  - now rewrite download_from_bnd_hub_run, Hnet.
  - intros Hpage g a v' dest' repo st' Hnet'.
    now rewrite download_jar_run, Hnet', Hpage.
Qed.

Lemma download_from_bnd_hub_keeps_any_body_witness :
  download_from_bnd_hub hub_page_env "osgi.residential" "4.3.0" "/srv/dependencies/osgi" empty_state
  = (Ok true,
     {| fs := <["/srv/dependencies/osgi/osgi.residential-4.3.0.jar" := error_page]> ∅;
        trace := [Mkdir "/srv/dependencies/osgi";
                  Request "https://raw.githubusercontent.com/bndtools/bundle-hub/master/osgi.residential/osgi.residential-4.3.0.jar";
                  Write "/srv/dependencies/osgi/osgi.residential-4.3.0.jar"] |})
  /\ download_jar hub_page_env "g" "a" "1.3.0" "/srv/dependencies/x" None empty_state
     = (Ok false,
        {| fs := ∅;
           trace := [Mkdir "/srv/dependencies/x";
                     Request "https://repo1.maven.org/maven2/g/a/1.3.0/a-1.3.0.jar"] |}).
Proof.
  pose proof (download_from_bnd_hub_keeps_any_body hub_page_env "osgi.residential" "4.3.0"
                "/srv/dependencies/osgi" error_page empty_state eq_refl) as [Hhub Hjar].
  split.
  - exact Hhub.
  - exact (Hjar eq_refl "g" "a" "1.3.0" "/srv/dependencies/x" None empty_state eq_refl).
Defined.

(** ** The reconciliation loop *)

Lemma Kind_eqb_eq (k1 k2 : Kind) : Kind_eqb k1 k2 = true <-> k1 = k2.
Proof. destruct k1, k2; cbn; split; congruence. Qed.

(** Appending a record lengthens the list of its kind and no other. *)
Lemma listed_append_outcome (k : Kind) (r : Results) (x : OutcomeRecord) :
  listed k (append_outcome r x)
  = if Kind_eqb k (kind_of x) then listed k r ++ [x] else listed k r.
Proof. destruct x, k; reflexivity. Qed.

Lemma outcome_count_append (r : Results) (x : OutcomeRecord) :
  outcome_count (append_outcome r x) = S (outcome_count r).
Proof.
  destruct x; unfold outcome_count; cbn; rewrite length_app; cbn; lia.
Qed.

(** Whatever the turn of the loop does, when it ends it has appended one
    record. *)
Lemma process_bundle_appends (E : Env) (ident : string) (b : Bundle) (results results' : Results)
    (st st' : State) :
  process_bundle E ident b results st = (Ok results', st') ->
  exists record, results' = append_outcome results record.
Proof.
  unfold process_bundle.
  destruct (BUNDLE_TO_MAVEN E !! ident) as [[[g a]|]|].
  - unfold bind at 1.
    destruct (get_latest_version_from_maven E g a st) as [[[info|]|e] st1]; [| |discriminate].
    + destruct (mi_version info) as [| | |latest| |]; try discriminate.
      unfold bind at 1, lift.
      destruct (compare_versions (version b) latest) as [cmp|e]; [|discriminate].
      destruct (0 <=? cmp).
      * appended.
      * unfold bind at 1.
        destruct (get_dest_dir_from_url E (url b)) as [dest|e]; [|discriminate].
        unfold bind at 1.
        destruct (download_jar E g a latest dest None st1) as [[[|]|e] st2]; [| |discriminate];
          appended.
    + appended.
  - appended.
  - appended.
Qed.

Lemma process_bundles_count (E : Env) (items : list (string * Bundle)) (results results' : Results)
    (st st' : State) :
  process_bundles E items results st = (Ok results', st') ->
  outcome_count results' = (outcome_count results + length items)%nat.
Proof.
  revert results st.
  induction items as [|[ident b] items IH]; intros results st; cbn.
  - unfold ret. intros H. injection H as <- _. lia.
  - unfold bind.
    destruct (process_bundle E ident b results st) as [[r1|e] st1] eqn:H1; [|discriminate].
    intros H. apply IH in H.
    destruct (process_bundle_appends _ _ _ _ _ _ _ H1) as [record ->].
    rewrite outcome_count_append in H. lia.
Qed.

(** C4 on an index whose one resource names the bundle [X] at 1.2.0 and
    has no [osgi.content] url, while Maven Central answers 1.3.0 for the
    coordinates of [X].  The entry is read with the url [None]; it is
    stale, so its turn goes on to fetch the jar and calls
    [get_dest_dir_from_url] on [None], where [url.split] raises
    [AttributeError].  Nothing catches it: after the one search request
    the run ends with that exception, no record of [X] is in any of the
    six lists, and neither the additional downloads nor the report are
    reached.  The same entry with a url is fetched and recorded as
    updated. *)
Theorem main_stale_entry_without_url_no_record :
  index_bundles stale_bare_env
  = [ {| identity := "X"; version := "1.2.0"; url := None; type := None |} ]
  /\ process_bundle stale_bare_env "X"
       {| identity := "X"; version := "1.2.0"; url := None; type := None |}
       no_results empty_state
     = (Raise AttributeError, {| fs := ∅; trace := [Request (plain_search_url "g" "a")] |})
  /\ main stale_bare_env empty_state
     = (Raise AttributeError, {| fs := ∅; trace := [Request (plain_search_url "g" "a")] |})
  /\ fst (process_bundle stale_bare_env "X" (sample_bundle "X" "1.2.0") no_results empty_state)
     = Ok (append_outcome no_results (Updated "X" "g" "a" "1.2.0" "1.3.0")).
Proof.
  split; [reflexivity|].
  split; [reflexivity|].
  split; reflexivity.
Qed.

(** X24.  One turn of the loop over the index-derived entries decides in
    this order: an identity absent from [BUNDLE_TO_MAVEN] is recorded as
    not mapped; one mapped to [None] as local only; one whose search
    found nothing as unavailable; one whose local version compares
    greater or equal to the resolved one as up to date; otherwise the
    jar is fetched and the entry is recorded as updated when the fetch
    succeeds and as an error when it fails.  A turn that returns has
    appended exactly one record, to the list of that record's kind and
    to no other, so that a run over [n] entries that returns leaves [n]
    more records; and a turn returns whenever the search returns a
    version string and, for a stale entry, the url is there and the
    fetch returns. *)
Theorem process_bundle_classifies (E : Env) (ident : string) (b : Bundle) (results : Results)
    (st : State) :
  (BUNDLE_TO_MAVEN E !! ident = None ->
   process_bundle E ident b results st
   = (Ok (append_outcome results (NotMapped ident (version b) (url b))), st))
  /\ (BUNDLE_TO_MAVEN E !! ident = Some None ->
      process_bundle E ident b results st
      = (Ok (append_outcome results (LocalOnly ident (version b) (url b))), st))
  /\ (forall g a st1,
         BUNDLE_TO_MAVEN E !! ident = Some (Some (g, a)) ->
         get_latest_version_from_maven E g a st = (Ok None, st1) ->
         process_bundle E ident b results st
         = (Ok (append_outcome results (Unavailable ident g a (version b) (url b))), st1))
  /\ (forall g a info latest cmp st1,
         BUNDLE_TO_MAVEN E !! ident = Some (Some (g, a)) ->
         get_latest_version_from_maven E g a st = (Ok (Some info), st1) ->
         mi_version info = PStr latest ->
         compare_versions (version b) latest = Ok cmp ->
         (0 <= cmp ->
          process_bundle E ident b results st
          = (Ok (append_outcome results (UpToDate ident g a (version b))), st1))
         /\ (cmp < 0 ->
             forall dest st2,
               get_dest_dir_from_url E (url b) = Ok dest ->
               (download_jar E g a latest dest None st1 = (Ok true, st2) ->
                process_bundle E ident b results st
                = (Ok (append_outcome results (Updated ident g a (version b) latest)), st2))
               /\ (download_jar E g a latest dest None st1 = (Ok false, st2) ->
                   process_bundle E ident b results st
                   = (Ok (append_outcome results
                            (Error ident ("Failed to download " ++ latest)%string g a)), st2))))
  /\ (forall results' st',
         process_bundle E ident b results st = (Ok results', st') ->
         exists record,
           results' = append_outcome results record
           /\ forall k, listed k results'
                        = if Kind_eqb k (kind_of record) then listed k results ++ [record]
                          else listed k results)
  /\ ((forall g a,
          BUNDLE_TO_MAVEN E !! ident = Some (Some (g, a)) ->
          exists found st1,
            get_latest_version_from_maven E g a st = (Ok found, st1)
            /\ forall info,
                found = Some info ->
                exists latest,
                  mi_version info = PStr latest
                  /\ forall cmp,
                      compare_versions (version b) latest = Ok cmp ->
                      cmp < 0 ->
                      exists dest ok st2,
                        get_dest_dir_from_url E (url b) = Ok dest
                        /\ download_jar E g a latest dest None st1 = (Ok ok, st2)) ->
      exists results' st', process_bundle E ident b results st = (Ok results', st'))
  /\ (forall items results' st',
         process_bundles E items results st = (Ok results', st') ->
         outcome_count results' = (outcome_count results + length items)%nat).
Proof.
  split; [|split; [|split; [|split; [|split; [|split]]]]].
  - intros Hmap. unfold process_bundle. now rewrite Hmap.
  - intros Hmap. unfold process_bundle. now rewrite Hmap.
  - intros g a st1 Hmap Hsearch. unfold process_bundle. rewrite Hmap.
    unfold bind. now rewrite Hsearch.
  - intros g a info latest cmp st1 Hmap Hsearch Hver Hcmp.
    split; [intros Hle | intros Hlt dest st2 Hdest; split; intros Hrun];
      unfold process_bundle; rewrite Hmap; unfold bind at 1; rewrite Hsearch, Hver;
      unfold bind, lift; rewrite Hcmp.
    + apply Z.leb_le in Hle. now rewrite Hle.
    + apply Z.leb_gt in Hlt. now rewrite Hlt, Hdest, Hrun.
    + apply Z.leb_gt in Hlt. now rewrite Hlt, Hdest, Hrun.
  - intros results' st' Hrun.
    destruct (process_bundle_appends _ _ _ _ _ _ _ Hrun) as [record ->].
    exists record. split; [reflexivity|]. intros k. apply listed_append_outcome.
  - intros Hreturn. unfold process_bundle.
    destruct (BUNDLE_TO_MAVEN E !! ident) as [[[g a]|]|]; [|unfold ret; eauto..].
    destruct (Hreturn g a eq_refl) as (found & st1 & Hsearch & Hfound).
    unfold bind at 1. rewrite Hsearch.
    destruct found as [info|]; [|unfold ret; eauto].
    destruct (Hfound info eq_refl) as (latest & Hver & Hfetch).
    rewrite Hver. unfold bind at 1, lift.
    destruct (compare_versions_returns (version b) latest) as (cmp & Hcmp & _).
    rewrite Hcmp.
    destruct (0 <=? cmp) eqn:Hsign; [unfold ret; eauto|].
    apply Z.leb_gt in Hsign.
    destruct (Hfetch cmp Hcmp Hsign) as (dest & ok & st2 & Hdest & Hrun).
    unfold bind. rewrite Hdest, Hrun.
    destruct ok; unfold ret; eauto.
  - intros items results' st'. apply process_bundles_count.
Qed.

Lemma process_bundle_classifies_witness :
  process_bundle scenario_env "N" (sample_bundle "N" "1.0") no_results empty_state
  = (Ok (append_outcome no_results (NotMapped "N" "1.0" (Some "x/N-1.0.jar"))), empty_state)
  /\ process_bundle scenario_env "L" (sample_bundle "L" "1.0") no_results empty_state
     = (Ok (append_outcome no_results (LocalOnly "L" "1.0" (Some "x/L-1.0.jar"))), empty_state)
  /\ process_bundle scenario_env "C" (sample_bundle "C" "1.0") no_results empty_state
     = (Ok (append_outcome no_results (Unavailable "C" "g" "c" "1.0" (Some "x/C-1.0.jar"))),
        {| fs := ∅; trace := [Request (plain_search_url "g" "c")] |})
  /\ process_bundle scenario_env "X" (sample_bundle "X" "1.3.0") no_results empty_state
     = (Ok (append_outcome no_results (UpToDate "X" "g" "a" "1.3.0")),
        {| fs := ∅; trace := [Request (plain_search_url "g" "a")] |})
  /\ process_bundle scenario_env "X" (sample_bundle "X" "1.2.0") no_results empty_state
     = (Ok (append_outcome no_results (Updated "X" "g" "a" "1.2.0" "1.3.0")),
        {| fs := <["/srv/dependencies/x/a-1.3.0.jar" := jar_bytes]> ∅;
           trace := [Request (plain_search_url "g" "a");
                     Mkdir "/srv/dependencies/x";
                     Request "https://repo1.maven.org/maven2/g/a/1.3.0/a-1.3.0.jar";
                     Write "/srv/dependencies/x/a-1.3.0.jar"] |})
  /\ process_bundle scenario_env "F" (sample_bundle "F" "1.2.0") no_results empty_state
     = (Ok (append_outcome no_results (Error "F" "Failed to download 1.3.0" "g" "e")),
        {| fs := ∅;
           trace := [Request (plain_search_url "g" "e");
                     Mkdir "/srv/dependencies/x";
                     Request "https://repo1.maven.org/maven2/g/e/1.3.0/e-1.3.0.jar"] |})
  /\ (exists record,
         append_outcome no_results (LocalOnly "L" "1.0" (Some "x/L-1.0.jar"))
         = append_outcome no_results record
         /\ forall k, listed k (append_outcome no_results (LocalOnly "L" "1.0" (Some "x/L-1.0.jar")))
                      = if Kind_eqb k (kind_of record) then listed k no_results ++ [record]
                        else listed k no_results)
  /\ (exists results' st',
         process_bundle scenario_env "X" (sample_bundle "X" "1.2.0") no_results empty_state
         = (Ok results', st'))
  /\ outcome_count (append_outcome no_results (NotMapped "N" "1.0" (Some "x/N-1.0.jar"))) = 1%nat.
Proof.
  split; [|split; [|split; [|split; [|split; [|split; [|split; [|split]]]]]]].
  - destruct (process_bundle_classifies scenario_env "N" (sample_bundle "N" "1.0")
                no_results empty_state) as (Hnot_mapped & _).
    apply Hnot_mapped. reflexivity.
  - destruct (process_bundle_classifies scenario_env "L" (sample_bundle "L" "1.0")
                no_results empty_state) as (_ & Hlocal & _).
    apply Hlocal. reflexivity.
  - destruct (process_bundle_classifies scenario_env "C" (sample_bundle "C" "1.0")
                no_results empty_state) as (_ & _ & Hmissing & _).
    apply (Hmissing "g" "c"); reflexivity.
  - destruct (process_bundle_classifies scenario_env "X" (sample_bundle "X" "1.3.0")
                no_results empty_state) as (_ & _ & _ & Hfound & _).
    destruct (Hfound "g" "a"
                {| mi_version := PStr "1.3.0"; mi_group_id := PStr "g";
                   mi_artifact_id := PStr "a" |} "1.3.0" 0
                {| fs := ∅; trace := [Request (plain_search_url "g" "a")] |}
                eq_refl eq_refl eq_refl eq_refl) as [Hcurrent _].
    apply Hcurrent. lia.
  - destruct (process_bundle_classifies scenario_env "X" (sample_bundle "X" "1.2.0")
                no_results empty_state) as (_ & _ & _ & Hfound & _).
    destruct (Hfound "g" "a"
                {| mi_version := PStr "1.3.0"; mi_group_id := PStr "g";
                   mi_artifact_id := PStr "a" |} "1.3.0" (-1)
                {| fs := ∅; trace := [Request (plain_search_url "g" "a")] |}
                eq_refl eq_refl eq_refl eq_refl) as [_ Hstale].
    assert (Hlt : -1 < 0) by lia.
    destruct (Hstale Hlt "/srv/dependencies/x"
                {| fs := <["/srv/dependencies/x/a-1.3.0.jar" := jar_bytes]> ∅;
                   trace := [Request (plain_search_url "g" "a");
                             Mkdir "/srv/dependencies/x";
                             Request "https://repo1.maven.org/maven2/g/a/1.3.0/a-1.3.0.jar";
                             Write "/srv/dependencies/x/a-1.3.0.jar"] |}
                eq_refl) as [Hfetched _].
    apply Hfetched. rewrite download_jar_run. reflexivity.
  - destruct (process_bundle_classifies scenario_env "F" (sample_bundle "F" "1.2.0")
                no_results empty_state) as (_ & _ & _ & Hfound & _).
    destruct (Hfound "g" "e"
                {| mi_version := PStr "1.3.0"; mi_group_id := PStr "g";
                   mi_artifact_id := PStr "e" |} "1.3.0" (-1)
                {| fs := ∅; trace := [Request (plain_search_url "g" "e")] |}
                eq_refl eq_refl eq_refl eq_refl) as [_ Hstale].
    assert (Hlt : -1 < 0) by lia.
    destruct (Hstale Hlt "/srv/dependencies/x"
                {| fs := ∅;
                   trace := [Request (plain_search_url "g" "e");
                             Mkdir "/srv/dependencies/x";
                             Request "https://repo1.maven.org/maven2/g/e/1.3.0/e-1.3.0.jar"] |}
                eq_refl) as [_ Hfailed].
    apply Hfailed. rewrite download_jar_run. reflexivity.
  - destruct (process_bundle_classifies scenario_env "L" (sample_bundle "L" "1.0")
                no_results empty_state) as (_ & _ & _ & _ & Hone & _).
    apply (Hone _ empty_state). reflexivity.
  - destruct (process_bundle_classifies scenario_env "X" (sample_bundle "X" "1.2.0")
                no_results empty_state) as (_ & _ & _ & _ & _ & Hreturns & _).
    apply Hreturns. intros g a Hmap. vm_compute in Hmap. injection Hmap as <- <-.
    exists (Some {| mi_version := PStr "1.3.0"; mi_group_id := PStr "g";
                    mi_artifact_id := PStr "a" |}),
           {| fs := ∅; trace := [Request (plain_search_url "g" "a")] |}.
    split; [reflexivity|].
    intros info Hinfo. injection Hinfo as <-.
    exists "1.3.0". split; [reflexivity|].
    intros cmp _ _.
    exists "/srv/dependencies/x", true,
           {| fs := <["/srv/dependencies/x/a-1.3.0.jar" := jar_bytes]> ∅;
              trace := [Request (plain_search_url "g" "a");
                        Mkdir "/srv/dependencies/x";
                        Request "https://repo1.maven.org/maven2/g/a/1.3.0/a-1.3.0.jar";
                        Write "/srv/dependencies/x/a-1.3.0.jar"] |}.
    split; [reflexivity|]. rewrite download_jar_run. reflexivity.
  - destruct (process_bundle_classifies scenario_env "N" (sample_bundle "N" "1.0")
                no_results empty_state) as (_ & _ & _ & _ & _ & _ & Hcount).
    apply (Hcount [("N", sample_bundle "N" "1.0")] _ empty_state).
    reflexivity.
Defined.

(** C9.  When [index.xml] does not exist the run does not stop: there
    are no index-derived entries, the six lists stay empty, and the run
    goes on to the entries of [additionalDownloads], whose results it
    returns. *)
Theorem main_without_index (E : Env) (st : State) :
  index_file E = None ->
  index_bundles E = []
  /\ main E st
     = match download_additional_bundles E (ADDITIONAL_DOWNLOADS E) false st with
       | (Ok additional_results, st') => (Ok (no_results, additional_results), st')
       | (Raise e, st') => (Raise e, st')
       end.
Proof.
  intros Habsent.
  assert (Hnone : index_bundles E = []) by (unfold index_bundles; now rewrite Habsent).
  split; [exact Hnone|].
  unfold main. rewrite Hnone. cbn. unfold bind, lift, ret. cbn.
  now destruct (download_additional_bundles E (ADDITIONAL_DOWNLOADS E) false st) as [[r|e] st'].
Qed.

Lemma main_without_index_witness :
  main scenario_env empty_state
  = (Ok (no_results,
         {| downloaded := [ {| dl_group_id := "g"; dl_artifact_id := "a";
                               dl_version := PStr "1.3.0"; dl_folder := "x";
                               dl_source := "Maven Central" |} ];
            download_errors := [];
            already_exists := [] |}),
     {| fs := <["/srv/dependencies/x/a-1.3.0.jar" := jar_bytes]> ∅;
        trace := [Mkdir "/srv/dependencies/x";
                  Request "https://repo1.maven.org/maven2/g/a/1.3.0/a-1.3.0.jar";
                  Write "/srv/dependencies/x/a-1.3.0.jar"] |}).
Proof.
  rewrite (proj2 (main_without_index scenario_env empty_state eq_refl)).
  reflexivity.
Defined.

(** ** Resolving the latest version *)


(** The fallback lookup makes one request and never raises. *)
Lemma search_mvnrepository_returns (E : Env) (g a : string) (v : option string) (st : State) :
  exists found,
    search_mvnrepository E g a v st
    = (Ok found, {| fs := fs st; trace := trace st ++ [Request (mvnrepository_url g a v)] |}).
Proof.
  unfold search_mvnrepository. run.
  destruct (urlopen E (mvnrepository_url g a v)) as [[body|e]|e]; cbn; eauto.
  destruct (decode_utf8 E body) as [html|e]; cbn; eauto.
Qed.




(** ** The highest version of a bundle *)

(** *** What the sort of [main] keeps *)

Lemma str_lt_trans (a b c : string) :
  str_lt a b = true -> str_lt b c = true -> str_lt a c = true.
Proof.
  unfold str_lt, String.ltb.
  destruct (String.compare a b) eqn:Hab; try discriminate.
  destruct (String.compare b c) eqn:Hbc; try discriminate.
  intros _ _.
  apply String_as_OT.cmp_lt in Hab, Hbc.
  pose proof (String_as_OT.lt_trans _ _ _ Hab Hbc) as Hac.
  apply String_as_OT.cmp_lt in Hac. unfold String_as_OT.cmp in Hac. now rewrite Hac.
Qed.

(** Two strings of which neither is below the other are equal. *)
Lemma str_lt_total (a b : string) : str_lt a b = false -> str_lt b a = false -> a = b.
Proof.
  unfold str_lt, String.ltb. rewrite (String.compare_antisym b a).
  destruct (String.compare a b) eqn:Hab; cbn; try discriminate.
  intros _ _. now apply String.compare_eq_iff.
Qed.

Lemma str_lt_below_top (x y z : string) :
  str_lt x y = false -> str_lt y z = false -> str_lt x z = false.
Proof.
  intros Hxy Hyz.
  destruct (str_lt x z) eqn:Hxz; [|reflexivity].
  destruct (str_lt z y) eqn:Hzy.
  - now rewrite (str_lt_trans _ _ _ Hxz Hzy) in Hxy.
  - rewrite (str_lt_total _ _ Hyz Hzy) in Hxy. congruence.
Qed.

Section StringKeys.

Context {A : Type}.

Lemma insert_desc_members (x : string * A) (l : list (string * A)) :
  exists l', insert_desc by_string x l = Ok l' /\ forall z, In z l' <-> z = x \/ In z l.
Proof.
  induction l as [|y r [r' [IH Hmem]]]; cbn.
  - exists [x]. split; [reflexivity|]. cbn. intros z. split; intros [H|H]; auto.
  - destruct (str_lt (fst x) (fst y)).
    + rewrite IH. exists (y :: r'). split; [reflexivity|].
      intros z. cbn. rewrite Hmem. tauto.
    + exists (x :: y :: r). split; [reflexivity|].
      intros z. cbn. split; intros H; intuition congruence.
Qed.

Lemma insert_desc_top (x : string * A) (l : list (string * A)) :
  top_first l ->
  exists l', insert_desc by_string x l = Ok l' /\ top_first l'
             /\ l' <> [] /\ forall z, In z l' <-> z = x \/ In z l.
Proof.
  destruct l as [|y r]; cbn [insert_desc by_string]; intros Htop.
  - exists [x]. repeat split; try discriminate.
    + intros z [<-|[]]. apply str_lt_irrefl.
    + intros [H|[]]; auto.
    + intros [H|[]]; cbn; auto.
  - destruct (str_lt (fst x) (fst y)) eqn:Hxy.
    + destruct (insert_desc_members x r) as [r' [Hr' Hmem]]. rewrite Hr'.
      exists (y :: r'). repeat split; try discriminate.
      * intros z [<-|Hz]; [apply str_lt_irrefl|].
        apply Hmem in Hz. destruct Hz as [->|Hz].
        -- now apply str_lt_asym.
        -- apply Htop. now right.
      * cbn. rewrite Hmem. tauto.
      * cbn. rewrite Hmem. tauto.
    + exists (x :: y :: r). repeat split; try discriminate.
      * intros z [<-|Hz]; [apply str_lt_irrefl|].
        apply (str_lt_below_top _ (fst y)); [exact Hxy | now apply Htop].
      * cbn. intuition congruence.
      * cbn. intuition congruence.
Qed.

Lemma sort_keyed_desc_top (l : list (string * A)) :
  exists l', sort_keyed_desc by_string l = Ok l' /\ top_first l'
             /\ (l <> [] -> l' <> []) /\ forall z, In z l' <-> In z l.
Proof.
  induction l as [|x r (r' & IH & Htop & _ & Hmem)]; cbn.
  - exists []. repeat split; auto.
  - rewrite IH.
    destruct (insert_desc_top x r' Htop) as (l' & Hl' & Htop' & Hne & Hmem').
    exists l'. repeat split; auto.
    + intros Hz. apply Hmem' in Hz. rewrite Hmem in Hz. cbn. intuition congruence.
    + intros Hz. apply Hmem'. rewrite Hmem. cbn in Hz. intuition congruence.
Qed.

End StringKeys.

Lemma keyed_version (versions : list Bundle) :
  keyed (fun x => Ok (version x)) versions = Ok (map (fun x => (version x, x)) versions).
Proof.
  induction versions as [|b r IH]; cbn; [reflexivity | now rewrite IH].
Qed.

(** Of the entries of one identity, [main] keeps one whose version
    string is below none of the others'. *)
Lemma highest_version_greatest_string (versions : list Bundle) :
  versions <> [] ->
  exists b,
    highest_version versions = Ok b
    /\ In b versions
    /\ forall b', In b' versions -> str_lt (version b) (version b') = false.
Proof.
  intros Hne. unfold highest_version, sort_reverse. rewrite keyed_version.
  destruct (sort_keyed_desc_top (map (fun x => (version x, x)) versions))
    as (l' & Hsort & Htop & Hne' & Hmem).
  rewrite Hsort. cbn.
  destruct l' as [|[k b] r].
  - exfalso. apply Hne'; [|reflexivity]. destruct versions; [congruence | discriminate].
  - cbn. exists b.
    assert (Hb : In (k, b) (map (fun x => (version x, x)) versions))
      by (apply Hmem; now left).
    apply in_map_iff in Hb. destruct Hb as (b0 & Hb0 & Hin). injection Hb0 as Hk Hb. subst k b0.
    repeat split; [exact Hin|].
    intros b' Hb'.
    apply (Htop (version b', b')). apply Hmem. apply in_map_iff. now exists b'.
Qed.

(** The entries of one identity, in the order of the index. *)
Lemma assoc_group_append (k : string) (b : Bundle) (d : list (string * list Bundle)) :
  assoc k (group_append b d)
  = if String.eqb k (identity b)
    then Some (match assoc k d with Some vs => vs ++ [b] | None => [b] end)
    else assoc k d.
Proof.
  induction d as [|[k' vs] d IH]; cbn.
  - destruct (String.eqb k (identity b)); reflexivity.
  - destruct (String.eqb k' (identity b)) eqn:Hk'; cbn.
    + apply String.eqb_eq in Hk'. subst k'.
      destruct (String.eqb k (identity b)); reflexivity.
    + rewrite IH. destruct (String.eqb k k') eqn:Hk; [|reflexivity].
      apply String.eqb_eq in Hk. subst k'. now rewrite Hk'.
Qed.

Lemma assoc_group_fold (k : string) (bundles : list Bundle) (d : list (string * list Bundle)) :
  assoc k (fold_left (fun d b => group_append b d) bundles d)
  = match assoc k d, List.filter (fun b => String.eqb k (identity b)) bundles with
    | None, [] => None
    | None, vs => Some vs
    | Some vs0, vs => Some (vs0 ++ vs)
    end.
Proof.
  revert d. induction bundles as [|b r IH]; intros d; cbn.
  - destruct (assoc k d); [now rewrite app_nil_r | reflexivity].
  - rewrite IH, assoc_group_append.
    destruct (String.eqb k (identity b)).
    + destruct (assoc k d); [now rewrite <- app_assoc | reflexivity].
    + reflexivity.
Qed.

Lemma assoc_group_by_identity (k : string) (bundles : list Bundle) :
  assoc k (group_by_identity bundles)
  = match List.filter (fun b => String.eqb k (identity b)) bundles with
    | [] => None
    | vs => Some vs
    end.
Proof. unfold group_by_identity. now rewrite assoc_group_fold. Qed.

Lemma group_append_nonempty (b : Bundle) (d : list (string * list Bundle)) :
  Forall (fun g => snd g <> []) d -> Forall (fun g => snd g <> []) (group_append b d).
Proof.
  induction d as [|[k vs] d IH]; cbn; intros H.
  - constructor; [discriminate | constructor].
  - inversion H as [|? ? Hvs Hd]; subst.
    destruct (String.eqb k (identity b)); constructor; auto.
    cbn. destruct vs; discriminate.
Qed.

Lemma group_by_identity_nonempty (bundles : list Bundle) :
  Forall (fun g => snd g <> []) (group_by_identity bundles).
Proof.
  unfold group_by_identity.
  assert (H : forall d, Forall (fun g : string * list Bundle => snd g <> []) d ->
                        Forall (fun g => snd g <> [])
                          (fold_left (fun d b => group_append b d) bundles d)).
  { induction bundles as [|b r IH]; intros d Hd; cbn; [exact Hd|].
    apply IH. now apply group_append_nonempty. }
  apply H. constructor.
Qed.

Lemma latest_of_lookup (groups : list (string * list Bundle)) :
  Forall (fun g => snd g <> []) groups ->
  exists latest,
    latest_of groups = Ok latest
    /\ forall k b, assoc k latest = Some b ->
                   exists vs, assoc k groups = Some vs /\ highest_version vs = Ok b.
Proof.
  induction groups as [|[k vs] r IH]; cbn; intros H.
  - exists []. split; [reflexivity | discriminate].
  - inversion H as [|? ? Hvs Hr]; subst. cbn in Hvs.
    destruct (highest_version_greatest_string vs Hvs) as (b & Hb & _).
    destruct (IH Hr) as (latest & Hlatest & Hlook).
    rewrite Hb. cbn. rewrite Hlatest. cbn.
    exists ((k, b) :: latest). split; [reflexivity|].
    intros k' b'. cbn. destruct (String.eqb k' k).
    + intros Hsome. injection Hsome as <-. now exists vs.
    + apply Hlook.
Qed.

(** Whatever the index holds, [latest_bundles] is built without an
    exception, and the entry it keeps for an identity is an entry of
    that identity whose version string is below none of the version
    strings of that identity. *)
Lemma latest_bundles_greatest_string (bundles : list Bundle) :
  exists latest,
    latest_bundles bundles = Ok latest
    /\ forall k b,
        assoc k latest = Some b ->
        In b bundles /\ identity b = k
        /\ forall b', In b' bundles -> identity b' = k ->
                      str_lt (version b) (version b') = false.
Proof.
  unfold latest_bundles.
  destruct (latest_of_lookup _ (group_by_identity_nonempty bundles)) as (latest & Hlatest & Hlook).
  exists latest. split; [exact Hlatest|].
  intros k b Hkb.
  destruct (Hlook k b Hkb) as (vs & Hvs & Hb).
  rewrite assoc_group_by_identity in Hvs.
  assert (Hfilter : vs = List.filter (fun b => String.eqb k (identity b)) bundles).
  { destruct (List.filter _ bundles); [discriminate | now injection Hvs]. }
  assert (Hne : vs <> []).
  { intros ->. rewrite <- Hfilter in Hvs. discriminate. }
  destruct (highest_version_greatest_string vs Hne) as (b0 & Hb0 & Hin & Htop).
  rewrite Hb in Hb0. injection Hb0 as <-.
  rewrite Hfilter in Hin. apply filter_In in Hin. destruct Hin as [Hin Hid].
  apply String.eqb_eq in Hid.
  repeat split; [exact Hin | now symmetry |].
  intros b' Hb' Hid'. apply Htop. rewrite Hfilter. apply filter_In.
  split; [exact Hb'|]. apply String.eqb_eq. now symmetry.
Qed.

(** C1 on an index that lists the bundle [X] at 1.9.0 and at 1.10.0:
    the comparator puts 1.9.0 below 1.10.0, and the entry kept for [X]
    is the one of 1.9.0, in whichever order the index lists the two,
    because the versions of an identity are sorted as plain strings. *)
Theorem latest_bundles_sorts_version_strings :
  compare_versions "1.9.0" "1.10.0" = Ok (-1)
  /\ parse_index_xml two_versions_index
     = [sample_bundle "X" "1.9.0"; sample_bundle "X" "1.10.0"]
  /\ latest_bundles (parse_index_xml two_versions_index)
     = Ok [("X", sample_bundle "X" "1.9.0")]
  /\ latest_bundles (parse_index_xml (rev two_versions_index))
     = Ok [("X", sample_bundle "X" "1.9.0")].
Proof. repeat split; vm_compute; reflexivity. Qed.

(** ** The latest version on the bundle hub *)

(** C7 on the listing [x-1.0.0.jar], [x-1.0.alpha.jar]: the keys of the
    two versions differ at a position where one holds an [int] and the
    other a [str]; comparing them raises [TypeError], which the function
    does not catch, so no version is returned.  On a listing whose
    versions are all numeric the greatest one is returned. *)
Theorem get_latest_version_from_bnd_hub_mixed_tokens :
  get_latest_version_from_bnd_hub (hub_listing_env ["x-1.0.0.jar"; "x-1.0.alpha.jar"]) "x"
    empty_state
  = (Raise TypeError, {| fs := ∅; trace := [Request (bnd_hub_api_url "x")] |})
  /\ get_latest_version_from_bnd_hub (hub_listing_env ["x-1.2.0.jar"; "x-1.10.0.jar"]) "x"
       empty_state
     = (Ok (Some "1.10.0"), {| fs := ∅; trace := [Request (bnd_hub_api_url "x")] |}).
Proof. split; reflexivity. Qed.

(** * Further properties of the script *)

(** ** What a check leaves untouched *)

Lemma only_requests_refl (st : State) : only_requests st st.
Proof. split; [reflexivity|]. exists []. cbn. now rewrite app_nil_r. Qed.

Lemma only_requests_trans (st1 st2 st3 : State) :
  only_requests st1 st2 -> only_requests st2 st3 -> only_requests st1 st3.
Proof.
  intros [Hfs1 [u1 Ht1]] [Hfs2 [u2 Ht2]]. split; [congruence|].
  exists (u1 ++ u2). now rewrite Ht2, Ht1, map_app, app_assoc.
Qed.

Lemma only_requests_one (st : State) (u : string) :
  only_requests st {| fs := fs st; trace := trace st ++ [Request u] |}.
Proof. split; [reflexivity|]. now exists [u]. Qed.

(** The state after a search at Maven Central, whatever it answered. *)
Lemma get_latest_version_from_maven_state (E : Env) (g a : string) (st : State) :
  snd (get_latest_version_from_maven E g a st)
  = {| fs := fs st; trace := trace st ++ [Request (maven_search_url E g a)] |}.
Proof.
  unfold get_latest_version_from_maven. run.
  destruct (urlopen E (maven_search_url E g a)) as [[body|e]|e]; cbn.
  - destruct (json_loads E body) as [data|e]; cbn.
    + destruct (read_search_response data) as [r|e]; cbn; [reflexivity|].
      now destruct (caught_by_search e).
    + now destruct (caught_by_search e).
  - now destruct (caught_by_search e).
  - now destruct (caught_by_search e).
Qed.

(** The state after a listing of the bundle hub, whatever it answered. *)
Lemma get_latest_version_from_bnd_hub_state (E : Env) (name : string) (st : State) :
  snd (get_latest_version_from_bnd_hub E name st)
  = {| fs := fs st; trace := trace st ++ [Request (bnd_hub_api_url name)] |}.
Proof.
  unfold get_latest_version_from_bnd_hub. run.
  destruct (urlopen E (bnd_hub_api_url name)) as [[body|e]|e]; cbn.
  - destruct (json_loads E body) as [data|e]; cbn.
    + destruct (read_hub_listing name data) as [r|e]; cbn; [reflexivity|].
      now destruct (caught_by_hub e).
    + now destruct (caught_by_hub e).
  - now destruct (caught_by_hub e).
  - now destruct (caught_by_hub e).
Qed.

Lemma check_latest_only_requests (E : Env) (g a source : string) (st : State) :
  only_requests st (snd (check_latest E g a source st)).
Proof.
  unfold check_latest. destruct (String.eqb source "BND Hub").
  - unfold bind.
    pose proof (get_latest_version_from_bnd_hub_state E a st) as Hst.
    destruct (get_latest_version_from_bnd_hub E a st) as [[[v|]|e] st1]; cbn in *;
      subst st1; apply only_requests_one.
  - unfold bind at 1.
    pose proof (get_latest_version_from_maven_state E g a st) as Hst.
    destruct (get_latest_version_from_maven E g a st) as [[info|e] st1]; cbn in Hst; subst st1;
      [|apply only_requests_one].
    destruct info as [[ver g' a']|]; cbn; [destruct ver; cbn|];
      try apply only_requests_one.
    all: unfold bind.
    all: destruct (search_mvnrepository_returns E g a None
                     {| fs := fs st; trace := trace st ++ [Request (maven_search_url E g a)] |})
           as [found Hrun].
    all: rewrite Hrun.
    all: eapply only_requests_trans; [apply only_requests_one|].
    all: destruct found; cbn; apply (only_requests_one {| fs := fs st; trace := _ |}).
Qed.

Lemma check_item_only_requests (E : Env) (item : Item) (r : CheckResults) (st : State) :
  only_requests st (snd (check_item E item r st)).
Proof.
  unfold check_item. cbv zeta.
  destruct (has_key (item_comment item) && negb (has_key (item_groupId item)));
    [apply only_requests_refl|].
  destruct (negb (truthy (item_groupId item)) || negb (truthy (item_artifactId item)));
    [apply only_requests_refl|].
  unfold bind at 1.
  pose proof (check_latest_only_requests E (get_or (item_groupId item) "")
                (get_or (item_artifactId item) "")
                (get_or (item_source item) "Maven Central") st) as Hst.
  destruct (check_latest E _ _ _ st) as [[[reason|latest]|e] st1]; cbn in Hst; cbn; try exact Hst.
  destruct latest; cbn; try exact Hst;
    destruct (truthy (item_version item)); cbn; try exact Hst.
  unfold bind, lift.
  destruct (compare_versions _ s) as [cmp|e]; cbn; [|exact Hst].
  destruct (cmp <? 0); exact Hst.
Qed.

Lemma check_items_only_requests (E : Env) (items : list Item) (r : CheckResults) (st : State) :
  only_requests st (snd (check_items E items r st)).
Proof.
  revert r st. induction items as [|item rest IH]; intros r st; cbn.
  - apply only_requests_refl.
  - unfold bind.
    pose proof (check_item_only_requests E item r st) as Hst.
    destruct (check_item E item r st) as [[r1|e] st1]; cbn in Hst; [|exact Hst].
    eapply only_requests_trans; [exact Hst | apply IH].
Qed.

Lemma written_requests (urls : list string) : written (map Request urls) = [].
Proof. induction urls as [|u r IH]; cbn; [reflexivity | exact IH]. Qed.

(** X1.  A check ([--check-only]) changes no file, whatever the
    network answers and whether the loop ends or raises: the files are
    those it started with, and everything it added to the trace is a
    request; no directory is made and no file is opened for writing. *)
Theorem check_for_updates_writes_nothing (E : Env) (st : State) :
  only_requests st (snd (check_for_updates E st))
  /\ fs (snd (check_for_updates E st)) = fs st
  /\ written (trace (snd (check_for_updates E st))) = written (trace st).
Proof.
  pose proof (check_items_only_requests E (ADDITIONAL_DOWNLOADS E) no_check_results st) as Hro.
  fold (check_for_updates E) in Hro.
  split; [exact Hro|]. destruct Hro as [Hfs [urls Htrace]].
  split; [exact Hfs|].
  now rewrite Htrace, written_app, written_requests, app_nil_r.
Qed.

(** ** One record for each entry of the desired-state list *)

Lemma additional_count_downloaded (r : AdditionalResults) (x : Downloaded) :
  additional_count (add_downloaded r x) = S (additional_count r).
Proof. unfold additional_count. cbn. rewrite length_app. cbn. lia. Qed.

Lemma additional_count_error (r : AdditionalResults) (x : DownloadError) :
  additional_count (add_download_error r x) = S (additional_count r).
Proof. unfold additional_count. cbn. rewrite length_app. cbn. lia. Qed.

Lemma additional_count_exists (r : AdditionalResults) (x : Existing) :
  additional_count (add_already_exists r x) = S (additional_count r).
Proof. unfold additional_count. cbn. rewrite length_app. cbn. lia. Qed.

Ltac returned :=
  unfold ret;
  let H := fresh in
  intros H; injection H as <- _;
  rewrite ?additional_count_downloaded, ?additional_count_error, ?additional_count_exists;
  lia.

Lemma process_bnd_hub_item_count (E : Env) (ce : bool) (g a folder : string)
    (pinned : option string) (r r' : AdditionalResults) (st st' : State) :
  process_bnd_hub_item E ce g a folder pinned r st = (Ok r', st') ->
  additional_count r' = S (additional_count r).
Proof.
  unfold process_bnd_hub_item. cbv zeta. unfold bind at 1.
  destruct ((if ce then path_exists _ else ret false) st) as [[present|e] st1];
    [|discriminate].
  destruct present; [returned|].
  unfold bind.
  destruct (download_from_bnd_hub E a _ _ st1) as [[ok|e] st2]; [|discriminate].
  destruct ok; returned.
Qed.

Lemma process_item_count (E : Env) (ce : bool) (item : Item) (r r' : AdditionalResults)
    (st st' : State) :
  process_item E ce item r st = (Ok r', st') ->
  additional_count r' = (additional_count r + if counted item then 1 else 0)%nat.
Proof.
  unfold process_item, counted. cbv zeta.
  destruct (has_key (item_comment item) && negb (has_key (item_groupId item))); cbn [negb andb];
    [returned|].
  destruct (truthy (item_groupId item)); cbn [negb andb orb]; [|returned].
  destruct (truthy (item_artifactId item)); cbn [negb andb orb]; [|returned].
  destruct (String.eqb (get_or (item_source item) "Maven Central") "BND Hub").
  - intros H. apply process_bnd_hub_item_count in H. lia.
  - unfold bind at 1.
    destruct (resolve_item_version E _ _ _ st) as [[[latest|]|e] st1]; [| |discriminate];
      [|returned].
    unfold bind at 1.
    destruct ((if ce then path_exists _ else ret false) st1) as [[present|e] st2];
      [|discriminate].
    destruct present; [returned|].
    unfold bind.
    destruct (fetch_item E _ _ _ _ _ st2) as [[[success source]|e] st3]; [|discriminate].
    destruct success; returned.
Qed.

Lemma process_items_count (E : Env) (ce : bool) (items : list Item) (r r' : AdditionalResults)
    (st st' : State) :
  process_items E ce items r st = (Ok r', st') ->
  additional_count r' = (additional_count r + length (List.filter counted items))%nat.
Proof.
  revert r st. induction items as [|item rest IH]; intros r st; cbn.
  - unfold ret. intros H. injection H as <- _. lia.
  - unfold bind.
    destruct (process_item E ce item r st) as [[r1|e] st1] eqn:H1; [|discriminate].
    intros H. apply IH in H. apply process_item_count in H1.
    destruct (counted item); cbn [length]; lia.
Qed.

(** X2.  A run of [download_additional_bundles] that returns has put
    exactly one record in [downloaded], [errors] or [already_exists]
    for every entry that names both coordinates, and none for a comment
    entry or an entry with a missing or empty coordinate. *)
Theorem download_additional_bundles_one_record_each (E : Env) (items : list Item) (ce : bool)
    (results : AdditionalResults) (st st' : State) :
  download_additional_bundles E items ce st = (Ok results, st') ->
  additional_count results = length (List.filter counted items).
Proof.
  unfold download_additional_bundles. destruct items as [|item rest].
  - unfold ret. intros H. now injection H as <- _.
  - intros H. apply process_items_count in H. exact H.
Qed.

Lemma download_additional_bundles_one_record_each_witness :
  additional_count
    {| downloaded := [ {| dl_group_id := "g"; dl_artifact_id := "a";
                          dl_version := PStr "1.3.0"; dl_folder := "x";
                          dl_source := "Maven Central" |} ];
       download_errors := [];
       already_exists := [] |}
  = length (List.filter counted [comment_item; pinned_item; half_item]).
Proof.
  eapply (download_additional_bundles_one_record_each scenario_env
            [comment_item; pinned_item; half_item] false _ empty_state).
  reflexivity.
Defined.

(** ** One record for each entry of a check *)

Lemma check_count_update (r : CheckResults) (x : UpdateRecord) :
  check_count (add_update r x) = S (check_count r).
Proof. unfold check_count. cbn. rewrite length_app. cbn. lia. Qed.

Lemma check_count_current (r : CheckResults) (x : CurrentRecord) :
  check_count (add_current r x) = S (check_count r).
Proof. unfold check_count. cbn. rewrite length_app. cbn. lia. Qed.

Lemma check_count_error (r : CheckResults) (x : CheckError) :
  check_count (add_check_error r x) = S (check_count r).
Proof. unfold check_count. cbn. rewrite length_app. cbn. lia. Qed.

Ltac checked :=
  unfold ret;
  let H := fresh in
  intros H; injection H as <- _;
  rewrite ?check_count_update, ?check_count_current, ?check_count_error;
  lia.

Lemma check_item_count (E : Env) (item : Item) (r r' : CheckResults) (st st' : State) :
  check_item E item r st = (Ok r', st') ->
  check_count r' = (check_count r + if counted item then 1 else 0)%nat.
Proof.
  unfold check_item, counted. cbv zeta.
  destruct (has_key (item_comment item) && negb (has_key (item_groupId item))); cbn [negb andb];
    [checked|].
  destruct (truthy (item_groupId item)); cbn [negb andb orb]; [|checked].
  destruct (truthy (item_artifactId item)); cbn [negb andb orb]; [|checked].
  unfold bind at 1.
  destruct (check_latest E _ _ _ st) as [[[reason|latest]|e] st1]; [| |discriminate];
    [checked|].
  destruct latest; try checked;
    destruct (truthy (item_version item)); try checked; try (unfold raise; discriminate).
  unfold bind, lift.
  destruct (compare_versions _ s) as [cmp|e]; [|discriminate].
  destruct (cmp <? 0); checked.
Qed.

Lemma check_items_count (E : Env) (items : list Item) (r r' : CheckResults) (st st' : State) :
  check_items E items r st = (Ok r', st') ->
  check_count r' = (check_count r + length (List.filter counted items))%nat.
Proof.
  revert r st. induction items as [|item rest IH]; intros r st; cbn.
  - unfold ret. intros H. injection H as <- _. lia.
  - unfold bind.
    destruct (check_item E item r st) as [[r1|e] st1] eqn:H1; [|discriminate].
    intros H. apply IH in H. apply check_item_count in H1.
    destruct (counted item); cbn [length]; lia.
Qed.

(** X3.  A check that returns has reported every entry of
    [additionalDownloads] that names both coordinates exactly once, as
    an update, as up to date or as an error, and has reported nothing
    for the other entries. *)
Theorem check_for_updates_one_record_each (E : Env) (results : CheckResults) (st st' : State) :
  check_for_updates E st = (Ok results, st') ->
  check_count results = length (List.filter counted (ADDITIONAL_DOWNLOADS E)).
Proof.
  unfold check_for_updates. intros H. apply check_items_count in H. exact H.
Qed.

Lemma check_for_updates_one_record_each_witness :
  check_count
    {| chk_updates := [];
       chk_up_to_date := [ {| cur_group_id := "g"; cur_artifact_id := "a";
                              cur_version := "1.3.0" |} ];
       chk_errors := [] |}
  = length (List.filter counted (ADDITIONAL_DOWNLOADS scenario_env)).
Proof.
  eapply (check_for_updates_one_record_each scenario_env _ empty_state).
  reflexivity.
Defined.

(** ** Entries already at the latest version *)

Lemma compare_versions_same (v : string) : compare_versions v v = Ok 0.
Proof.
  unfold compare_versions. destruct (normalize_ok v) as [n Hn]. rewrite Hn.
  now rewrite compare_normalized_refl.
Qed.

(** X4.  An index-derived bundle whose version is the very string Maven
    Central answers as the latest is recorded as up to date after the
    one search request: nothing is downloaded and no file changes, so a
    second run over an index that reflects the first finds nothing to
    update. *)
Theorem process_bundle_at_latest_is_up_to_date (E : Env) (ident g a : string) (b : Bundle)
    (info : MavenInfo) (results : Results) (st st1 : State) :
  BUNDLE_TO_MAVEN E !! ident = Some (Some (g, a)) ->
  get_latest_version_from_maven E g a st = (Ok (Some info), st1) ->
  mi_version info = PStr (version b) ->
  process_bundle E ident b results st
  = (Ok (append_outcome results (UpToDate ident g a (version b))),
     {| fs := fs st; trace := trace st ++ [Request (maven_search_url E g a)] |}).
Proof.
  intros Hmap Hsearch Hver.
  pose proof (get_latest_version_from_maven_state E g a st) as Hst.
  rewrite Hsearch in Hst. cbn in Hst. subst st1.
  unfold process_bundle. rewrite Hmap. unfold bind at 1. rewrite Hsearch, Hver.
  unfold bind, lift. now rewrite compare_versions_same.
Qed.

Lemma process_bundle_at_latest_is_up_to_date_witness :
  process_bundle scenario_env "X" (sample_bundle "X" "1.3.0") no_results empty_state
  = (Ok (append_outcome no_results (UpToDate "X" "g" "a" "1.3.0")),
     {| fs := ∅; trace := [Request (plain_search_url "g" "a")] |}).
Proof.
  apply (process_bundle_at_latest_is_up_to_date scenario_env "X" "g" "a"
           (sample_bundle "X" "1.3.0")
           {| mi_version := PStr "1.3.0"; mi_group_id := PStr "g"; mi_artifact_id := PStr "a" |}
           no_results empty_state
           {| fs := ∅; trace := [Request (plain_search_url "g" "a")] |});
    reflexivity.
Defined.

(** X5.  In a check, an entry pinned at the very version string the
    lookup finds is reported as up to date and never as an update. *)
Theorem check_item_at_latest_is_up_to_date (E : Env) (item : Item) (v : string)
    (r : CheckResults) (st st1 : State) :
  counted item = true ->
  item_version item = Some v ->
  v <> EmptyString ->
  check_latest E (get_or (item_groupId item) EmptyString)
    (get_or (item_artifactId item) EmptyString)
    (get_or (item_source item) "Maven Central") st
  = (Ok (inr (PStr v)), st1) ->
  check_item E item r st
  = (Ok (add_current r
           {| cur_group_id := get_or (item_groupId item) EmptyString;
              cur_artifact_id := get_or (item_artifactId item) EmptyString;
              cur_version := v |}), st1).
Proof.
  intros Hcounted Hpin Hv Hlatest.
  unfold counted in Hcounted. apply andb_true_iff in Hcounted as [Hcounted Ha].
  apply andb_true_iff in Hcounted as [Hskip Hg]. apply negb_true_iff in Hskip.
  unfold check_item. cbv zeta. rewrite Hskip, Hg, Ha. cbn [negb orb].
  unfold bind at 1. rewrite Hlatest, Hpin. cbn [truthy get_or].
  apply String.eqb_neq in Hv. rewrite Hv. cbn [negb].
  unfold bind, lift. now rewrite compare_versions_same.
Qed.

Lemma check_item_at_latest_is_up_to_date_witness :
  check_item scenario_env pinned_item no_check_results empty_state
  = (Ok (add_current no_check_results
           {| cur_group_id := "g"; cur_artifact_id := "a"; cur_version := "1.3.0" |}),
     {| fs := ∅; trace := [Request (plain_search_url "g" "a")] |}).
Proof.
  apply (check_item_at_latest_is_up_to_date scenario_env pinned_item "1.3.0" no_check_results
           empty_state {| fs := ∅; trace := [Request (plain_search_url "g" "a")] |});
    [reflexivity | reflexivity | discriminate | reflexivity].
Defined.

(** ** Edges of the fetch *)

(** X6.  An index-derived bundle that has no content URL and is older
    than the version Maven Central answers is not recorded at all: the
    turn of the loop raises [AttributeError] when it derives the
    destination directory, after the search request and before any
    download. *)
Theorem process_bundle_without_url_raises (E : Env) (ident g a latest : string) (b : Bundle)
    (info : MavenInfo) (cmp : Z) (results : Results) (st st1 : State) :
  BUNDLE_TO_MAVEN E !! ident = Some (Some (g, a)) ->
  get_latest_version_from_maven E g a st = (Ok (Some info), st1) ->
  mi_version info = PStr latest ->
  compare_versions (version b) latest = Ok cmp ->
  cmp < 0 ->
  url b = None ->
  process_bundle E ident b results st
  = (Raise AttributeError,
     {| fs := fs st; trace := trace st ++ [Request (maven_search_url E g a)] |}).
Proof.
  intros Hmap Hsearch Hver Hcmp Hlt Hurl.
  pose proof (get_latest_version_from_maven_state E g a st) as Hst.
  rewrite Hsearch in Hst. cbn in Hst. subst st1.
  unfold process_bundle. rewrite Hmap. unfold bind at 1. rewrite Hsearch, Hver.
  unfold bind, lift. rewrite Hcmp.
  apply Z.leb_gt in Hlt. now rewrite Hlt, Hurl.
Qed.

Lemma process_bundle_without_url_raises_witness :
  parse_index_xml [bare_resource "X" "1.2.0"]
  = [ {| identity := "X"; version := "1.2.0"; url := None; type := None |} ]
  /\ process_bundle scenario_env "X"
       {| identity := "X"; version := "1.2.0"; url := None; type := None |}
       no_results empty_state
     = (Raise AttributeError, {| fs := ∅; trace := [Request (plain_search_url "g" "a")] |}).
Proof.
  split; [reflexivity|].
  apply (process_bundle_without_url_raises scenario_env "X" "g" "a" "1.3.0"
           {| identity := "X"; version := "1.2.0"; url := None; type := None |}
           {| mi_version := PStr "1.3.0"; mi_group_id := PStr "g"; mi_artifact_id := PStr "a" |}
           (-1) no_results empty_state
           {| fs := ∅; trace := [Request (plain_search_url "g" "a")] |});
    reflexivity.
Defined.

(** X7.  [download_from_bnd_hub] opens the destination file before it
    reads the body: when the connection opens and the read fails, the
    file is left empty, replacing what was there; the answer is [False]
    for a [URLError] and the exception itself otherwise. *)
Theorem download_from_bnd_hub_read_failure_empties_file (E : Env) (name v dest : string)
    (e : exn) (st : State) :
  urlopen E (bnd_hub_jar_url name v) = Ok (Raise e) ->
  fst (download_from_bnd_hub E name v dest st) = (if is_URLError e then Ok false else Raise e)
  /\ fs (snd (download_from_bnd_hub E name v dest st)) !! path_join E dest (jar_name name v)
     = Some EmptyString
  /\ written (trace (snd (download_from_bnd_hub E name v dest st)))
     = written (trace st) ++ [path_join E dest (jar_name name v)].
Proof.
  intros Hnet. rewrite download_from_bnd_hub_run, Hnet. cbn.
  split; [reflexivity|]. split; [apply lookup_insert_eq|].
  now rewrite written_app.
Qed.

Lemma download_from_bnd_hub_read_failure_empties_file_witness :
  fs installed_state !! "/srv/dependencies/osgi/osgi.residential-4.3.0.jar" = Some jar_bytes
  /\ fst (download_from_bnd_hub broken_hub_env "osgi.residential" "4.3.0"
            "/srv/dependencies/osgi" installed_state) = Raise TimeoutError
  /\ fs (snd (download_from_bnd_hub broken_hub_env "osgi.residential" "4.3.0"
                "/srv/dependencies/osgi" installed_state))
       !! "/srv/dependencies/osgi/osgi.residential-4.3.0.jar" = Some EmptyString.
Proof.
  destruct (download_from_bnd_hub_read_failure_empties_file broken_hub_env "osgi.residential"
              "4.3.0" "/srv/dependencies/osgi" TimeoutError installed_state eq_refl)
    as (Hanswer & Hfile & _).
  split; [reflexivity|]. split; [exact Hanswer | exact Hfile].
Defined.

(** ** What the answer of a fallback download means *)

(** The answer of the loop over a list of repositories, read backwards:
    [False] means nothing was written; [True] comes with the name of a
    repository of the list that sent the body now in the file. *)
Lemma download_jar_from_repos_answer (E : Env) (repos : list (string * string))
    (g a v dest : string) (st st' : State) (ok : bool) (name : option string) :
  download_jar_from_repos E repos g a v dest st = (Ok (ok, name), st') ->
  if ok then
    exists n u data,
      name = Some n /\ In (n, u) repos
      /\ urlopen E (jar_url u g a v) = Ok (Ok data)
      /\ is_error_page data = false
      /\ fs st' = <[path_join E dest (jar_name a v) := data]> (fs st)
      /\ written (trace st') = written (trace st) ++ [path_join E dest (jar_name a v)]
  else
    name = None /\ fs st' = fs st /\ written (trace st') = written (trace st).
Proof.
  revert st. induction repos as [|[n u] repos IH]; intros st; cbn.
  - unfold ret. intros H. injection H as <- <- <-. auto.
  - unfold bind. rewrite download_jar_run. cbn [repository_of].
    destruct (urlopen E (jar_url u g a v)) as [[data|e]|e] eqn:Hnet.
    + destruct (is_error_page data) eqn:Hpage.
      * intros H. apply IH in H. cbn [fs trace] in H.
        destruct ok.
        -- destruct H as (n' & u' & d' & Hn & Hin & H).
           exists n', u', d'. rewrite written_app in H. cbn in H. rewrite app_nil_r in H.
           split; [exact Hn|]. split; [now right | exact H].
        -- rewrite written_app in H. cbn in H. now rewrite app_nil_r in H.
      * unfold ret. intros H. injection H as <- <- <-.
        exists n, u, data. cbn. rewrite written_app. cbn.
        repeat split; auto.
    + destruct (is_URLError e); [|discriminate].
      intros H. apply IH in H. cbn [fs trace] in H.
      destruct ok.
      * destruct H as (n' & u' & d' & Hn & Hin & H).
        exists n', u', d'. rewrite written_app in H. cbn in H. rewrite app_nil_r in H.
        split; [exact Hn|]. split; [now right | exact H].
      * rewrite written_app in H. cbn in H. now rewrite app_nil_r in H.
    + destruct (is_URLError e); [|discriminate].
      intros H. apply IH in H. cbn [fs trace] in H.
      destruct ok.
      * destruct H as (n' & u' & d' & Hn & Hin & H).
        exists n', u', d'. rewrite written_app in H. cbn in H. rewrite app_nil_r in H.
        split; [exact Hn|]. split; [now right | exact H].
      * rewrite written_app in H. cbn in H. now rewrite app_nil_r in H.
Qed.

(** X8.  Whatever the repositories answer, when
    [download_jar_from_multiple_repos] returns [(True, name)] the name
    is that of a repository of [MAVEN_REPOSITORIES] whose URL sent a
    body that is not an error page, that body is the content of the jar
    file and it is the only file written; when it returns [(False,
    name)] the name is [None] and no file was written or changed. *)
Theorem download_jar_from_multiple_repos_answer (E : Env) (g a v dest : string)
    (st st' : State) (ok : bool) (name : option string) :
  download_jar_from_multiple_repos E g a v dest st = (Ok (ok, name), st') ->
  if ok then
    exists n u data,
      name = Some n /\ In (n, u) MAVEN_REPOSITORIES
      /\ urlopen E (jar_url u g a v) = Ok (Ok data)
      /\ is_error_page data = false
      /\ fs st' = <[path_join E dest (jar_name a v) := data]> (fs st)
      /\ written (trace st') = written (trace st) ++ [path_join E dest (jar_name a v)]
  else
    name = None /\ fs st' = fs st /\ written (trace st') = written (trace st).
Proof. unfold download_jar_from_multiple_repos. apply download_jar_from_repos_answer. Qed.

Lemma download_jar_from_multiple_repos_answer_witness :
  exists n u data,
    Some "Spring Libs" = Some n /\ In (n, u) MAVEN_REPOSITORIES
    /\ urlopen third_env (jar_url u "g" "a" "1.3.0") = Ok (Ok data)
    /\ is_error_page data = false
    /\ fs (snd (download_jar_from_multiple_repos third_env "g" "a" "1.3.0"
                  "/srv/dependencies/x" empty_state))
       = <[path_join third_env "/srv/dependencies/x" (jar_name "a" "1.3.0") := data]>
           (fs empty_state)
    /\ written (trace (snd (download_jar_from_multiple_repos third_env "g" "a" "1.3.0"
                              "/srv/dependencies/x" empty_state)))
       = written (trace empty_state)
         ++ [path_join third_env "/srv/dependencies/x" (jar_name "a" "1.3.0")].
Proof.
  apply (download_jar_from_multiple_repos_answer third_env "g" "a" "1.3.0" "/srv/dependencies/x"
           empty_state
           (snd (download_jar_from_multiple_repos third_env "g" "a" "1.3.0"
                   "/srv/dependencies/x" empty_state))
           true (Some "Spring Libs")).
  reflexivity.
Defined.

Lemma download_jar_from_repos_extends (E : Env) (repos : list (string * string))
    (g a v dest : string) (st : State) :
  exists rest, trace (snd (download_jar_from_repos E repos g a v dest st)) = trace st ++ rest.
Proof.
  revert st. induction repos as [|[n u] repos IH]; intros st; cbn.
  - exists []. now rewrite app_nil_r.
  - unfold bind. rewrite download_jar_run. cbn [repository_of].
    assert (Hnext : exists rest,
               trace (snd (download_jar_from_repos E repos g a v dest
                             {| fs := fs st;
                                trace := trace st ++ [Mkdir dest; Request (jar_url u g a v)] |}))
               = trace st ++ rest).
    { destruct (IH {| fs := fs st;
                      trace := trace st ++ [Mkdir dest; Request (jar_url u g a v)] |})
        as [rest Hrest].
      cbn [trace] in Hrest. rewrite <- app_assoc in Hrest. eauto. }
    destruct (urlopen E (jar_url u g a v)) as [[data|e]|e].
    + destruct (is_error_page data); [exact Hnext|]. cbn. eauto.
    + destruct (is_URLError e); [exact Hnext|]. cbn. eauto.
    + destruct (is_URLError e); [exact Hnext|]. cbn. eauto.
Qed.

(** X9.  [download_from_mvnrepository] first requests the page of the
    version at mvnrepository.  When it returns [(True, name)], a
    repository sent a body that is not an error page, that body is the
    content of the jar file and it is the only file written; when it
    returns [(False, name)] the name is [None] and no file was written
    or changed. *)
Theorem download_from_mvnrepository_answer (E : Env) (g a v dest : string)
    (st st' : State) (ok : bool) (name : option string) :
  download_from_mvnrepository E g a v dest st = (Ok (ok, name), st') ->
  (exists rest, trace st' = trace st ++ Request (mvnrepository_url g a (Some v)) :: rest)
  /\ if ok then
       exists n u data,
         name = Some n
         /\ urlopen E (jar_url u g a v) = Ok (Ok data)
         /\ is_error_page data = false
         /\ fs st' = <[path_join E dest (jar_name a v) := data]> (fs st)
         /\ written (trace st') = written (trace st) ++ [path_join E dest (jar_name a v)]
     else
       name = None /\ fs st' = fs st /\ written (trace st') = written (trace st).
Proof.
  unfold download_from_mvnrepository, bind.
  destruct (search_mvnrepository_returns E g a (Some v) st) as [found Hpage].
  rewrite Hpage. destruct found as [info|].
  - intros Hrun.
    pose proof (download_jar_from_repos_extends E (mr_repositories info) g a v dest
                  {| fs := fs st;
                     trace := trace st ++ [Request (mvnrepository_url g a (Some v))] |})
      as [rest Hrest].
    rewrite Hrun in Hrest. cbn [snd trace] in Hrest. rewrite <- app_assoc in Hrest.
    split; [now exists rest|].
    apply download_jar_from_repos_answer in Hrun. cbn [fs trace] in Hrun.
    rewrite written_app in Hrun. cbn [written] in Hrun. rewrite app_nil_r in Hrun.
    destruct ok; [|exact Hrun].
    destruct Hrun as (n & u & data & Hn & _ & Hrest').
    now exists n, u, data.
  - unfold ret. intros H. injection H as <- <- <-. cbn.
    split; [now exists []|].
    rewrite written_app. cbn. now rewrite app_nil_r.
Qed.

Lemma download_from_mvnrepository_answer_witness :
  download_from_mvnrepository jboss_env "g" "a" "1.3.0" "/srv/dependencies/x" empty_state
  = (Ok (true, Some "JBoss"),
     {| fs := <["/srv/dependencies/x/a-1.3.0.jar" := jar_bytes]> ∅;
        trace := [Request "https://mvnrepository.com/artifact/g/a/1.3.0";
                  Mkdir "/srv/dependencies/x";
                  Request "https://repository.jboss.org/nexus/content/repositories/releases/g/a/1.3.0/a-1.3.0.jar";
                  Write "/srv/dependencies/x/a-1.3.0.jar"] |})
  /\ exists n u data,
      Some "JBoss" = Some n
      /\ urlopen jboss_env (jar_url u "g" "a" "1.3.0") = Ok (Ok data)
      /\ is_error_page data = false
      /\ <["/srv/dependencies/x/a-1.3.0.jar" := jar_bytes]> (∅ : gmap string string)
         = <[path_join jboss_env "/srv/dependencies/x" (jar_name "a" "1.3.0") := data]> ∅
      /\ ["/srv/dependencies/x/a-1.3.0.jar"]
         = [] ++ [path_join jboss_env "/srv/dependencies/x" (jar_name "a" "1.3.0")].
Proof.
  assert (Hrun : download_from_mvnrepository jboss_env "g" "a" "1.3.0" "/srv/dependencies/x"
                   empty_state
                 = (Ok (true, Some "JBoss"),
                    {| fs := <["/srv/dependencies/x/a-1.3.0.jar" := jar_bytes]> ∅;
                       trace := [Request "https://mvnrepository.com/artifact/g/a/1.3.0";
                                 Mkdir "/srv/dependencies/x";
                                 Request "https://repository.jboss.org/nexus/content/repositories/releases/g/a/1.3.0/a-1.3.0.jar";
                                 Write "/srv/dependencies/x/a-1.3.0.jar"] |}))
    by reflexivity.
  split; [exact Hrun|].
  exact (proj2 (download_from_mvnrepository_answer jboss_env "g" "a" "1.3.0"
                  "/srv/dependencies/x" empty_state _ true (Some "JBoss") Hrun)).
Defined.

(** ** Which repositories an entry is fetched from *)

Lemma requested_app (t1 t2 : list event) : requested (t1 ++ t2) = requested t1 ++ requested t2.
Proof.
  induction t1 as [|e t1 IH]; cbn; [reflexivity|].
  destruct e; cbn; now rewrite IH.
Qed.

Lemma download_jar_state (E : Env) (g a v dest : string) (repo : option string) (st : State) :
  requested (trace (snd (download_jar E g a v dest repo st)))
  = requested (trace st) ++ [jar_url (repository_of repo) g a v].
Proof.
  rewrite download_jar_run.
  destruct (urlopen E _) as [[data|e]|e]; cbn.
  - destruct (is_error_page data); cbn; now rewrite requested_app.
  - destruct (is_URLError e); cbn; now rewrite requested_app.
  - destruct (is_URLError e); cbn; now rewrite requested_app.
Qed.

(** X10.  An entry that names a repository of its own ([repoUrl]) is
    fetched from that repository and from no other: whatever the
    download answers, the one request made is the one for the jar at
    that repository, and the source reported with a success is that
    URL. *)
Theorem fetch_item_custom_repository_only (E : Env) (g a v dest u : string) (st : State) :
  u <> EmptyString ->
  requested (trace (snd (fetch_item E g a v dest (Some u) st)))
  = requested (trace st) ++ [jar_url u g a v]
  /\ forall ok source st',
      fetch_item E g a v dest (Some u) st = (Ok (ok, source), st') ->
      source = u /\ download_jar E g a v dest (Some u) st = (Ok ok, st').
Proof.
  intros Hu. apply String.eqb_neq in Hu.
  unfold fetch_item. cbn [truthy]. rewrite Hu. cbn [negb get_or]. unfold bind.
  pose proof (download_jar_state E g a v dest (Some u) st) as Hreq.
  destruct (download_jar E g a v dest (Some u) st) as [[ok0|e] st0]; cbn in *.
  - split; [exact Hreq|]. intros ok source st' H. injection H as <- <- <-. auto.
  - split; [exact Hreq|]. discriminate.
Qed.

Lemma fetch_item_custom_repository_only_witness :
  requested (trace (snd (fetch_item third_env "g" "a" "1.3.0" "/srv/dependencies/x"
                           (Some "https://repo.spring.io/plugins-release") empty_state)))
  = ["https://repo.spring.io/plugins-release/g/a/1.3.0/a-1.3.0.jar"]
  /\ fst (fetch_item third_env "g" "a" "1.3.0" "/srv/dependencies/x"
            (Some "https://repo.spring.io/plugins-release") empty_state)
     = Ok (false, "https://repo.spring.io/plugins-release").
Proof.
  split; [|reflexivity].
  apply (proj1 (fetch_item_custom_repository_only third_env "g" "a" "1.3.0"
                  "/srv/dependencies/x" "https://repo.spring.io/plugins-release" empty_state
                  ltac:(discriminate))).
Defined.

(** X11.  An entry without a repository of its own is fetched from
    Maven Central first; when that download fails, the list of
    repositories is tried from its start, so that the same jar is
    requested from Maven Central a second time before any other
    repository is asked. *)
Theorem fetch_item_asks_central_twice (E : Env) (g a v dest : string) (st : State) :
  fst (download_jar E g a v dest None st) = Ok false ->
  exists rest,
    requested (trace (snd (fetch_item E g a v dest None st)))
    = requested (trace st)
      ++ jar_url MAVEN_DOWNLOAD_URL g a v :: jar_url MAVEN_DOWNLOAD_URL g a v :: rest.
Proof.
  intros Hfail.
  assert (Hagain : forall st1,
             fst (download_jar E g a v dest (Some "https://repo1.maven.org/maven2") st1)
             = Ok false).
  { intros st1. rewrite <- Hfail. rewrite !download_jar_run. cbn [repository_of].
    change MAVEN_DOWNLOAD_URL with "https://repo1.maven.org/maven2".
    destruct (urlopen E _) as [[data|e]|e]; cbn.
    - now destruct (is_error_page data).
    - now destruct (is_URLError e).
    - now destruct (is_URLError e). }
  unfold fetch_item. cbn [truthy]. unfold bind at 1.
  rewrite (download_jar_false E g a v dest None st Hfail).
  unfold download_jar_from_multiple_repos.
  change MAVEN_REPOSITORIES
    with (("Maven Central", "https://repo1.maven.org/maven2") :: tl MAVEN_REPOSITORIES).
  generalize (tl MAVEN_REPOSITORIES). intros others.
  cbn [download_jar_from_repos]. unfold bind.
  rewrite (download_jar_false E g a v dest (Some "https://repo1.maven.org/maven2") _
             (Hagain _)).
  cbn [fs trace repository_of].
  match goal with
  | |- context [download_jar_from_repos E others g a v dest ?st2] =>
      destruct (download_jar_from_repos_extends E others g a v dest st2) as [rest Hrest];
      destruct (download_jar_from_repos E others g a v dest st2) as [[[ok name]|e] st3]
  end; cbn [snd trace] in Hrest.
  - exists (requested rest).
    destruct ok; unfold ret; cbn [snd]; rewrite Hrest;
      rewrite !requested_app; cbn; now rewrite <- !app_assoc.
  - exists (requested rest). cbn [snd]. rewrite Hrest.
    rewrite !requested_app. cbn. now rewrite <- !app_assoc.
Qed.

Lemma fetch_item_asks_central_twice_witness :
  exists rest,
    requested (trace (snd (fetch_item third_env "g" "a" "1.3.0" "/srv/dependencies/x" None
                             empty_state)))
    = requested (trace empty_state)
      ++ "https://repo1.maven.org/maven2/g/a/1.3.0/a-1.3.0.jar"
         :: "https://repo1.maven.org/maven2/g/a/1.3.0/a-1.3.0.jar" :: rest.
Proof.
  apply (fetch_item_asks_central_twice third_env "g" "a" "1.3.0" "/srv/dependencies/x"
           empty_state).
  rewrite download_jar_run. reflexivity.
Defined.

(** ** A sync after a run *)


Lemma apply_writes_keeps (w : list (string * string)) (files : gmap string string) (p : string) :
  is_Some (files !! p) -> is_Some (apply_writes w files !! p).
Proof.
  revert files. induction w as [|[q d] w IH]; intros files H; cbn; [exact H|].
  apply IH. destruct (decide (q = p)) as [->|Hne].
  - rewrite lookup_insert_eq. eauto.
  - now rewrite lookup_insert_ne.
Qed.



Lemma settled_raise {A} (e : exn) : settled (@raise A e) (Raise e) [] [].
Proof. intros st. unfold raise. cbn. rewrite app_nil_r. now destruct st. Qed.

Lemma settled_lift {A} (r : result A) : settled (lift r) r [] [].
Proof. intros st. unfold lift. cbn. rewrite app_nil_r. now destruct st. Qed.




Lemma settled_keeps {A} (m : M A) (res : result A) (w : list (string * string))
    (t : list event) (st : State) :
  settled m res w t -> keeps_files st (snd (m st)).
Proof. intros Hm p Hp. rewrite Hm. cbn. now apply apply_writes_keeps. Qed.










Lemma present_run (ce : bool) (p : string) (st : State) :
  (if ce then path_exists p else ret false) st
  = (Ok (ce && bool_decide (is_Some (fs st !! p))), st).
Proof. now destruct ce. Qed.









(** ** The index reader *)

Lemma field_value_cons (init : option string) (a : Attribute) (l : list Attribute) :
  field_value init (a :: l) = field_value (attr_value a) l.
Proof.
  unfold field_value. cbn [rev]. destruct (rev l); reflexivity.
Qed.

Lemma field_value_app (init : option string) (l1 l2 : list Attribute) :
  field_value init (l1 ++ l2) = field_value (field_value init l1) l2.
Proof.
  revert init. induction l1 as [|a l1 IH]; intros init; [reflexivity|].
  change ((a :: l1) ++ l2) with (a :: (l1 ++ l2)).
  now rewrite !field_value_cons, IH.
Qed.

Lemma name_is_other (a : Attribute) (n m : string) :
  name_is a n = true -> String.eqb n m = false -> name_is a m = false.
Proof.
  unfold name_is. destruct (attr_name a) as [s|]; [|discriminate].
  intros H. apply String.eqb_eq in H. now subst s.
Qed.

Lemma filter_named_cons (n : string) (a : Attribute) (l : list Attribute) :
  List.filter (fun x => name_is x n) (a :: l)
  = if name_is a n then a :: List.filter (fun x => name_is x n) l
    else List.filter (fun x => name_is x n) l.
Proof. reflexivity. Qed.

Lemma read_identity_attributes (attrs : list Attribute) (b : BundleInfo) :
  let b' := fold_left read_identity_attribute attrs b in
  bi_identity b'
  = field_value (bi_identity b) (List.filter (fun a => name_is a "osgi.identity") attrs)
  /\ bi_version b'
     = field_value (bi_version b) (List.filter (fun a => name_is a "version") attrs)
  /\ bi_type b' = field_value (bi_type b) (List.filter (fun a => name_is a "type") attrs)
  /\ bi_url b' = bi_url b.
Proof.
  revert b. induction attrs as [|a attrs IH]; intros b; [now repeat split|].
  cbn [fold_left]. cbv zeta in IH |- *.
  destruct (IH (read_identity_attribute b a)) as (Hi & Hv & Ht & Hu).
  rewrite Hi, Hv, Ht, Hu, !filter_named_cons. unfold read_identity_attribute.
  destruct (name_is a "osgi.identity") eqn:H1.
  - rewrite (name_is_other a _ "version" H1 eq_refl), (name_is_other a _ "type" H1 eq_refl).
    now rewrite field_value_cons.
  - destruct (name_is a "version") eqn:H2.
    + rewrite (name_is_other a _ "type" H2 eq_refl). now rewrite field_value_cons.
    + destruct (name_is a "type") eqn:H3; [now rewrite field_value_cons | now repeat split].
Qed.

Lemma read_content_attributes (attrs : list Attribute) (b : BundleInfo) :
  let b' := fold_left read_content_attribute attrs b in
  bi_identity b' = bi_identity b /\ bi_version b' = bi_version b /\ bi_type b' = bi_type b
  /\ bi_url b' = field_value (bi_url b) (List.filter (fun a => name_is a "url") attrs).
Proof.
  revert b. induction attrs as [|a attrs IH]; intros b; [now repeat split|].
  cbn [fold_left]. cbv zeta in IH |- *.
  destruct (IH (read_content_attribute b a)) as (Hi & Hv & Ht & Hu).
  rewrite Hi, Hv, Ht, Hu, filter_named_cons. unfold read_content_attribute.
  destruct (name_is a "url"); [now rewrite field_value_cons | now repeat split].
Qed.

Lemma attributes_named_cons (ns n : string) (c : Capability) (r : Resource) :
  attributes_named ns n (c :: r)
  = (if namespace_is c ns then List.filter (fun a => name_is a n) (cap_attributes c) else [])
    ++ attributes_named ns n r.
Proof.
  unfold attributes_named. cbn [List.filter].
  destruct (namespace_is c ns); [|reflexivity].
  cbn [flat_map]. apply List.filter_app.
Qed.

Lemma namespace_is_other (c : Capability) (n m : string) :
  namespace_is c n = true -> String.eqb n m = false -> namespace_is c m = false.
Proof.
  unfold namespace_is. destruct (cap_namespace c) as [s|]; [|discriminate].
  intros H. apply String.eqb_eq in H. now subst s.
Qed.

Lemma read_capability_cases (b : BundleInfo) (c : Capability) :
  read_capability b c
  = if namespace_is c "osgi.identity" then fold_left read_identity_attribute (cap_attributes c) b
    else if namespace_is c "osgi.content"
         then fold_left read_content_attribute (cap_attributes c) b
         else b.
Proof.
  unfold read_capability, namespace_is. now destruct (cap_namespace c).
Qed.

Lemma read_capabilities (r : Resource) (b : BundleInfo) :
  let b' := fold_left read_capability r b in
  bi_identity b' = field_value (bi_identity b) (attributes_named "osgi.identity" "osgi.identity" r)
  /\ bi_version b' = field_value (bi_version b) (attributes_named "osgi.identity" "version" r)
  /\ bi_type b' = field_value (bi_type b) (attributes_named "osgi.identity" "type" r)
  /\ bi_url b' = field_value (bi_url b) (attributes_named "osgi.content" "url" r).
Proof.
  revert b. induction r as [|c r IH]; intros b; [now repeat split|].
  cbn [fold_left]. cbv zeta in IH |- *.
  destruct (IH (read_capability b c)) as (Hi & Hv & Ht & Hu).
  rewrite Hi, Hv, Ht, Hu, !attributes_named_cons, !field_value_app, read_capability_cases.
  destruct (namespace_is c "osgi.identity") eqn:H1.
  - rewrite (namespace_is_other c _ "osgi.content" H1 eq_refl).
    destruct (read_identity_attributes (cap_attributes c) b) as (Hi' & Hv' & Ht' & Hu').
    cbv zeta in Hi', Hv', Ht', Hu'. now rewrite Hi', Hv', Ht', Hu'.
  - destruct (namespace_is c "osgi.content") eqn:H2; [|now repeat split].
    destruct (read_content_attributes (cap_attributes c) b) as (Hi' & Hv' & Ht' & Hu').
    cbv zeta in Hi', Hv', Ht', Hu'. now rewrite Hi', Hv', Ht', Hu'.
Qed.

Lemma read_resource_entry (r : Resource) :
  read_resource r = match entry_of r with Some b => [b] | None => [] end.
Proof.
  unfold read_resource, entry_of, last_attribute. cbv zeta.
  destruct (read_capabilities r
              {| bi_identity := None; bi_version := None; bi_url := None; bi_type := None |})
    as (Hi & Hv & Ht & Hu).
  cbv zeta in Hi, Hv, Ht, Hu. cbn [bi_identity bi_version bi_type bi_url] in Hi, Hv, Ht, Hu.
  rewrite Hi, Hv, Ht, Hu.
  destruct (field_value None (attributes_named "osgi.identity" "osgi.identity" r)) as [i|];
    [|reflexivity].
  destruct (field_value None (attributes_named "osgi.identity" "version" r)) as [v|];
    [|reflexivity].
  cbn [truthy]. now destruct (String.eqb i ""), (String.eqb v "").
Qed.

(** X13.  [parse_index_xml] returns, in the order of the index, one
    entry for every resource that stands for one and nothing else.  The
    identity, the version and the type of the entry are the values of
    the last attributes of these names in the [osgi.identity]
    capabilities of its resource, and its url is the value of the last
    [url] attribute in the [osgi.content] capabilities, [None] when there
    is none.  A resource whose last identity or last version attribute
    is missing, has no value or has the empty value gives no entry and
    no error. *)
Theorem parse_index_xml_reads_last_attributes (resources : list Resource) :
  parse_index_xml resources
  = flat_map (fun r => match entry_of r with Some b => [b] | None => [] end) resources.
Proof.
  unfold parse_index_xml.
  induction resources as [|r rest IH]; [reflexivity|].
  cbn [flat_map]. now rewrite read_resource_entry, IH.
Qed.

Example parse_index_xml_last_attribute_wins :
  parse_index_xml
    [ [ {| cap_namespace := Some "osgi.identity";
           cap_attributes := [ {| attr_name := Some "osgi.identity"; attr_value := Some "A" |};
                               {| attr_name := Some "version"; attr_value := Some "1.0" |};
                               {| attr_name := Some "osgi.identity"; attr_value := Some "B" |} ] |};
        {| cap_namespace := Some "osgi.content";
           cap_attributes := [ {| attr_name := Some "url"; attr_value := Some "x/B-1.0.jar" |} ] |} ];
      [ {| cap_namespace := Some "osgi.identity";
           cap_attributes := [ {| attr_name := Some "osgi.identity"; attr_value := Some "C" |} ] |} ];
      [ {| cap_namespace := Some "osgi.identity";
           cap_attributes := [ {| attr_name := Some "osgi.identity"; attr_value := Some "D" |};
                               {| attr_name := Some "version"; attr_value := Some "2.0" |};
                               {| attr_name := Some "version"; attr_value := None |} ] |} ];
      bare_resource "E" "3.0" ]
  = [ {| identity := "B"; version := "1.0"; url := Some "x/B-1.0.jar"; type := None |};
      {| identity := "E"; version := "3.0"; url := None; type := None |} ].
Proof. reflexivity. Qed.

Lemma fold_identity_foreign (c : Capability) (b : BundleInfo) :
  cap_namespace c <> Some "osgi.identity" ->
  cap_namespace c <> Some "osgi.content" ->
  read_capability b c = b.
Proof.
  unfold read_capability. destruct (cap_namespace c) as [ns|]; [|reflexivity].
  intros Hid Hcontent.
  destruct (String.eqb ns "osgi.identity") eqn:H1.
  - apply String.eqb_eq in H1. congruence.
  - destruct (String.eqb ns "osgi.content") eqn:H2; [|reflexivity].
    apply String.eqb_eq in H2. congruence.
Qed.

(** X14.  A capability whose namespace is neither [osgi.identity] nor
    [osgi.content] has no effect on what is read from a resource,
    wherever it stands among the capabilities and whatever attributes
    it carries. *)
Theorem parse_index_xml_ignores_other_capabilities (pre post : list Capability)
    (c : Capability) (resources : list Resource) :
  cap_namespace c <> Some "osgi.identity" ->
  cap_namespace c <> Some "osgi.content" ->
  parse_index_xml ((pre ++ c :: post) :: resources) = parse_index_xml ((pre ++ post) :: resources).
Proof.
  intros Hid Hcontent. unfold parse_index_xml. cbn [flat_map]. f_equal.
  unfold read_resource. rewrite !fold_left_app. cbn [fold_left].
  now rewrite (fold_identity_foreign c _ Hid Hcontent).
Qed.

Lemma parse_index_xml_ignores_other_capabilities_witness :
  parse_index_xml
    [ [ {| cap_namespace := Some "osgi.identity";
           cap_attributes := [ {| attr_name := Some "osgi.identity"; attr_value := Some "X" |};
                               {| attr_name := Some "version"; attr_value := Some "1.0" |} ] |};
        {| cap_namespace := Some "osgi.wiring.package";
           cap_attributes := [ {| attr_name := Some "version"; attr_value := Some "9.9" |} ] |} ] ]
  = [ {| identity := "X"; version := "1.0"; url := None; type := None |} ].
Proof.
  refine (eq_trans
            (parse_index_xml_ignores_other_capabilities
               [ {| cap_namespace := Some "osgi.identity";
                    cap_attributes := [ {| attr_name := Some "osgi.identity";
                                           attr_value := Some "X" |};
                                        {| attr_name := Some "version";
                                           attr_value := Some "1.0" |} ] |} ]
               []
               {| cap_namespace := Some "osgi.wiring.package";
                  cap_attributes := [ {| attr_name := Some "version";
                                         attr_value := Some "9.9" |} ] |}
               [] _ _) _).
  - discriminate.
  - discriminate.
  - reflexivity.
Defined.

(** ** One entry for each identity, in ascending order *)

Lemma group_append_keys (b : Bundle) (d : list (string * list Bundle)) (k : string) :
  In k (map fst (group_append b d)) <-> k = identity b \/ In k (map fst d).
Proof.
  induction d as [|[k' vs] d IH]; cbn.
  - intuition congruence.
  - destruct (String.eqb k' (identity b)) eqn:Hk; cbn.
    + apply String.eqb_eq in Hk. subst k'. intuition congruence.
    + rewrite IH. intuition congruence.
Qed.

Lemma group_append_nodup (b : Bundle) (d : list (string * list Bundle)) :
  List.NoDup (map fst d) -> List.NoDup (map fst (group_append b d)).
Proof.
  induction d as [|[k' vs] d IH]; cbn; intros H.
  - constructor; [intros [] | constructor].
  - inversion H as [|? ? Hnotin Hd]; subst.
    destruct (String.eqb k' (identity b)) eqn:Hk; cbn.
    + constructor; assumption.
    + constructor; [|now apply IH].
      rewrite group_append_keys. intros [->|Hin]; [|contradiction].
      now rewrite String.eqb_refl in Hk.
Qed.

Lemma group_fold_keys (bundles : list Bundle) (d : list (string * list Bundle)) :
  List.NoDup (map fst d) ->
  List.NoDup (map fst (fold_left (fun d b => group_append b d) bundles d))
  /\ forall k, In k (map fst (fold_left (fun d b => group_append b d) bundles d))
               <-> In k (map fst d) \/ exists b, In b bundles /\ identity b = k.
Proof.
  revert d. induction bundles as [|b rest IH]; intros d Hd; cbn.
  - split; [exact Hd|]. intros k. split; [auto|]. intros [H|(b & [] & _)]. exact H.
  - destruct (IH (group_append b d) (group_append_nodup b d Hd)) as [Hnodup Hkeys].
    split; [exact Hnodup|].
    intros k. rewrite Hkeys, group_append_keys. split.
    + intros [[->|H]|(b' & Hb' & Hid)]; eauto.
    + intros [H|(b' & [<-|Hb'] & Hid)]; eauto.
Qed.

Lemma latest_of_keys (groups : list (string * list Bundle)) (latest : list (string * Bundle)) :
  latest_of groups = Ok latest -> map fst latest = map fst groups.
Proof.
  revert latest. induction groups as [|[k vs] rest IH]; intros latest; cbn.
  - intros H. now injection H as <-.
  - destruct (highest_version vs) as [b|e]; cbn; [|discriminate].
    destruct (latest_of rest) as [r|e]; cbn; [|discriminate].
    intros H. injection H as <-. cbn. f_equal. now apply IH.
Qed.

Lemma assoc_in_nodup {A} (d : list (string * A)) (k : string) (x : A) :
  List.NoDup (map fst d) -> In (k, x) d -> assoc k d = Some x.
Proof.
  induction d as [|[k' y] d IH]; cbn; [intros _ []|].
  intros Hnodup [H|H]; inversion Hnodup as [|? ? Hnotin Hd]; subst.
  - injection H as -> ->. now rewrite String.eqb_refl.
  - destruct (String.eqb k k') eqn:Hk; [|now apply IH].
    apply String.eqb_eq in Hk. subst k'. exfalso. apply Hnotin.
    apply in_map_iff. now exists (k, x).
Qed.

(** X15.  Whatever the index holds, [latest_bundles] is built without an
    exception; it has exactly one entry for every identity of the index
    and none for any other name; and the entry of an identity is an
    entry of the index with that identity whose version string is below
    the version string of no other entry of that identity. *)
Theorem latest_bundles_one_entry_per_identity (bundles : list Bundle) :
  exists latest,
    latest_bundles bundles = Ok latest
    /\ List.NoDup (map fst latest)
    /\ (forall k, In k (map fst latest) <-> exists b, In b bundles /\ identity b = k)
    /\ (forall k b,
           In (k, b) latest ->
           In b bundles /\ identity b = k
           /\ forall b', In b' bundles -> identity b' = k ->
                         str_lt (version b) (version b') = false).
Proof.
  destruct (latest_bundles_greatest_string bundles) as (latest & Hlatest & Htop).
  exists latest. split; [exact Hlatest|].
  unfold latest_bundles in Hlatest. apply latest_of_keys in Hlatest.
  destruct (group_fold_keys bundles [] (List.NoDup_nil _)) as [Hnodup Hkeys].
  fold (group_by_identity bundles) in Hnodup, Hkeys.
  rewrite <- Hlatest in Hnodup, Hkeys.
  split; [exact Hnodup|]. split.
  - intros k. rewrite Hkeys. cbn. tauto.
  - intros k b Hin. apply Htop. now apply assoc_in_nodup.
Qed.

Lemma latest_bundles_one_entry_per_identity_witness :
  In (sample_bundle "X" "1.9.0") (parse_index_xml two_versions_index)
  /\ identity (sample_bundle "X" "1.9.0") = "X"
  /\ str_lt (version (sample_bundle "X" "1.9.0")) (version (sample_bundle "X" "1.10.0")) = false.
Proof.
  destruct (latest_bundles_one_entry_per_identity (parse_index_xml two_versions_index))
    as (latest & Hlatest & _ & _ & Htop).
  vm_compute in Hlatest. injection Hlatest as <-.
  destruct (Htop "X" (sample_bundle "X" "1.9.0") ltac:(now left)) as (Hin & Hid & Hmax).
  split; [exact Hin|]. split; [exact Hid|].
  apply Hmax; [cbn; auto | reflexivity].
Defined.

Lemma insert_asc_perm {A} (x : string * A) (l : list (string * A)) :
  Permutation (x :: l) (insert_asc x l).
Proof.
  induction l as [|y r IH]; cbn; [reflexivity|].
  destruct (str_lt (fst y) (fst x)); [|reflexivity].
  rewrite perm_swap. now constructor.
Qed.

Lemma insert_asc_sorted {A} (x : string * A) (l : list (string * A)) :
  StronglySorted key_le l -> StronglySorted key_le (insert_asc x l).
Proof.
  induction l as [|y r IH]; cbn; intros Hs.
  - constructor; constructor.
  - inversion Hs as [|? ? Hr Hy]; subst.
    destruct (str_lt (fst y) (fst x)) eqn:Hyx.
    + constructor; [now apply IH|].
      apply (Permutation_Forall (insert_asc_perm x r)).
      constructor; [|exact Hy]. unfold key_le. now apply str_lt_asym.
    + constructor; [exact Hs|].
      constructor; [exact Hyx|].
      rewrite List.Forall_forall in Hy |- *. intros z Hz. unfold key_le.
      apply (str_lt_below_top _ (fst y)); [apply (Hy z Hz) | exact Hyx].
Qed.

(** X16.  The loop of [main] goes over [sorted(latest_bundles.items())]:
    the sorted list holds the same items as the dictionary, each as
    often, and in it no item stands before an item with a smaller key;
    when the keys differ from one another, as those of a dictionary do,
    every key is strictly below the keys after it. *)
Theorem sorted_items_ascending {A} (l : list (string * A)) :
  Permutation l (sorted_items l)
  /\ StronglySorted key_le (sorted_items l)
  /\ (List.NoDup (map fst l) ->
      StronglySorted (fun x y => str_lt (fst x) (fst y) = true) (sorted_items l)).
Proof.
  assert (Hperm : Permutation l (sorted_items l)).
  { induction l as [|x r IH]; cbn; [reflexivity|].
    rewrite <- insert_asc_perm. now constructor. }
  assert (Hsorted : StronglySorted key_le (sorted_items l)).
  { clear Hperm. induction l as [|x r IH]; cbn; [constructor|].
    apply insert_asc_sorted, IH. }
  split; [exact Hperm|]. split; [exact Hsorted|].
  intros Hnodup.
  assert (Hnodup' : List.NoDup (map fst (sorted_items l))).
  { eapply Permutation_NoDup; [|exact Hnodup]. now apply Permutation_map. }
  clear Hperm Hnodup. induction Hsorted as [|x r Hr IH Hx]; [constructor|].
  cbn in Hnodup'. inversion Hnodup' as [|? ? Hnotin Hrest]; subst.
  constructor; [now apply IH|].
  rewrite List.Forall_forall in Hx |- *. intros y Hy.
  destruct (str_lt (fst x) (fst y)) eqn:Hxy; [reflexivity|].
  exfalso. apply Hnotin.
  rewrite (str_lt_total _ _ Hxy (Hx y Hy)). now apply in_map.
Qed.

Lemma sorted_items_ascending_witness :
  StronglySorted (fun x y : string * nat => str_lt (fst x) (fst y) = true)
    (sorted_items [("org.b", 2%nat); ("org.a", 1%nat); ("org.c", 3%nat)])
  /\ sorted_items [("org.b", 2%nat); ("org.a", 1%nat); ("org.c", 3%nat)]
     = [("org.a", 1%nat); ("org.b", 2%nat); ("org.c", 3%nat)].
Proof.
  split; [|reflexivity].
  apply (proj2 (proj2 (sorted_items_ascending
                         [("org.b", 2%nat); ("org.a", 1%nat); ("org.c", 3%nat)]))).
  repeat constructor; cbn; intuition discriminate.
Defined.

(** ** The comparator on versions made of numbers *)

Lemma is_digit_plain (c : ascii) :
  is_digit c = true ->
  is_delim c = false /\ is_space c = false /\ is_dash c = false
  /\ Ascii.eqb c "+" = false.
Proof.
  destruct c as [[] [] [] [] [] [] [] []]; cbn; intros H; try discriminate H;
    repeat split; reflexivity.
Qed.

Lemma all_digits_plain (s : string) :
  all_digits s = true -> has_delim s = false /\ has_space s = false /\ has_dash s = false.
Proof.
  induction s as [|c r IH]; cbn; [now repeat split|].
  intros H. apply andb_prop in H as [Hc Hr].
  destruct (is_digit_plain c Hc) as (Hd & Hs & Hh & _), (IH Hr) as (Hd' & Hs' & Hh').
  now rewrite Hd, Hs, Hh, Hd', Hs', Hh'.
Qed.

Lemma is_int_space_space (c : ascii) : is_space c = false -> is_int_space c = false.
Proof.
  destruct c as [[] [] [] [] [] [] [] []]; cbn; intros H; try discriminate H; reflexivity.
Qed.

Lemma int_lstrip_plain (s : string) : has_space s = false -> int_lstrip s = s.
Proof.
  destruct s as [|c r]; cbn; [reflexivity|].
  intros H. apply orb_false_elim in H as [Hc _]. now rewrite (is_int_space_space c Hc).
Qed.

Lemma int_rstrip_plain (s : string) : has_space s = false -> int_rstrip s = s.
Proof.
  induction s as [|c r IH]; cbn; [reflexivity|].
  intros H. apply orb_false_elim in H as [Hc Hr].
  rewrite (IH Hr), (is_int_space_space c Hc). now destruct r.
Qed.

Lemma int_digits_number (r : string) (acc : Z) (n : nat) :
  all_digits r = true ->
  int_digits r acc n false
  = Some (fold_left (fun a c => 10 * a + digit_val c) (list_ascii_of_string r) acc,
          (n + String.length r)%nat).
Proof.
  revert acc n. induction r as [|c r IH]; cbn; intros acc n H.
  - now rewrite Nat.add_0_r.
  - apply andb_prop in H as [Hc Hr]. rewrite Hc, (IH _ _ Hr).
    now rewrite Nat.add_succ_r.
Qed.

Lemma py_int_number (p : string) : is_number p = true -> py_int p = Ok (number p).
Proof.
  unfold is_number, isdigit. intros H. apply andb_prop in H as [Hd Hlen].
  destruct p as [|c r]; [discriminate Hd|].
  destruct (all_digits_plain _ Hd) as (_ & Hs & _).
  unfold py_int, int_strip. rewrite (int_lstrip_plain _ Hs), (int_rstrip_plain _ Hs).
  cbn in Hd. apply andb_prop in Hd as [Hc Hr].
  assert (Hbody : (let '(neg, body) :=
                     match String c r with
                     | String "+" r0 => (false, r0)
                     | String "-" r0 => (true, r0)
                     | _ => (false, String c r)
                     end in (neg, body)) = (false, String c r)).
  { clear - Hc. destruct c as [[] [] [] [] [] [] [] []]; try discriminate Hc; reflexivity. }
  revert Hbody.
  destruct (match String c r with
            | String "+" r0 => (false, r0)
            | String "-" r0 => (true, r0)
            | _ => (false, String c r)
            end) as [neg body].
  intros Hbody. injection Hbody as -> ->.
  unfold int_literal. rewrite Hc, (int_digits_number _ _ _ Hr).
  apply Nat.leb_le in Hlen. cbn [String.length] in Hlen.
  replace (int_max_str_digits <? 1 + String.length r)%nat with false
    by (symmetry; apply Nat.ltb_ge; exact Hlen).
  unfold number. cbn [list_ascii_of_string fold_left].
  now rewrite Z.mul_0_r, Z.add_0_l.
Qed.

Lemma coerce_numbers (ps : list string) :
  forallb is_number ps = true -> coerce_all ps = Ok (map (fun p => TInt (number p)) ps).
Proof.
  induction ps as [|p ps IH]; cbn [forallb coerce_all map]; [reflexivity|].
  intros H. apply andb_prop in H as [Hp Hps].
  unfold coerce. rewrite (py_int_number _ Hp). cbn. now rewrite (IH Hps).
Qed.

Lemma re_sub_qualifier_plain (s : string) : has_dash s = false -> re_sub_qualifier s = s.
Proof.
  induction s as [|c r IH]; [reflexivity|].
  cbn [has_dash]. intros H. apply orb_false_elim in H as [Hc Hr].
  cbn [re_sub_qualifier]. unfold qualifier_at.
  unfold is_dash in Hc. rewrite Hc.
  fold re_sub_qualifier. now rewrite (IH Hr).
Qed.

Lemma re_split_part (p rest : string) :
  has_delim p = false ->
  re_split p = [p] /\ re_split (p ++ String "." rest) = p :: re_split rest.
Proof.
  induction p as [|c r IH]; [now split|].
  cbn [has_delim]. intros H. apply orb_false_elim in H as [Hc Hr].
  destruct (IH Hr) as [H1 H2].
  change (String c r ++ String "." rest)%string with (String c (r ++ String "." rest)).
  cbn [re_split]. now rewrite Hc, H1, H2.
Qed.

Lemma has_dash_delim (s : string) : has_delim s = false -> has_dash s = false.
Proof.
  induction s as [|c r IH]; cbn; [reflexivity|].
  intros H. apply orb_false_elim in H as [Hc Hr]. rewrite (IH Hr), orb_false_r.
  unfold is_delim in Hc. unfold is_dash.
  destruct (Ascii.eqb c "."), (Ascii.eqb c "_"), (Ascii.eqb c "-"); cbn in *; congruence.
Qed.

Lemma has_dash_app (a b : string) : has_dash (a ++ b) = has_dash a || has_dash b.
Proof.
  induction a as [|c r IH]; simpl; [reflexivity|]. now rewrite IH, orb_assoc.
Qed.

Lemma dotted_numbers (ps : list string) :
  ps <> [] -> forallb is_number ps = true ->
  has_dash (dotted ps) = false /\ re_split (dotted ps) = ps.
Proof.
  induction ps as [|p ps IH]; [congruence|].
  intros _ H. cbn [forallb] in H. apply andb_prop in H as [Hp Hps].
  assert (Hd : has_delim p = false).
  { unfold is_number, isdigit in Hp. apply andb_prop in Hp as [Hp _].
    destruct p; [discriminate|]. now apply all_digits_plain. }
  destruct ps as [|q ps].
  - cbn. split; [now apply has_dash_delim | now apply re_split_part].
  - destruct (IH ltac:(discriminate) Hps) as [Hh Hs].
    change (dotted (p :: q :: ps)) with (p ++ "." ++ dotted (q :: ps))%string.
    split.
    + rewrite has_dash_app, (has_dash_delim _ Hd).
      change (has_dash ("." ++ dotted (q :: ps)))
        with (is_dash "." || has_dash (dotted (q :: ps))).
      now rewrite Hh.
    + destruct (re_split_part p (dotted (q :: ps)) Hd) as [_ H].
      etransitivity; [exact H | now rewrite Hs].
Qed.

Lemma compare_normalized_numbers (xs ys : list Z) :
  compare_normalized (map TInt xs) (map TInt ys) = compare_numbers xs ys.
Proof.
  revert ys. induction xs as [|x xs IH]; intros [|y ys]; try reflexivity.
  cbn [compare_numbers]. rewrite <- (IH ys).
  unfold compare_normalized. cbn [map compare_zip].
  rewrite Z.gtb_ltb. unfold Z.ltb. rewrite (Z.compare_antisym x y).
  destruct (x ?= y); reflexivity.
Qed.

(** X17.  On two versions that are numbers joined by dots the comparator
    answers as the order of number lists does: the parts are read as
    numbers, the first place where the versions differ decides, and a
    version is below every longer one that starts with it. *)
Theorem compare_versions_dotted_numbers (ps qs : list string) :
  ps <> [] -> qs <> [] ->
  forallb is_number ps = true -> forallb is_number qs = true ->
  compare_versions (dotted ps) (dotted qs)
  = Ok (compare_numbers (map number ps) (map number qs)).
Proof.
  intros Hp Hq Hps Hqs.
  destruct (dotted_numbers ps Hp Hps) as [Hh1 Hs1], (dotted_numbers qs Hq Hqs) as [Hh2 Hs2].
  unfold compare_versions, normalize.
  rewrite (re_sub_qualifier_plain _ Hh1), (re_sub_qualifier_plain _ Hh2), Hs1, Hs2.
  rewrite (coerce_numbers _ Hps), (coerce_numbers _ Hqs).
  rewrite <- compare_normalized_numbers, !map_map. reflexivity.
Qed.

Lemma compare_versions_dotted_numbers_witness :
  compare_versions "1.10.0" "1.9" = Ok 1
  /\ compare_versions "1.9" "1.10.0" = Ok (-1)
  /\ compare_versions "1.09" "1.9" = Ok 0.
Proof.
  split; [|split].
  - apply (compare_versions_dotted_numbers ["1"; "10"; "0"] ["1"; "9"]);
      [discriminate | discriminate | reflexivity | reflexivity].
  - apply (compare_versions_dotted_numbers ["1"; "9"] ["1"; "10"; "0"]);
      [discriminate | discriminate | reflexivity | reflexivity].
  - apply (compare_versions_dotted_numbers ["1"; "09"] ["1"; "9"]);
      [discriminate | discriminate | reflexivity | reflexivity].
Defined.

(** ** The qualifier at the end of a version *)

Lemma re_sub_qualifier_eq (v : string) :
  re_sub_qualifier v
  = match qualifier_at v with
    | Some rest => rest
    | None =>
        match v with
        | EmptyString => EmptyString
        | String c r => String c (re_sub_qualifier r)
        end
    end.
Proof. destruct v; reflexivity. Qed.

Lemma lower_app (a b : string) : lower (a ++ b) = (lower a ++ lower b)%string.
Proof. induction a as [|c r IH]; simpl; [reflexivity|]. now rewrite IH. Qed.

Lemma lower_char_dash (c : ascii) : is_dash c = true -> is_dash (lower_char c) = true.
Proof.
  destruct c as [[] [] [] [] [] [] [] []]; cbn; intros H; try discriminate H; reflexivity.
Qed.

Lemma has_dash_lower (x w : string) (c : ascii) :
  is_dash c = true -> has_dash (lower (x ++ String c w)) = true.
Proof.
  intros Hc. rewrite lower_app, has_dash_app. cbn [lower has_dash].
  rewrite (lower_char_dash c Hc). cbn. apply orb_true_r.
Qed.

Lemma eqb_plain_word (s word : string) :
  has_dash s = true -> has_dash word = false -> String.eqb s word = false.
Proof.
  intros Hs Hw. destruct (String.eqb s word) eqn:H; [|reflexivity].
  apply String.eqb_eq in H. congruence.
Qed.

Lemma qualifier_at_inside (d c : ascii) (x w : string) :
  is_dash c = true -> qualifier_at (String d (x ++ String c w)) = None.
Proof.
  intros Hc. unfold qualifier_at.
  destruct (Ascii.eqb d "-" || Ascii.eqb d "_"); [|reflexivity].
  cbv zeta.
  rewrite !(eqb_plain_word (lower (x ++ String c w)) _ (has_dash_lower x w c Hc))
    by reflexivity.
  reflexivity.
Qed.

Lemma re_sub_qualifier_strips (v w : string) (c : ascii) :
  is_dash c = true -> is_qualifier w = true -> re_sub_qualifier (v ++ String c w) = v.
Proof.
  intros Hc Hw. induction v as [|d v IH].
  - change (EmptyString ++ String c w)%string with (String c w).
    rewrite re_sub_qualifier_eq. unfold qualifier_at.
    unfold is_dash in Hc. rewrite Hc. cbv zeta.
    unfold is_qualifier in Hw. cbv zeta in Hw. now rewrite Hw.
  - change (String d v ++ String c w)%string with (String d (v ++ String c w)).
    rewrite re_sub_qualifier_eq, (qualifier_at_inside d c v w Hc). now rewrite IH.
Qed.

(** X18.  A version and the same version followed by [-] or [_] and one
    of the words RELEASE, FINAL, GA, in any letter case, compare alike
    with every other version, and equal to one another, as long as the
    version does not itself end in such a word. *)
Theorem compare_versions_ignores_qualifier (v u w : string) (c : ascii) :
  is_dash c = true -> is_qualifier w = true -> re_sub_qualifier v = v ->
  compare_versions (v ++ String c w) u = compare_versions v u
  /\ compare_versions u (v ++ String c w) = compare_versions u v
  /\ compare_versions (v ++ String c w) v = Ok 0.
Proof.
  intros Hc Hw Hv.
  assert (Hn : normalize (v ++ String c w) = normalize v).
  { unfold normalize. now rewrite (re_sub_qualifier_strips v w c Hc Hw), Hv. }
  unfold compare_versions at 1 3 5. rewrite Hn.
  split; [reflexivity|]. split; [reflexivity|].
  apply compare_versions_same.
Qed.

Lemma compare_versions_ignores_qualifier_witness :
  compare_versions "2.0.0_Final" "2.0.1" = compare_versions "2.0.0" "2.0.1"
  /\ compare_versions "2.0.1" "2.0.0_Final" = compare_versions "2.0.1" "2.0.0"
  /\ compare_versions "2.0.0_Final" "2.0.0" = Ok 0.
Proof.
  exact (compare_versions_ignores_qualifier "2.0.0" "2.0.1" "Final" "_"
           eq_refl eq_refl eq_refl).
Defined.

(** ** The versions the bundle hub lists *)

Lemma string_app_assoc (a b c : string) : ((a ++ b) ++ c = a ++ b ++ c)%string.
Proof.
  induction a as [|x a IH]; [reflexivity|].
  change (String x ((a ++ b) ++ c) = String x (a ++ b ++ c))%string. now rewrite IH.
Qed.

Lemma string_length_app (a b : string) :
  String.length (a ++ b) = (String.length a + String.length b)%nat.
Proof.
  induction a as [|x a IH]; [reflexivity|].
  change (S (String.length (a ++ b)) = S (String.length a + String.length b)).
  now rewrite IH.
Qed.

Lemma substring_skip (a s : string) (n : nat) :
  substring (String.length a) n (a ++ s) = substring 0 n s.
Proof. induction a as [|x a IH]; [reflexivity | exact IH]. Qed.

Lemma substring_prefix (b c : string) : substring 0 (String.length b) (b ++ c) = b.
Proof.
  induction b as [|x b IH]; [now destruct c|].
  change (String x (substring 0 (String.length b) (b ++ c)) = String x b).
  now rewrite IH.
Qed.

(** [name[len(bundle_name) + 1:-4]] on [bundle_name-version.jar] *)
Lemma slice_to_minus4_name (b v : string) :
  slice_to_minus4 (b ++ "-" ++ v ++ ".jar") (String.length b + 1) = v.
Proof.
  unfold slice_to_minus4.
  change (b ++ "-" ++ v ++ ".jar")%string with (b ++ ("-" ++ (v ++ ".jar")))%string.
  rewrite <- (string_app_assoc b "-" (v ++ ".jar")).
  assert (Hb : String.length (b ++ "-") = (String.length b + 1)%nat)
    by now rewrite string_length_app.
  rewrite (string_length_app (b ++ "-") (v ++ ".jar")), Hb, (string_length_app v ".jar").
  change (String.length ".jar") with 4%nat.
  replace (Nat.min (String.length b + 1) (String.length b + 1 + (String.length v + 4)))
    with (String.length b + 1)%nat by lia.
  replace (String.length b + 1 + (String.length v + 4) - 4 - (String.length b + 1))%nat
    with (String.length v) by lia.
  rewrite <- Hb, substring_skip. apply substring_prefix.
Qed.

Lemma endswith_self (p : string) : endswith p p = true.
Proof. destruct p; simpl; [reflexivity|]. now rewrite Ascii.eqb_refl, String.eqb_refl. Qed.

Lemma endswith_spec (p s : string) :
  endswith p s = true <-> exists pre, s = (pre ++ p)%string.
Proof.
  split.
  - induction s as [|c r IH]; simpl.
    + rewrite orb_false_r. intros H. apply String.eqb_eq in H. now exists EmptyString.
    + intros H. apply orb_prop in H as [H|H].
      * apply String.eqb_eq in H. now exists EmptyString.
      * destruct (IH H) as [pre ->]. now exists (String c pre).
  - intros [pre ->]. induction pre as [|c pre IH].
    + apply endswith_self.
    + change (String c pre ++ p)%string with (String c (pre ++ p)).
      simpl. rewrite IH. apply orb_true_r.
Qed.

Lemma endswith_past_dash (b rest : string) :
  endswith ".jar" (b ++ String "-" rest) = true -> endswith ".jar" rest = true.
Proof.
  induction b as [|c b IH].
  - change (EmptyString ++ String "-" rest)%string with (String "-" rest).
    simpl. intros H. exact H.
  - change (String c b ++ String "-" rest)%string with (String c (b ++ String "-" rest)).
    intros H. apply IH. clear IH.
    change (String.eqb ".jar" (String c (b ++ String "-" rest))
            || endswith ".jar" (b ++ String "-" rest) = true) in H.
    apply orb_prop in H as [H|H]; [|exact H].
    apply String.eqb_eq in H.
    assert (Hd : has_dash (String c (b ++ String "-" rest)) = true).
    { cbn [has_dash]. rewrite has_dash_app. cbn [has_dash].
      change (is_dash "-") with true. cbn. now rewrite !orb_true_r. }
    rewrite <- H in Hd. discriminate Hd.
Qed.

Lemma hub_name_shape (b n : string) :
  startswith (b ++ "-") n = true -> endswith ".jar" n = true ->
  exists v, n = (b ++ "-" ++ v ++ ".jar")%string.
Proof.
  intros Hs He. apply startswith_spec in Hs as [rest ->].
  rewrite string_app_assoc in He.
  apply endswith_past_dash in He. apply endswith_spec in He as [v ->].
  exists v. now rewrite string_app_assoc.
Qed.

Ltac other_char c H :=
  destruct c as [[] [] [] [] [] [] [] []]; try (cbn in H; discriminate H).

Lemma hub_item_version_some (b v : string) (item : pyval) :
  hub_item_version b item = Ok (Some v) ->
  getitem item "type" = Ok (PStr "file")
  /\ getitem item "name" = Ok (PStr (b ++ "-" ++ v ++ ".jar")).
Proof.
  unfold hub_item_version, bindr.
  destruct (getitem item "type") as [ty|e]; [|discriminate].
  destruct ty as [| | |s| |]; try discriminate.
  intros H.
  destruct s as [|c1 s]; [discriminate H|]. other_char c1 H.
  destruct s as [|c2 s]; [discriminate H|]. other_char c2 H.
  destruct s as [|c3 s]; [discriminate H|]. other_char c3 H.
  destruct s as [|c4 s]; [discriminate H|]. other_char c4 H.
  destruct s as [|c5 s]; [|discriminate H].
  split; [reflexivity|].
  cbn in H.
  destruct (getitem item "name") as [name|e]; [|discriminate H].
  destruct name as [| | |n| |]; try discriminate H.
  destruct (endswith ".jar" n) eqn:He; [|discriminate H].
  destruct (startswith (b ++ "-") n) eqn:Hs; [|discriminate H].
  destruct (hub_name_shape b n Hs He) as [v' ->].
  cbn in H. rewrite slice_to_minus4_name in H. now injection H as ->.
Qed.

Lemma hub_versions_listed (b v : string) (items : list pyval) (vs : list string) :
  hub_versions b items = Ok vs -> In v vs ->
  exists item, In item items /\ hub_item_version b item = Ok (Some v).
Proof.
  revert vs. induction items as [|item rest IH]; intros vs; cbn [hub_versions].
  - intros H. injection H as <-. intros [].
  - unfold bindr.
    destruct (hub_item_version b item) as [found|e] eqn:Hitem; [|discriminate].
    destruct (hub_versions b rest) as [vs'|e]; [|discriminate].
    intros H. injection H as <-. intros Hin.
    destruct found as [x|].
    + destruct Hin as [<-|Hin].
      * exists item. split; [now left | exact Hitem].
      * destruct (IH vs' eq_refl Hin) as (item' & Hin' & H'). exists item'. split; [now right | exact H'].
    + destruct (IH vs' eq_refl Hin) as (item' & Hin' & H'). exists item'. split; [now right | exact H'].
Qed.

Lemma keyed_values {K A} (key : A -> result K) (l : list A) (kl : list (K * A)) :
  keyed key l = Ok kl -> map snd kl = l.
Proof.
  revert kl. induction l as [|x r IH]; intros kl; cbn.
  - intros H. now injection H as <-.
  - destruct (key x) as [k|e]; [|discriminate].
    destruct (keyed key r) as [r'|e]; [|discriminate].
    intros H. injection H as <-. cbn. now rewrite (IH r' eq_refl).
Qed.

Lemma insert_desc_In {K A} (lt : K -> K -> result bool) (x : K * A) (l l' : list (K * A)) :
  insert_desc lt x l = Ok l' -> forall z, In z l' -> z = x \/ In z l.
Proof.
  revert l'. induction l as [|y r IH]; intros l'; cbn.
  - intros H. injection H as <-. intros z [<-|[]]. now left.
  - destruct (lt (fst x) (fst y)) as [[]|e]; [| |discriminate].
    + destruct (insert_desc lt x r) as [r'|e]; [|discriminate].
      intros H. injection H as <-. intros z [<-|Hz].
      * right. now left.
      * destruct (IH r' eq_refl z Hz) as [->|Hin]; [now left | right; now right].
    + intros H. injection H as <-. intros z [<-|Hz]; [now left | now right].
Qed.

Lemma sort_keyed_desc_In {K A} (lt : K -> K -> result bool) (l l' : list (K * A)) :
  sort_keyed_desc lt l = Ok l' -> forall z, In z l' -> In z l.
Proof.
  revert l'. induction l as [|x r IH]; intros l'; cbn.
  - intros H. now injection H as <-.
  - destruct (sort_keyed_desc lt r) as [r'|e]; [|discriminate].
    intros H z Hz.
    destruct (insert_desc_In lt x r' l' H z Hz) as [->|Hin]; [now left|].
    right. now apply (IH r' eq_refl).
Qed.

Lemma sort_reverse_In {K A} (key : A -> result K) (lt : K -> K -> result bool)
    (l sorted : list A) :
  sort_reverse key lt l = Ok sorted -> forall z, In z sorted -> In z l.
Proof.
  unfold sort_reverse.
  destruct (keyed key l) as [kl|e] eqn:Hk; [|discriminate].
  destruct (sort_keyed_desc lt kl) as [s|e] eqn:Hs; [|discriminate].
  intros H. injection H as <-. intros z Hz.
  apply in_map_iff in Hz as [[k z'] [Hz Hin]]. cbn in Hz. subst z'.
  rewrite <- (keyed_values key l kl Hk).
  apply in_map_iff. exists (k, z). split; [reflexivity|].
  now apply (sort_keyed_desc_In lt kl s Hs).
Qed.

Lemma read_hub_listing_listed (b v : string) (data : pyval) :
  read_hub_listing b data = Ok (Some v) ->
  exists items item,
    iter data = Ok items /\ In item items /\ hub_item_version b item = Ok (Some v).
Proof.
  unfold read_hub_listing, bindr.
  destruct (iter data) as [items|e]; [|discriminate].
  destruct (hub_versions b items) as [versions|e] eqn:Hv; [|discriminate].
  destruct versions as [|x versions]; [discriminate|].
  destruct (sort_reverse hub_key list_lt (x :: versions)) as [sorted|e] eqn:Hs; [|discriminate].
  intros H. injection H as H.
  destruct sorted as [|top sorted]; [discriminate H|]. cbn in H. injection H as ->.
  assert (Hin : In v (x :: versions))
    by (apply (sort_reverse_In _ _ _ _ Hs); now left).
  destruct (hub_versions_listed b v items _ Hv Hin) as (item & Hitem & Hver).
  now exists items, item.
Qed.

(** X19.  A version [get_latest_version_from_bnd_hub] returns is the
    version of a listed file: the hub answered the listing request, and
    the listing has an entry of type [file] named
    [<bundle>-<version>.jar], the very name [download_from_bnd_hub]
    asks for. *)
Theorem get_latest_version_from_bnd_hub_is_listed (E : Env) (b v : string) (st : State) :
  fst (get_latest_version_from_bnd_hub E b st) = Ok (Some v) ->
  exists body data items item,
    urlopen E (bnd_hub_api_url b) = Ok (Ok body)
    /\ json_loads E body = Ok data
    /\ iter data = Ok items
    /\ In item items
    /\ getitem item "type" = Ok (PStr "file")
    /\ getitem item "name" = Ok (PStr (jar_name b v)).
Proof.
  unfold get_latest_version_from_bnd_hub. run.
  destruct (urlopen E (bnd_hub_api_url b)) as [[body|e]|e]; cbn.
  2,3: destruct (caught_by_hub e); cbn; discriminate.
  destruct (json_loads E body) as [data|e] eqn:Hjson; cbn.
  2: destruct (caught_by_hub e); cbn; discriminate.
  destruct (read_hub_listing b data) as [found|e] eqn:Hread; cbn.
  2: destruct (caught_by_hub e); cbn; discriminate.
  intros H. injection H as ->.
  destruct (read_hub_listing_listed b v data Hread) as (items & item & Hiter & Hin & Hver).
  destruct (hub_item_version_some b v item Hver) as [Hty Hname].
  exists body, data, items, item. unfold jar_name. repeat split; assumption.
Qed.

Lemma get_latest_version_from_bnd_hub_is_listed_witness :
  exists body data items item,
    urlopen (hub_listing_env ["x-1.2.0.jar"; "x-1.10.0.jar"]) (bnd_hub_api_url "x")
    = Ok (Ok body)
    /\ json_loads (hub_listing_env ["x-1.2.0.jar"; "x-1.10.0.jar"]) body = Ok data
    /\ iter data = Ok items
    /\ In item items
    /\ getitem item "type" = Ok (PStr "file")
    /\ getitem item "name" = Ok (PStr (jar_name "x" "1.10.0")).
Proof.
  apply (get_latest_version_from_bnd_hub_is_listed
           (hub_listing_env ["x-1.2.0.jar"; "x-1.10.0.jar"]) "x" "1.10.0" empty_state).
  reflexivity.
Defined.

(** ** The latest of the numbered versions on the hub *)

Lemma hub_item_version_named (b v : string) (item : pyval) :
  getitem item "type" = Ok (PStr "file") ->
  getitem item "name" = Ok (PStr (jar_name b v)) ->
  hub_item_version b item = Ok (Some v).
Proof.
  intros Hty Hname. unfold hub_item_version. rewrite Hty. cbn [bindr].
  rewrite Hname. cbn [bindr].
  assert (He : endswith ".jar" (jar_name b v) = true).
  { apply endswith_spec. exists (b ++ "-" ++ v)%string. unfold jar_name.
    now rewrite !string_app_assoc. }
  assert (Hs : startswith (b ++ "-") (jar_name b v) = true).
  { apply startswith_spec. exists (v ++ ".jar")%string. unfold jar_name.
    now rewrite !string_app_assoc. }
  rewrite He, Hs. cbn [andb]. unfold jar_name. now rewrite slice_to_minus4_name.
Qed.

Lemma hub_versions_numbered (b : string) (items : list pyval) (pss : list (list string)) :
  Forall2 (numbered_jar b) items pss -> hub_versions b items = Ok (map dotted pss).
Proof.
  induction 1 as [|item ps items pss (_ & _ & Hty & Hname) _ IH]; [reflexivity|].
  cbn [hub_versions map]. rewrite (hub_item_version_named b _ item Hty Hname).
  cbn [bindr]. now rewrite IH.
Qed.

Lemma hub_token_number (p : string) : is_number p = true -> hub_token p = Ok (TInt (number p)).
Proof.
  intros H. unfold hub_token. rewrite (py_int_number p H).
  unfold is_number in H. apply andb_prop in H as [-> _]. reflexivity.
Qed.

Lemma hub_tokens_numbers (ps : list string) :
  forallb is_number ps = true -> hub_tokens ps = Ok (map TInt (map number ps)).
Proof.
  induction ps as [|p ps IH]; cbn [forallb hub_tokens map]; [reflexivity|].
  intros H. apply andb_prop in H as [Hp Hps].
  now rewrite (hub_token_number p Hp), (IH Hps).
Qed.

Lemma keyed_hub_key (pss : list (list string)) :
  List.Forall (fun ps => ps <> [] /\ forallb is_number ps = true) pss ->
  keyed hub_key (map dotted pss)
  = Ok (map number_key (map (fun ps => (map number ps, dotted ps)) pss)).
Proof.
  induction 1 as [|ps pss [Hne Hnum] _ IH]; [reflexivity|].
  cbn [map keyed]. unfold hub_key at 1.
  destruct (dotted_numbers ps Hne Hnum) as [_ ->].
  now rewrite (hub_tokens_numbers ps Hnum), IH.
Qed.

Lemma list_lt_numbers (xs ys : list Z) :
  list_lt (map TInt xs) (map TInt ys) = Ok (compare_numbers xs ys =? -1).
Proof.
  revert ys. induction xs as [|x xs IH]; intros [|y ys]; try reflexivity.
  cbn [map list_lt token_eqb token_lt compare_numbers].
  rewrite IH. destruct (Z.eqb_spec x y) as [->|Hxy].
  - now rewrite Z.compare_refl.
  - destruct (Z.compare_spec x y) as [H|H|H]; [congruence| |].
    + now rewrite (proj2 (Z.ltb_lt x y) H).
    + rewrite (proj2 (Z.ltb_ge x y)) by lia. reflexivity.
Qed.

Lemma compare_numbers_refl (xs : list Z) : compare_numbers xs xs = 0.
Proof.
  induction xs as [|x xs IH]; cbn; [reflexivity|]. now rewrite Z.compare_refl.
Qed.

Lemma compare_numbers_swap (xs ys : list Z) :
  compare_numbers ys xs = - compare_numbers xs ys.
Proof.
  revert ys. induction xs as [|x xs IH]; intros [|y ys]; try reflexivity.
  cbn. rewrite (Z.compare_antisym x y), IH.
  destruct (x ?= y); reflexivity.
Qed.

(** Not below is transitive. *)
Lemma compare_numbers_not_below (xs ys zs : list Z) :
  compare_numbers xs ys <> -1 -> compare_numbers ys zs <> -1 ->
  compare_numbers xs zs <> -1.
Proof.
  revert ys zs. induction xs as [|x xs IH]; intros [|y ys] [|z zs]; cbn;
    try congruence; try discriminate.
  destruct (Z.compare_spec x y), (Z.compare_spec y z), (Z.compare_spec x z);
    try congruence; try discriminate; try lia.
  apply IH.
Qed.

Lemma insert_desc_numbers_members {A} (x : list Z * A) (l : list (list Z * A)) :
  exists l',
    insert_desc list_lt (number_key x) (map number_key l) = Ok (map number_key l')
    /\ forall z, In z l' <-> z = x \/ In z l.
Proof.
  induction l as [|y r [r' [IH Hmem]]]; cbn [map insert_desc].
  - exists [x]. split; [reflexivity|]. cbn. intros z. split; intros [H|H]; auto.
  - unfold number_key at 1 2. cbn [fst]. rewrite list_lt_numbers.
    destruct (compare_numbers (fst x) (fst y) =? -1).
    + fold (number_key x). rewrite IH. exists (y :: r'). split; [reflexivity|].
      intros z. cbn. rewrite Hmem. tauto.
    + exists (x :: y :: r). split; [reflexivity|].
      intros z. cbn. split; intros H; intuition congruence.
Qed.

Lemma insert_desc_numbers {A} (x : list Z * A) (l : list (list Z * A)) :
  numbers_top_first l ->
  exists l',
    insert_desc list_lt (number_key x) (map number_key l) = Ok (map number_key l')
    /\ numbers_top_first l' /\ l' <> []
    /\ forall z, In z l' <-> z = x \/ In z l.
Proof.
  destruct l as [|y r]; cbn [map insert_desc]; intros Htop.
  - exists [x]. repeat split; try discriminate.
    + intros z [<-|[]]. rewrite compare_numbers_refl. discriminate.
    + intros [H|[]]; auto.
    + intros [H|[]]; cbn; auto.
  - unfold number_key at 1 2. cbn [fst]. rewrite list_lt_numbers.
    destruct (compare_numbers (fst x) (fst y) =? -1) eqn:Hxy.
    + destruct (insert_desc_numbers_members x r) as [r' [Hr' Hmem]].
      fold (number_key x). rewrite Hr'.
      exists (y :: r'). repeat split; try discriminate.
      * intros z [<-|Hz].
        -- rewrite compare_numbers_refl. discriminate.
        -- apply Hmem in Hz as [->|Hz].
           ++ apply Z.eqb_eq in Hxy. rewrite compare_numbers_swap, Hxy. discriminate.
           ++ apply Htop. now right.
      * cbn. rewrite Hmem. tauto.
      * cbn. rewrite Hmem. tauto.
    + apply Z.eqb_neq in Hxy.
      exists (x :: y :: r). repeat split; try discriminate.
      * intros z [<-|Hz].
        -- rewrite compare_numbers_refl. discriminate.
        -- apply (compare_numbers_not_below _ (fst y)); [exact Hxy | now apply Htop].
      * cbn. intuition congruence.
      * cbn. intuition congruence.
Qed.

Lemma sort_keyed_desc_numbers {A} (l : list (list Z * A)) :
  exists l',
    sort_keyed_desc list_lt (map number_key l) = Ok (map number_key l')
    /\ numbers_top_first l' /\ (l <> [] -> l' <> [])
    /\ forall z, In z l' <-> In z l.
Proof.
  induction l as [|x r (r' & IH & Htop & _ & Hmem)]; cbn [map sort_keyed_desc].
  - exists []. repeat split; auto.
  - rewrite IH.
    destruct (insert_desc_numbers x r' Htop) as (l' & Hl' & Htop' & Hne & Hmem').
    exists l'. repeat split; auto.
    + intros Hz. apply Hmem' in Hz. rewrite Hmem in Hz. cbn. intuition congruence.
    + intros Hz. apply Hmem'. rewrite Hmem. cbn in Hz. intuition congruence.
Qed.

Lemma numbered_jar_numbers (b : string) (items : list pyval) (pss : list (list string)) :
  Forall2 (numbered_jar b) items pss ->
  List.Forall (fun ps => ps <> [] /\ forallb is_number ps = true) pss.
Proof.
  induction 1 as [|item ps items pss (Hne & Hnum & _) _ IH]; constructor; auto.
Qed.

(** X20.  When the hub lists the jars of a bundle and every version is
    numbers joined by dots, [get_latest_version_from_bnd_hub] returns
    one of the listed versions, and none of the listed versions is above
    it in the order of number lists: 1.10.0 is later than 1.9.0. *)
Theorem get_latest_version_from_bnd_hub_numbered_latest (E : Env) (b body : string)
    (items : list pyval) (pss : list (list string)) (st : State) :
  urlopen E (bnd_hub_api_url b) = Ok (Ok body) ->
  json_loads E body = Ok (PList items) ->
  Forall2 (numbered_jar b) items pss ->
  pss <> [] ->
  exists ps,
    In ps pss
    /\ fst (get_latest_version_from_bnd_hub E b st) = Ok (Some (dotted ps))
    /\ forall qs, In qs pss -> compare_numbers (map number ps) (map number qs) <> -1.
Proof.
  intros Hurl Hjson Hitems Hne.
  unfold get_latest_version_from_bnd_hub. run. rewrite Hurl. cbn. rewrite Hjson. cbn.
  unfold read_hub_listing. cbn [iter bindr].
  rewrite (hub_versions_numbered b items pss Hitems). cbn [bindr].
  destruct pss as [|ps0 pss0] eqn:Hpss; [congruence|]. rewrite <- Hpss in *.
  unfold sort_reverse.
  rewrite (keyed_hub_key pss (numbered_jar_numbers b items pss Hitems)).
  destruct (sort_keyed_desc_numbers (map (fun ps => (map number ps, dotted ps)) pss))
    as (l' & Hsort & Htop & Hne' & Hmem).
  rewrite Hsort. cbn [bindr].
  destruct l' as [|[xs s] rest].
  { exfalso. apply Hne'; [|reflexivity]. rewrite Hpss. discriminate. }
  assert (Hin : In (xs, s) (map (fun ps => (map number ps, dotted ps)) pss))
    by (apply Hmem; now left).
  apply in_map_iff in Hin as (ps & Heq & Hin). injection Heq as <- <-.
  exists ps. split; [exact Hin|]. split; [rewrite Hpss; reflexivity|].
  intros qs Hqs.
  apply (Htop (map number qs, dotted qs)). apply Hmem.
  apply in_map_iff. now exists qs.
Qed.

Lemma get_latest_version_from_bnd_hub_numbered_latest_witness :
  exists ps,
    In ps [["1"; "9"; "0"]; ["1"; "10"; "0"]; ["1"; "2"]]
    /\ fst (get_latest_version_from_bnd_hub
              (hub_listing_env ["x-1.9.0.jar"; "x-1.10.0.jar"; "x-1.2.jar"]) "x" empty_state)
       = Ok (Some (dotted ps))
    /\ forall qs, In qs [["1"; "9"; "0"]; ["1"; "10"; "0"]; ["1"; "2"]] ->
                  compare_numbers (map number ps) (map number qs) <> -1.
Proof.
  apply (get_latest_version_from_bnd_hub_numbered_latest
           (hub_listing_env ["x-1.9.0.jar"; "x-1.10.0.jar"; "x-1.2.jar"]) "x" "listing"
           (map hub_file ["x-1.9.0.jar"; "x-1.10.0.jar"; "x-1.2.jar"])
           [["1"; "9"; "0"]; ["1"; "10"; "0"]; ["1"; "2"]] empty_state).
  - reflexivity.
  - reflexivity.
  - repeat (constructor; [repeat split; try discriminate; reflexivity|]). constructor.
  - discriminate.
Defined.

(** ** What the summary of a run counts *)

Lemma sorted_items_length {A} (l : list (string * A)) :
  length (sorted_items l) = length l.
Proof.
  induction l as [|x r IH]; cbn; [reflexivity|].
  rewrite <- (Permutation_length (insert_asc_perm x (sorted_items r))). cbn. now rewrite IH.
Qed.

Lemma latest_bundles_keys (bundles : list Bundle) (latest : list (string * Bundle)) :
  latest_bundles bundles = Ok latest ->
  List.NoDup (map fst latest)
  /\ forall k, In k (map fst latest) <-> In k (map identity bundles).
Proof.
  unfold latest_bundles. intros Hlatest. apply latest_of_keys in Hlatest.
  destruct (group_fold_keys bundles [] (List.NoDup_nil _)) as [Hnodup Hkeys].
  fold (group_by_identity bundles) in Hnodup, Hkeys.
  rewrite <- Hlatest in Hnodup, Hkeys.
  split; [exact Hnodup|].
  intros k. rewrite (in_map_iff identity bundles k), Hkeys. cbn. split.
  - intros [[]|(b & Hb & Hid)]. now exists b.
  - intros (b & Hid & Hb). right. now exists b.
Qed.

Lemma latest_bundles_length (bundles : list Bundle) (latest : list (string * Bundle)) :
  latest_bundles bundles = Ok latest -> length latest = length (identities bundles).
Proof.
  intros H. destruct (latest_bundles_keys bundles latest H) as [Hnodup Hkeys].
  rewrite <- (List.length_map fst latest). apply Permutation_length.
  apply Stdlib.Sorting.Permutation.NoDup_Permutation; [exact Hnodup | apply List.NoDup_nodup |].
  intros k. unfold identities. now rewrite List.nodup_In, Hkeys.
Qed.

(** X21.  When a full run comes to its report, the six lists of the
    index part hold as many records as the index has different bundle
    identities, however often an identity is listed, and the three lists
    of the additional part hold one record for every entry of
    [additionalDownloads] that names both coordinates. *)
Theorem main_counts_every_entry_once (E : Env) (results : Results)
    (additional : AdditionalResults) (st st' : State) :
  main E st = (Ok (results, additional), st') ->
  outcome_count results = length (identities (index_bundles E))
  /\ additional_count additional = length (List.filter counted (ADDITIONAL_DOWNLOADS E)).
Proof.
  unfold main, bind, lift.
  destruct (latest_bundles (index_bundles E)) as [latest|e] eqn:Hlatest; [|discriminate].
  destruct (process_bundles E (sorted_items latest) no_results st) as [[r|e] st1] eqn:Hr;
    [|discriminate].
  destruct (download_additional_bundles E (ADDITIONAL_DOWNLOADS E) false st1)
    as [[a|e] st2] eqn:Ha; [|discriminate].
  unfold ret. intros H. injection H as <- <- _.
  split.
  - apply process_bundles_count in Hr.
    rewrite Hr, sorted_items_length. cbn. now apply latest_bundles_length.
  - unfold download_additional_bundles in Ha.
    destruct (ADDITIONAL_DOWNLOADS E) as [|item rest].
    + unfold ret in Ha. now injection Ha as <- _.
    + now apply process_items_count in Ha.
Qed.

Lemma main_counts_every_entry_once_witness :
  outcome_count
    {| updated := []; up_to_date := [UpToDate "X" "g" "a" "1.9.0"]; unavailable := [];
       local_only := []; not_mapped := []; errors := [] |}
  = length (identities (index_bundles indexed_env))
  /\ additional_count
       {| downloaded := [ {| dl_group_id := "g"; dl_artifact_id := "a";
                             dl_version := PStr "1.3.0"; dl_folder := "x";
                             dl_source := "Maven Central" |} ];
          download_errors := [];
          already_exists := [] |}
     = length (List.filter counted (ADDITIONAL_DOWNLOADS indexed_env)).
Proof.
  eapply (main_counts_every_entry_once indexed_env _ _ empty_state).
  reflexivity.
Defined.

(** ** What a page of mvnrepository can say *)

Lemma page_repositories_known (html : string) :
  incl (page_repositories html) page_repository_table.
Proof.
  unfold page_repositories, page_repository_table.
  destruct (contains "repo1.maven.org" html || contains "Maven Central" html),
    (contains "repository.spring.io" html || contains "Spring" html),
    (contains "repository.jboss.org" html);
    intros x Hx; cbn in Hx |- *; tauto.
Qed.

Lemma read_mvnrepository_page_answer (E : Env) (g a : string) (version : option string)
    (html : string) (i : MvnRepositoryInfo) :
  read_mvnrepository_page E g a version html = Some i ->
  mr_group_id i = g /\ mr_artifact_id i = a
  /\ mr_repositories i <> []
  /\ incl (mr_repositories i) page_repository_table
  /\ (truthy version = true -> version = Some (mr_version i))
  /\ (truthy version = false ->
      option_map strip (re_search_release E html) = Some (mr_version i)).
Proof.
  unfold read_mvnrepository_page.
  set (found := match version with
                | Some v => if truthy version then Some v
                            else option_map strip (re_search_release E html)
                | None => option_map strip (re_search_release E html)
                end).
  assert (Hfound : forall v, found = Some v ->
                             (truthy version = true -> version = Some v)
                             /\ (truthy version = false ->
                                 option_map strip (re_search_release E html) = Some v)).
  { subst found. intros v. destruct version as [w|].
    - destruct (truthy (Some w)).
      + intros H. injection H as ->. split; [reflexivity | discriminate].
      + intros H. split; [discriminate | now intros _].
    - cbn [truthy]. intros H. split; [discriminate | now intros _]. }
  destruct found as [v|]; [|discriminate].
  destruct (Hfound v eq_refl) as [Hpinned Hpage].
  intros H. injection H as <-. cbn.
  repeat split; try assumption.
  - destruct (page_repositories html); discriminate.
  - pose proof (page_repositories_known html) as Hknown.
    destruct (page_repositories html); [|exact Hknown].
    intros x [<-|[]]. now left.
Qed.

(** X22.  [search_mvnrepository] never raises and makes one request, for
    the page of the artifact.  When it finds something, the coordinates
    are the ones asked for, a version that was asked for is returned as
    it is, and the repositories are entries of a table of three, among
    which the page only selects, and are never none. *)
Theorem search_mvnrepository_answer (E : Env) (g a : string) (version : option string)
    (st : State) :
  exists found,
    search_mvnrepository E g a version st
    = (Ok found,
       {| fs := fs st; trace := trace st ++ [Request (mvnrepository_url g a version)] |})
    /\ match found with
       | None => True
       | Some i =>
           mr_group_id i = g /\ mr_artifact_id i = a
           /\ mr_repositories i <> []
           /\ incl (mr_repositories i) page_repository_table
           /\ (truthy version = true -> version = Some (mr_version i))
       end.
Proof.
  unfold search_mvnrepository. run.
  destruct (urlopen E (mvnrepository_url g a version)) as [[body|e]|e]; cbn.
  2,3: exists None; split; [reflexivity | exact I].
  destruct (decode_utf8 E body) as [html|e]; cbn.
  2: exists None; split; [reflexivity | exact I].
  exists (read_mvnrepository_page E g a version html). split; [reflexivity|].
  destruct (read_mvnrepository_page E g a version html) as [i|] eqn:Hpage; [|exact I].
  destruct (read_mvnrepository_page_answer E g a version html i Hpage)
    as (Hg & Ha & Hne & Hknown & Hpinned & _).
  repeat split; assumption.
Qed.

(** ** What a pinned entry asks for *)

Lemma extends_by_refl (P : event -> Prop) (st : State) : extends_by P st st.
Proof. exists []. split; [now rewrite app_nil_r | constructor]. Qed.

Lemma extends_by_trans (P : event -> Prop) (st1 st2 st3 : State) :
  extends_by P st1 st2 -> extends_by P st2 st3 -> extends_by P st1 st3.
Proof.
  intros (t1 & H1 & Hp1) (t2 & H2 & Hp2). exists (t1 ++ t2). split.
  - now rewrite H2, H1, app_assoc.
  - apply List.Forall_app. now split.
Qed.

Lemma truthy_some (s : string) : s <> EmptyString -> truthy (Some s) = true.
Proof.
  intros H. cbn. destruct (String.eqb_spec s EmptyString); [contradiction | reflexivity].
Qed.

Ltac each_event Hreq :=
  eexists; split; [reflexivity|];
  repeat match goal with |- List.Forall _ _ => constructor end;
  first [exact Hreq | reflexivity].

Lemma download_jar_pinned (E : Env) (g a v dest : string) (repo : option string) (st : State) :
  extends_by (pinned_event E g a v dest) st (snd (download_jar E g a v dest repo st)).
Proof.
  rewrite download_jar_run. cbv zeta.
  assert (Hreq : pinned_event E g a v dest (Request (jar_url (repository_of repo) g a v)))
    by (right; now exists (repository_of repo)).
  destruct (urlopen E (jar_url (repository_of repo) g a v)) as [[data|e]|e].
  - destruct (is_error_page data); each_event Hreq.
  - destruct (is_URLError e); each_event Hreq.
  - destruct (is_URLError e); each_event Hreq.
Qed.

Lemma download_jar_from_repos_pinned (E : Env) (repos : list (string * string))
    (g a v dest : string) (st : State) :
  extends_by (pinned_event E g a v dest) st
    (snd (download_jar_from_repos E repos g a v dest st)).
Proof.
  revert st. induction repos as [|[n u] repos IH]; intros st; cbn.
  - apply extends_by_refl.
  - unfold bind.
    pose proof (download_jar_pinned E g a v dest (Some u) st) as H1.
    destruct (download_jar E g a v dest (Some u) st) as [[[]|e] st1]; cbn in H1 |- *;
      try exact H1.
    eapply extends_by_trans; [exact H1 | apply IH].
Qed.

Lemma fetch_item_pinned (E : Env) (g a v dest : string) (repo_url : option string)
    (st : State) :
  extends_by (pinned_event E g a v dest) st (snd (fetch_item E g a v dest repo_url st)).
Proof.
  unfold fetch_item. destruct (truthy repo_url).
  - unfold bind.
    pose proof (download_jar_pinned E g a v dest repo_url st) as H1.
    destruct (download_jar E g a v dest repo_url st) as [[ok|e] st1]; exact H1.
  - unfold bind, download_jar_from_multiple_repos.
    generalize MAVEN_REPOSITORIES. intros repos.
    pose proof (download_jar_pinned E g a v dest None st) as H1.
    destruct (download_jar E g a v dest None st) as [[[]|e] st1]; cbn in H1 |- *;
      try exact H1.
    pose proof (download_jar_from_repos_pinned E repos g a v dest st1) as H2.
    destruct (download_jar_from_repos E repos g a v dest st1)
      as [[[[] name]|e] st2]; cbn in H2 |- *;
      exact (extends_by_trans _ _ _ _ H1 H2).
Qed.

Lemma download_from_bnd_hub_pinned (E : Env) (g a v dest : string) (st : State) :
  extends_by (pinned_event E g a v dest) st (snd (download_from_bnd_hub E a v dest st)).
Proof.
  rewrite download_from_bnd_hub_run. cbv zeta.
  assert (Hreq : pinned_event E g a v dest (Request (bnd_hub_jar_url a v))) by now left.
  destruct (urlopen E (bnd_hub_jar_url a v)) as [[data|e]|e];
    each_event Hreq.
Qed.

(** X23.  An entry of [additionalDownloads] that names its coordinates
    and pins a version is never looked up: whatever the network answers,
    and also when the turn ends in an exception, every request of its
    turn is a request for the jar of the pinned version (on the bundle
    hub or in a repository), the only directory made is its folder and
    the only file written is that jar in that folder. *)
Theorem process_item_pinned_asks_for_its_jar (E : Env) (ce : bool) (item : Item)
    (r : AdditionalResults) (st : State) (g a v : string) :
  item_groupId item = Some g -> g <> EmptyString ->
  item_artifactId item = Some a -> a <> EmptyString ->
  item_version item = Some v -> v <> EmptyString ->
  exists t,
    trace (snd (process_item E ce item r st)) = trace st ++ t
    /\ List.Forall
         (pinned_event E g a v (path_join E (REPO_DIR E) (get_or (item_folder item) "misc")))
         t.
Proof.
  intros Hg Hg' Ha Ha' Hv Hv'.
  change (extends_by
            (pinned_event E g a v (path_join E (REPO_DIR E) (get_or (item_folder item) "misc")))
            st (snd (process_item E ce item r st))).
  unfold process_item. cbv zeta.
  rewrite Hg, Ha, Hv, (truthy_some g Hg'), (truthy_some a Ha'). cbn [has_key negb andb orb get_or].
  rewrite andb_false_r.
  destruct (String.eqb (get_or (item_source item) "Maven Central") "BND Hub").
  - unfold process_bnd_hub_item. cbv zeta. rewrite (truthy_some v Hv'). cbn [get_or].
    unfold bind at 1. rewrite present_run.
    destruct (ce && bool_decide _); [apply extends_by_refl|].
    unfold bind.
    pose proof (download_from_bnd_hub_pinned E g a v
                  (path_join E (REPO_DIR E) (get_or (item_folder item) "misc")) st) as H1.
    destruct (download_from_bnd_hub E a v _ st) as [[[]|e] st1]; exact H1.
  - unfold resolve_item_version. rewrite (truthy_some v Hv').
    unfold bind at 1. unfold ret at 1. cbn [option_map format_value].
    unfold bind at 1. rewrite present_run.
    destruct (ce && bool_decide _); [apply extends_by_refl|].
    unfold bind.
    pose proof (fetch_item_pinned E g a v
                  (path_join E (REPO_DIR E) (get_or (item_folder item) "misc"))
                  (item_repoUrl item) st) as H1.
    destruct (fetch_item E g a v _ (item_repoUrl item) st) as [[[[] src]|e] st1]; exact H1.
Qed.

Lemma process_item_pinned_asks_for_its_jar_witness :
  exists t,
    trace (snd (process_item scenario_env false pinned_item no_additional_results empty_state))
    = trace empty_state ++ t
    /\ List.Forall
         (pinned_event scenario_env "g" "a" "1.3.0"
            (path_join scenario_env (REPO_DIR scenario_env)
               (get_or (item_folder pinned_item) "misc")))
         t.
Proof.
  apply (process_item_pinned_asks_for_its_jar scenario_env false pinned_item
           no_additional_results empty_state "g" "a" "1.3.0");
    solve [reflexivity | discriminate].
Defined.
